(** * DNS / DoH resolver latency testers: a shallow embedding

    The development follows the two programs of the repository,
    [dns_ipv4.py] (class [DNSSpeedTester], plain UDP probes) and
    [doh_ipv4.py] (class [DoHSpeedTester], HTTPS probes).

    Conventions of the embedding.
    - A Python [str] is the list of its Unicode code points ([N]); [bytes]
      is a list of [Byte.byte].  [len] of a [str] therefore counts
      characters, [len] of [bytes] counts octets, as in Python.
    - A Python exception is a value of [exn]; code that may raise returns
      a [result].  Code that also talks to the operating system runs in
      the monad [io], which threads a [World] and consults an oracle for
      everything the outside world decides (clock readings, whether a
      call to the network succeeds).  Which hosts the idna codec encodes
      is a field of the world as well.
    - A Python [float] is modelled by [pyfloat]: an exact rational or
      [float('inf')].  The binary64 rounding of the arithmetic is not
      modelled, nor is underflow: a quotient is the exact quotient.
      [statistics.mean] itself sums exactly before it converts its
      result.
    - A [dict] is an association list in insertion order, which Python
      guarantees for iteration.
    - What a program prints is a list of [Console.line], one value for
      each call of [print]: the message and the values it shows, without
      the layout of the text.  A call of [print] is taken to succeed. *)

From Stdlib.Strings Require Import String Ascii Byte.
From Stdlib Require Import ZArith NArith QArith Qabs List Bool Lia Lqa.
From Stdlib Require Import Permutation Sorted.
Import ListNotations.

Set Implicit Arguments.

(* ===================================================================== *)
(** * Python runtime                                                      *)
(* ===================================================================== *)

Module Py.

(** ** Exceptions and results *)

Inductive exn : Set :=
| StructError          (* struct.error *)
| UnicodeEncodeError
| ZeroDivisionError
| StatisticsError
| ValueError
| TypeError
| OverflowError
| SocketTimeout        (* socket.timeout *)
| SocketError          (* socket.error, i.e. OSError *)
| HTTPError            (* any exception raised under httpx *)
| DNSException.        (* any exception raised under dns.message *)

Inductive result (A : Type) : Type :=
| Ok (a : A)
| Raise (e : exn).
Arguments Ok {A} a.
Arguments Raise {A} e.

Definition rbind {A B} (r : result A) (k : A -> result B) : result B :=
  match r with
  | Ok a => k a
  | Raise e => Raise e
  end.

Definition raises {A} (r : result A) : Prop := exists e, r = Raise e.
Definition returns {A} (r : result A) : Prop := exists a, r = Ok a.

(** ** [str] and [bytes] *)

Definition str := list N.
Definition bytes := list byte.

Definition str_of_string (s : string) : str :=
  map N_of_ascii (list_ascii_of_string s).

Definition DOT : N := 46%N.

(** [s.split(sep)] for a one-character separator: one more part than
    there are separators, empty parts kept. *)
Fixpoint split (sep : N) (s : str) : list str :=
  match s with
  | [] => [[]]
  | c :: s' =>
      if N.eqb c sep then [] :: split sep s'
      else match split sep s' with
           | p :: ps => (c :: p) :: ps
           | [] => [[c]]
           end
  end.

Fixpoint join (sep : N) (parts : list str) : str :=
  match parts with
  | [] => []
  | [p] => p
  | p :: ps => p ++ sep :: join sep ps
  end.

Definition byte_of (n : N) : byte :=
  match Byte.of_N (N.land n 255) with
  | Some b => b
  | None => x00
  end.

Definition is_surrogate (c : N) : bool :=
  (N.leb 0xD800 c && N.leb c 0xDFFF)%bool.

(** UTF-8 of one code point, as [str.encode()] produces it under the
    default strict error handler: a lone surrogate is refused. *)
Definition utf8_char (c : N) : result bytes :=
  if N.ltb c 0x80 then Ok [byte_of c]
  else if N.ltb c 0x800 then
    Ok [byte_of (N.lor 0xC0 (N.shiftr c 6));
        byte_of (N.lor 0x80 (N.land c 0x3F))]
  else if is_surrogate c then Raise UnicodeEncodeError
  else if N.ltb c 0x10000 then
    Ok [byte_of (N.lor 0xE0 (N.shiftr c 12));
        byte_of (N.lor 0x80 (N.land (N.shiftr c 6) 0x3F));
        byte_of (N.lor 0x80 (N.land c 0x3F))]
  else if N.ltb c 0x110000 then
    Ok [byte_of (N.lor 0xF0 (N.shiftr c 18));
        byte_of (N.lor 0x80 (N.land (N.shiftr c 12) 0x3F));
        byte_of (N.lor 0x80 (N.land (N.shiftr c 6) 0x3F));
        byte_of (N.lor 0x80 (N.land c 0x3F))]
  else Raise UnicodeEncodeError.

Fixpoint encode (s : str) : result bytes :=
  match s with
  | [] => Ok []
  | c :: s' =>
      rbind (utf8_char c) (fun b =>
      rbind (encode s') (fun bs => Ok (b ++ bs)))
  end.

Definition len {A} (l : list A) : Z := Z.of_nat (length l).

(** ** [struct.pack] with network byte order, formats [B] and [H] *)

Inductive fmt : Set := B | H.

Definition pack1 (f : fmt) (v : Z) : result bytes :=
  match f with
  | B => if (Z.leb 0 v && Z.leb v 0xFF)%bool
         then Ok [byte_of (Z.to_N v)]
         else Raise StructError
  | H => if (Z.leb 0 v && Z.leb v 0xFFFF)%bool
         then Ok [byte_of (Z.to_N (Z.shiftr v 8));
                  byte_of (Z.to_N (Z.land v 0xFF))]
         else Raise StructError
  end.

Fixpoint struct_pack (fs : list fmt) (vs : list Z) : result bytes :=
  match fs, vs with
  | [], [] => Ok []
  | f :: fs', v :: vs' =>
      rbind (pack1 f v) (fun b =>
      rbind (struct_pack fs' vs') (fun bs => Ok (b ++ bs)))
  | _, _ => Raise StructError
  end.

(** Big-endian reading of the two octets at offset [off]. *)
Definition unpack_H (off : nat) (bs : bytes) : option Z :=
  match nth_error bs off, nth_error bs (S off) with
  | Some hi, Some lo =>
      Some (Z.lor (Z.shiftl (Z.of_N (Byte.to_N hi)) 8) (Z.of_N (Byte.to_N lo)))
  | _, _ => None
  end.

(** ** Lists and slices *)

(** [l[:n]]: a negative bound counts from the end. *)
Definition slice_to {A} (l : list A) (n : Z) : list A :=
  if Z.ltb n 0 then firstn (Z.to_nat (len l + n)) l
  else firstn (Z.to_nat n) l.

(** ** Floats

    The floats of the two programs are elapsed times, their statistics and
    [float('inf')]; no NaN arises. *)

Inductive pyfloat : Type :=
| Fin (q : Q)
| Inf.

(** [a < b] and [a == b] on floats. *)
Definition Qltb (a b : Q) : bool := negb (Qle_bool b a).

Definition flt (a b : pyfloat) : bool :=
  match a, b with
  | Fin x, Fin y => Qltb x y
  | Fin _, Inf => true
  | Inf, _ => false
  end.

Definition feq (a b : pyfloat) : bool :=
  match a, b with
  | Fin x, Fin y => Qeq_bool x y
  | Inf, Inf => true
  | _, _ => false
  end.

Definition fle (a b : pyfloat) : Prop :=
  match a, b with
  | Fin x, Fin y => (x <= y)%Q
  | _, Inf => True
  | Inf, Fin _ => False
  end.

(** [a / b] on integers: true division.  The quotient is exact here;
    Python rounds it to binary64, where a quotient too small to be
    represented is [0.0]. *)
Definition truediv (a b : Z) : result Q :=
  if Z.eqb b 0 then Raise ZeroDivisionError
  else Ok (inject_Z a / inject_Z b)%Q.

(** ** Builtins [min], [max], [sorted] *)

Definition py_min (l : list Q) : result Q :=
  match l with
  | [] => Raise ValueError
  | x :: xs => Ok (fold_left (fun best y => if Qltb y best then y else best) xs x)
  end.

Definition py_max (l : list Q) : result Q :=
  match l with
  | [] => Raise ValueError
  | x :: xs => Ok (fold_left (fun best y => if Qltb best y then y else best) xs x)
  end.

(** [sorted(l, key=key)].  The sort is stable and compares keys with [<]
    only; every stable sort gives the same list, insertion is the
    simplest to write down. *)
Section Sorted.
Variables (A K : Type) (key : A -> K) (lt : K -> K -> bool).

Fixpoint insert (x : A) (l : list A) : list A :=
  match l with
  | [] => [x]
  | y :: l' => if lt (key y) (key x) then y :: insert x l' else x :: y :: l'
  end.

Fixpoint sorted (l : list A) : list A :=
  match l with
  | [] => []
  | x :: l' => insert x (sorted l')
  end.
End Sorted.

(** ** Module [statistics] *)

Definition Qsum (l : list Q) : Q := fold_right Qplus 0%Q l.

Definition mean (data : list Q) : result Q :=
  match data with
  | [] => Raise StatisticsError
  | _ => Ok (Qsum data / inject_Z (len data))%Q
  end.

Definition median (data : list Q) : result Q :=
  let data := sorted (fun x => x) Qltb data in
  let n := length data in
  if Nat.eqb n 0 then Raise StatisticsError
  else if Nat.eqb (n mod 2) 1 then Ok (nth (n / 2) data 0%Q)
  else
    let i := (n / 2)%nat in
    Ok ((nth (i - 1) data 0 + nth i data 0) / 2)%Q.

(** ** [dict], in insertion order *)

Definition dict (V : Type) := list (str * V).

Definition str_eqb (a b : str) : bool :=
  if list_eq_dec N.eq_dec a b then true else false.

Fixpoint dict_get {V} (d : dict V) (k : str) : option V :=
  match d with
  | [] => None
  | (k', v) :: d' => if str_eqb k' k then Some v else dict_get d' k
  end.

(** [d[k] = v]: a present key keeps its place, a new one goes last. *)
Fixpoint dict_set {V} (d : dict V) (k : str) (v : V) : dict V :=
  match d with
  | [] => [(k, v)]
  | (k', v') :: d' =>
      if str_eqb k' k then (k', v) :: d' else (k', v') :: dict_set d' k v
  end.

Definition items {V} (d : dict V) : list (str * V) := d.

End Py.

(* ===================================================================== *)
(** * dns_ipv4.py, the query encoder                                      *)
(* ===================================================================== *)

Module DnsCodec.
Import Py.

(** The loop [for part in domain.split('.'): question += ...]. *)
Fixpoint encode_parts (parts : list str) (question : bytes) : result bytes :=
  match parts with
  | [] => Ok question
  | part :: rest =>
      rbind (struct_pack [B] [len part]) (fun l =>
      rbind (encode part) (fun p =>
      encode_parts rest (question ++ (l ++ p))))
  end.

Definition create_dns_query (domain : str) : result bytes :=
  let query_id := 0x1234%Z in
  let flags := 0x0100%Z in
  let questions := 1%Z in
  let answer_rrs := 0%Z in
  let authority_rrs := 0%Z in
  let additional_rrs := 0%Z in
  rbind (struct_pack [H; H; H; H; H; H]
           [query_id; flags; questions; answer_rrs; authority_rrs; additional_rrs])
    (fun header =>
  rbind (encode_parts (split DOT domain) []) (fun question =>
  let question := question ++ [x00] in
  rbind (struct_pack [H; H] [0x0001%Z; 0x0001%Z]) (fun tc =>
  let question := question ++ tc in
  Ok (header ++ question)))).

(** *** Reading a question section back

    The reader a receiver applies to the question section: a length octet,
    that many octets of label, and so on up to the zero octet.  It returns
    the labels and the octets that follow the name. *)
Fixpoint read_labels (fuel : nat) (bs : bytes) : option (list bytes * bytes) :=
  match fuel with
  | O => None
  | S fuel' =>
      match bs with
      | [] => None
      | n :: rest =>
          let k := N.to_nat (Byte.to_N n) in
          match k with
          | O => Some ([], rest)
          | S _ =>
              if (length rest <? k)%nat then None
              else match read_labels fuel' (skipn k rest) with
                   | Some (ls, tl) => Some (firstn k rest :: ls, tl)
                   | None => None
                   end
          end
      end
  end.

Definition text_of (b : bytes) : str := map Byte.to_N b.

(** The domain a receiver reconstructs from a whole message, and the
    octets that follow the name. *)
Definition parse_question (msg : bytes) : option (str * bytes) :=
  let q := skipn 12 msg in
  match read_labels (length q) q with
  | Some (ls, tl) => Some (join DOT (map text_of ls), tl)
  | None => None
  end.

End DnsCodec.


(* ===================================================================== *)
(** * The operating system as seen by one thread                          *)
(* ===================================================================== *)

Module OS.
Import Py.

(** What the outside world answers to one call: whether the call
    succeeds, whether a failure is a timeout, the clock reading, the HTTP
    status and the payload received.  Each call reads the fields it needs. *)
Record answer : Type := {
  ans_ok : bool;
  ans_timeout : bool;
  ans_time : Q;
  ans_status : Z;
  ans_data : bytes
}.

Record World : Type := {
  oracle : nat -> answer;      (* the answer to the n-th call *)
  idna : str -> bool;          (* the hosts the idna codec encodes *)
  tick : nat;                  (* calls made so far *)
  next_fd : nat;
  open_socks : list nat;       (* sockets created and not closed by [close] *)
  sent : list (bytes * str * Z); (* datagrams handed to sendto, oldest first *)
  posted : list (str * bytes)   (* requests handed to httpx.post, oldest first *)
}.

Definition io (A : Type) : Type := World -> result A * World.

Definition ret {A} (a : A) : io A := fun w => (Ok a, w).

Definition bind {A B} (m : io A) (k : A -> io B) : io B :=
  fun w =>
    match m w with
    | (Ok a, w') => k a w'
    | (Raise e, w') => (Raise e, w')
    end.

Definition lift {A} (r : result A) : io A := fun w => (r, w).

(** [try: body except <classes>: handler]. *)
Definition try_except {A} (body : io A) (catches : exn -> bool) (handler : io A)
  : io A :=
  fun w =>
    match body w with
    | (Ok a, w') => (Ok a, w')
    | (Raise e, w') => if catches e then handler w' else (Raise e, w')
    end.

Definition ask : io answer :=
  fun w =>
    (Ok (oracle w (tick w)),
     {| oracle := oracle w; idna := idna w; tick := S (tick w);
        next_fd := next_fd w; open_socks := open_socks w; sent := sent w;
        posted := posted w |}).

(** [socket.socket(AF_INET, SOCK_DGRAM)] *)
Definition socket_socket : io nat :=
  bind ask (fun a w =>
    if ans_ok a then
      (Ok (next_fd w),
       {| oracle := oracle w; idna := idna w; tick := tick w;
          next_fd := S (next_fd w); open_socks := next_fd w :: open_socks w;
          sent := sent w; posted := posted w |})
    else (Raise SocketError, w)).

(** [sock.settimeout(timeout)] converts the timeout to the 64-bit count
    of nanoseconds of the interpreter's clock, rounding away from zero: a
    timeout beyond that range is an [OverflowError], a negative one a
    [ValueError].  This is the check of a platform with [poll], such as
    Linux; a platform without it also refuses, with an [OverflowError],
    a timeout of more than 2 147 483 seconds.  At the very edge of the
    range binary64 rounding decides between the two exceptions; rounding
    is not modelled. *)
Definition check_timeout (timeout : Q) : result unit :=
  if Qltb (inject_Z (2 ^ 63)) (Qabs timeout * inject_Z (10 ^ 9))
  then Raise OverflowError
  else if Qltb timeout 0 then Raise ValueError
  else Ok tt.

Definition settimeout (sock : nat) (timeout : Q) : io unit :=
  lift (check_timeout timeout).

Definition time_time : io Q :=
  bind ask (fun a => ret (ans_time a)).

(** The host of an address, as the socket module converts it before any
    system call: an ASCII host is taken as it is, any other host goes
    through the idna codec, and a host with a NUL character, or one the
    codec does not encode, is refused with a [TypeError]. *)
Definition host_refused (idna : str -> bool) (host : str) : bool :=
  existsb (N.eqb 0) host
  || (negb (forallb (fun c => N.ltb c 128) host) && negb (idna host)).

(** [sock.sendto(data, addr)]: a failure to resolve the host or to send
    is an [OSError]. *)
Definition sendto (sock : nat) (data : bytes) (addr : str * Z) : io unit :=
  fun w =>
    if host_refused (idna w) (fst addr) then (Raise TypeError, w)
    else
      bind ask (fun a w =>
        if ans_ok a then
          (Ok tt,
           {| oracle := oracle w; idna := idna w; tick := tick w;
              next_fd := next_fd w; open_socks := open_socks w;
              sent := sent w ++ [(data, fst addr, snd addr)];
              posted := posted w |})
        else (Raise SocketError, w)) w.

Definition recvfrom (sock : nat) (bufsize : Z) : io bytes :=
  bind ask (fun a =>
    if ans_ok a then ret (ans_data a)
    else if ans_timeout a then lift (Raise SocketTimeout)
    else lift (Raise SocketError)).

Definition close (sock : nat) : io unit :=
  fun w =>
    (Ok tt,
     {| oracle := oracle w; idna := idna w; tick := tick w;
        next_fd := next_fd w;
        open_socks := remove Nat.eq_dec sock (open_socks w); sent := sent w;
        posted := posted w |}).

(** [httpx.post(url, content=..., headers=..., timeout=...)]: the status
    of the response, or the exception of a request that fails. *)
Definition httpx_post (url : str) (content : bytes) (timeout : Q) : io Z :=
  bind ask (fun a w =>
    let w' :=
      {| oracle := oracle w; idna := idna w; tick := tick w;
         next_fd := next_fd w; open_socks := open_socks w; sent := sent w;
         posted := posted w ++ [(url, content)] |} in
    if ans_ok a then (Ok (ans_status a), w') else (Raise HTTPError, w')).

(** [resp.raise_for_status()]: every status outside 2xx raises. *)
Definition is_success (status : Z) : bool :=
  (Z.leb 200 status && Z.leb status 299)%bool.

Definition raise_for_status (status : Z) : io unit :=
  if is_success status then ret tt else lift (Raise HTTPError).

Arguments check_timeout : simpl never.
Arguments host_refused : simpl never.
Arguments is_success : simpl never.

End OS.

Declare Scope io_scope.
Delimit Scope io_scope with io.
Notation "x <- m ;; k" := (OS.bind m (fun x => k))
  (at level 61, m at next level, right associativity) : io_scope.
Notation "m ;; k" := (OS.bind m (fun _ => k))
  (at level 61, right associativity) : io_scope.

Declare Scope result_scope.
Delimit Scope result_scope with result.
Notation "x <- m ;; k" := (Py.rbind m (fun x => k))
  (at level 61, m at next level, right associativity) : result_scope.

(* ===================================================================== *)
(** * Resolver statistics, shared by both programs                        *)
(* ===================================================================== *)

Module Stats.
Import Py.

Record t : Type := {
  avg : pyfloat;
  min : pyfloat;
  max : pyfloat;
  median : pyfloat;
  success_rate : Q
}.

(** The dictionary both programs return when no probe succeeded. *)
Definition sentinel : t :=
  {| avg := Inf; min := Inf; max := Inf; median := Inf; success_rate := 0 |}.

End Stats.

(* ===================================================================== *)
(** * dns_ipv4.py, class DNSSpeedTester                                   *)
(* ===================================================================== *)

Module DnsIpv4.
Import Py OS DnsCodec.

Record DNSSpeedTester : Type := {
  dns_servers : dict str;
  test_domains : list str
}.

Definition catches_socket (e : exn) : bool :=
  match e with
  | SocketTimeout | SocketError => true
  | _ => false
  end.

Definition test_dns_server (server_name server_ip domain : str) (timeout : Q)
  : io (str * pyfloat) :=
  try_except
    (sock <- socket_socket ;;
     settimeout sock timeout ;;
     query <- lift (create_dns_query domain) ;;
     start_time <- time_time ;;
     sendto sock query (server_ip, 53%Z) ;;
     _ <- recvfrom sock 1024 ;;
     end_time <- time_time ;;
     let response_time := ((end_time - start_time) * 1000)%Q in
     close sock ;;
     ret (server_name, Fin response_time))%io
    catches_socket
    (ret (server_name, Inf)).

(** The loop [for domain in ...: probe; if response_time != inf: append].
    The comparison with [float('inf')] is the match below: what the list
    collects is finite. *)
Fixpoint probe_each (probe : str -> io pyfloat) (domains : list str)
    (results : list Q) : io (list Q) :=
  match domains with
  | [] => ret results
  | domain :: rest =>
      (response_time <- probe domain ;;
       probe_each probe rest
         (match response_time with
          | Fin t => results ++ [t]
          | Inf => results
          end))%io
  end.

Definition test_multiple_queries (self : DNSSpeedTester)
    (server_name server_ip : str) (num_queries : Z) : io Stats.t :=
  (results <- probe_each
                (fun domain =>
                   r <- test_dns_server server_name server_ip domain 2 ;;
                   ret (snd r))
                (slice_to (test_domains self) num_queries) [] ;;
   match results with
   | [] => ret Stats.sentinel
   | _ =>
       lift (a <- mean results ;;
             mn <- py_min results ;;
             mx <- py_max results ;;
             md <- median results ;;
             r <- truediv (len results) num_queries ;;
             Ok {| Stats.avg := Fin a; Stats.min := Fin mn; Stats.max := Fin mx;
                   Stats.median := Fin md;
                   Stats.success_rate := (r * 100)%Q |})%result
   end)%io.

(** The thread pool of one run: the world in which the task of each
    resolver executes, and the order in which the futures complete. *)
Record pool : Type := {
  world_of : str -> World;
  as_completed : list (result Stats.t * str) -> list (result Stats.t * str)
}.

(** The body of [for future in as_completed(future_to_server)]. *)
Definition collect (results : dict Stats.t) (f : result Stats.t * str)
  : dict Stats.t :=
  let server_name := snd f in
  match fst f with
  | Ok result => dict_set results server_name result
  | Raise e => dict_set results server_name Stats.sentinel
  end.

Definition run_speed_test (self : DNSSpeedTester) (num_queries max_workers : Z)
    (p : pool) : result (dict Stats.t) :=
  let results := [] in
  if Z.leb max_workers 0 then Raise ValueError  (* ThreadPoolExecutor refuses *)
  else
    let future_to_server :=
      map (fun '(name, ip) =>
             (fst (test_multiple_queries self name ip num_queries (world_of p name)),
              name))
          (items (dns_servers self)) in
    Ok (fold_left collect (as_completed p future_to_server) results).

Definition by_avg (x : str * Stats.t) : pyfloat := Stats.avg (snd x).

(** [sorted_results] of [print_summary]; empty when the function returns
    early on an empty [valid_results]. *)
Definition sorted_results (results : dict Stats.t) : list (str * Stats.t) :=
  let valid_results :=
    filter (fun '(k, v) =>
              negb (feq (Stats.avg v) Inf) && Qltb 0 (Stats.success_rate v))
           (items results) in
  match valid_results with
  | [] => []
  | _ => sorted by_avg flt valid_results
  end.

(** The rows [print_summary] prints, top to bottom. *)
Definition print_summary (results : dict Stats.t) : list (str * Stats.t) :=
  firstn 10 (sorted_results results).

Definition add_custom_dns (self : DNSSpeedTester) (name ip : str)
  : DNSSpeedTester :=
  {| dns_servers := dict_set (dns_servers self) name ip;
     test_domains := test_domains self |}.

Definition remove_dns (self : DNSSpeedTester) (name : str) : DNSSpeedTester :=
  {| dns_servers := filter (fun '(k, _) => negb (str_eqb k name)) (dns_servers self);
     test_domains := test_domains self |}.

End DnsIpv4.

(* ===================================================================== *)
(** * doh_ipv4.py, class DoHSpeedTester                                   *)
(* ===================================================================== *)

Module DohIpv4.
Import Py OS.

Record DoHSpeedTester : Type := {
  doh_servers : dict str;
  domains : list str
}.

Section WithDnsPython.

(** [dns.message.make_query(domain, dns.rdatatype.A).to_wire()] belongs
    to the dnspython package: the message it builds, or the exception
    it raises on a name it refuses. *)
Variable make_query_to_wire : str -> result bytes.

Definition build_dns_query (domain : str) : result bytes :=
  make_query_to_wire domain.

Definition test_doh_server (server_name url domain : str) (timeout : Q)
  : io pyfloat :=
  (query <- lift (build_dns_query domain) ;;
   try_except
     (start <- time_time ;;
      resp <- httpx_post url query timeout ;;
      raise_for_status resp ;;
      now <- time_time ;;
      let duration := ((now - start) * 1000)%Q in
      ret (Fin duration))
     (fun _ => true)
     (ret Inf))%io.

Fixpoint probe_each (probe : str -> io pyfloat) (domains : list str)
    (times : list Q) : io (list Q) :=
  match domains with
  | [] => ret times
  | domain :: rest =>
      (resp_time <- probe domain ;;
       probe_each probe rest
         (match resp_time with
          | Fin t => times ++ [t]
          | Inf => times
          end))%io
  end.

Definition test_server_on_domains (self : DoHSpeedTester) (name url : str)
    (count : Z) : io Stats.t :=
  (times <- probe_each (fun domain => test_doh_server name url domain 3)
              (slice_to (domains self) count) [] ;;
   match times with
   | [] => ret Stats.sentinel
   | _ =>
       lift (a <- mean times ;;
             mn <- py_min times ;;
             mx <- py_max times ;;
             md <- median times ;;
             r <- truediv (len times) count ;;
             Ok {| Stats.avg := Fin a; Stats.min := Fin mn; Stats.max := Fin mx;
                   Stats.median := Fin md;
                   Stats.success_rate := (r * 100)%Q |})%result
   end)%io.

Record pool : Type := {
  world_of : str -> World;
  as_completed : list (result Stats.t * str) -> list (result Stats.t * str)
}.

(** The body of [for future in as_completed(futures)]: a task that
    raised is reported on the console and leaves [results] as it was. *)
Definition collect (results : dict Stats.t) (f : result Stats.t * str)
  : dict Stats.t :=
  let name := snd f in
  match fst f with
  | Ok stats => dict_set results name stats
  | Raise e => results
  end.

Definition run (self : DoHSpeedTester) (domain_count max_workers : Z)
    (p : pool) : result (dict Stats.t) :=
  let results := [] in
  if Z.leb max_workers 0 then Raise ValueError
  else
    let futures :=
      map (fun '(name, url) =>
             (fst (test_server_on_domains self name url domain_count
                     (world_of p name)),
              name))
          (items (doh_servers self)) in
    Ok (fold_left collect (as_completed p futures) results).

End WithDnsPython.

Definition by_avg (x : str * Stats.t) : pyfloat := Stats.avg (snd x).

Definition sorted_results (results : dict Stats.t) : list (str * Stats.t) :=
  let valid :=
    filter (fun '(k, v) => negb (feq (Stats.avg v) Inf)) (items results) in
  sorted by_avg flt valid.

(** The rows [print_summary] prints, top to bottom. *)
Definition print_summary (results : dict Stats.t) : list (str * Stats.t) :=
  sorted_results results.

End DohIpv4.

(* ===================================================================== *)
(** * The tables of the two programs                                      *)
(* ===================================================================== *)

Module Tables.
Import Py.
Local Open Scope string_scope.

(** [DNSSpeedTester.__init__]: [self.dns_servers]. *)
Definition dns_servers : dict str :=
  [(str_of_string "Google DNS 1", str_of_string "8.8.8.8");
   (str_of_string "Google DNS 2", str_of_string "8.8.4.4");
   (str_of_string "Cloudflare DNS 1", str_of_string "1.1.1.1");
   (str_of_string "Cloudflare DNS 2", str_of_string "1.0.0.1");
   (str_of_string "OpenDNS 1", str_of_string "208.67.222.222");
   (str_of_string "OpenDNS 2", str_of_string "208.67.220.220");
   (str_of_string "Quad9", str_of_string "9.9.9.9");
   (str_of_string "Quad9 Secondary", str_of_string "149.112.112.112");
   (str_of_string "Level3 DNS 1", str_of_string "4.2.2.1");
   (str_of_string "Level3 DNS 2", str_of_string "4.2.2.2");
   (str_of_string "Comodo DNS 1", str_of_string "8.26.56.26");
   (str_of_string "Comodo DNS 2", str_of_string "8.20.247.20");
   (str_of_string "CleanBrowsing", str_of_string "185.228.168.9");
   (str_of_string "AdGuard DNS", str_of_string "94.140.14.14");
   (str_of_string "114 DNS1", str_of_string "114.114.114.114");
   (str_of_string "114 DNS2", str_of_string "114.114.115.115");
   (([0x963F%N; 0x91CC%N; 0x4E91%N] ++ str_of_string " DNS1")%list, str_of_string "223.5.5.5");
   (([0x963F%N; 0x91CC%N; 0x4E91%N] ++ str_of_string " DNS2")%list, str_of_string "223.6.6.6");
   (([0x817E%N; 0x8BAF%N; 0x4E91%N] ++ str_of_string " DNS")%list, str_of_string "119.29.29.29");
   (([0x767E%N; 0x5EA6%N] ++ str_of_string " DNS")%list, str_of_string "180.76.76.76");
   ((str_of_string "360 " ++ [0x8054%N; 0x901A%N] ++ str_of_string "DNS1 ")%list, str_of_string "123.125.81.6");
   ((str_of_string "360 " ++ [0x8054%N; 0x901A%N] ++ str_of_string "DNS2")%list, str_of_string "140.207.198.6");
   ((str_of_string "360 " ++ [0x7535%N; 0x4FE1%N; 0x3001%N; 0x79FB%N; 0x52A8%N; 0x3001%N; 0x94C1%N; 0x901A%N] ++ str_of_string "DNS1")%list, str_of_string "101.226.4.6");
   ((str_of_string "360 " ++ [0x7535%N; 0x4FE1%N; 0x3001%N; 0x79FB%N; 0x52A8%N; 0x3001%N; 0x94C1%N; 0x901A%N] ++ str_of_string "DNS2")%list, str_of_string "218.30.118.6");
   (([0x5317%N; 0x4EAC%N; 0x8054%N; 0x901A%N] ++ str_of_string " DNS1")%list, str_of_string "123.123.123.123");
   (([0x5317%N; 0x4EAC%N; 0x8054%N; 0x901A%N] ++ str_of_string " DNS2")%list, str_of_string "123.123.123.124");
   (([0x5317%N; 0x4EAC%N; 0x8054%N; 0x901A%N] ++ str_of_string " DNS3")%list, str_of_string "202.106.0.20");
   (([0x5317%N; 0x4EAC%N; 0x8054%N; 0x901A%N] ++ str_of_string " DNS4")%list, str_of_string "202.106.195.68")].

(** [DNSSpeedTester.__init__]: [self.test_domains]. *)
Definition test_domains : list str :=
  map str_of_string
   ["baidu.com"; "bing.com"; "sogou.com"; "so.com"; "zhihu.com";
    "douban.com"; "tieba.baidu.com"; "xueqiu.com"; "hupu.com"; "guokr.com";
    "taobao.com"; "tmall.com"; "jd.com"; "pinduoduo.com"; "suning.com";
    "dangdang.com"; "vip.com"; "kaola.com"; "yhd.com"; "amazon.cn";
    "weibo.com"; "qq.com"; "weixin.qq.com"; "toutiao.com";
    "xiaohongshu.com"; "douyin.com"; "kuaishou.com"; "bilibili.com";
    "iqiyi.com"; "youku.com"; "mgtv.com"; "pptv.com"; "acfun.cn";
    "huya.com"; "douyu.com"; "sina.com.cn"; "163.com"; "sohu.com";
    "people.com.cn"; "xinhuanet.com"; "ifeng.com"; "china.com"; "cctv.com";
    "gmw.cn"; "thepaper.cn"; "caixin.com"; "36kr.com"; "csdn.net";
    "oschina.net"; "cnblogs.com"; "jianshu.com"; "segmentfault.com";
    "51cto.com"; "aliyun.com"; "qcloud.com"; "huaweicloud.com"; "189.cn";
    "mi.com"; "huawei.com"; "oppo.com"; "vivo.com"; "meituan.com";
    "dianping.com"; "ele.me"; "ctrip.com"; "qunar.com"; "12306.cn";
    "58.com"; "ganji.com"; "zufang.com"; "autohome.com.cn"; "bitauto.com";
    "che168.com"; "anjuke.com"; "lianjia.com"; "alipay.com";
    "unionpay.com"; "icbc.com.cn"; "ccb.com"; "abcchina.com"; "boc.cn";
    "cmbchina.com"; "pingan.com"; "ximalaya.com"; "qingting.fm";
    "lizhi.fm"; "kugou.com"; "kuwo.cn"; "qqmusic.com"; "netease.com";
    "7k7k.com"; "4399.com"; "17173.com"; "a9vg.com"; "tgbus.com";
    "3dmgame.com"; "zhangyue.com"; "qidian.com"; "zongheng.com"; "17k.com";
    "jjwxc.net"; "gov.cn"; "edu.cn"; "mooc.cn"; "chinadaily.com.cn";
    "cri.cn"; "china.org.cn"].

Definition DOH_SERVERS : dict str :=
  [(str_of_string "Cloudflare IPv4", str_of_string "https://1.1.1.1/dns-query");
   (str_of_string "Cloudflare IPv4 #2", str_of_string "https://1.0.0.1/dns-query");
   (str_of_string "Google DoH IPv4", str_of_string "https://8.8.8.8/dns-query");
   (str_of_string "Google DoH IPv4 #2", str_of_string "https://8.8.4.4/dns-query")].

Definition US_DOMAINS : list str :=
  slice_to
   (map str_of_string
     ["google.com"; "facebook.com"; "youtube.com"; "amazon.com";
      "yahoo.com"; "reddit.com"; "wikipedia.org"; "ebay.com";
      "linkedin.com"; "netflix.com"; "espn.com"; "cnn.com"; "foxnews.com";
      "nytimes.com"; "msn.com"; "apple.com"; "microsoft.com"; "imdb.com";
      "pinterest.com"; "instagram.com"; "paypal.com"; "target.com";
      "walmart.com"; "bestbuy.com"; "home depot.com"; "lowes.com";
      "costco.com"; "macys.com"; "kohls.com"; "npr.org"; "weather.com";
      "accuweather.com"; "hulu.com"; "zoom.us"; "dropbox.com";
      "stackoverflow.com"; "github.com"; "twitch.tv"; "cbsnews.com";
      "nbcnews.com"; "abcnews.go.com"; "bbc.com"; "usatoday.com";
      "forbes.com"; "bloomberg.com"; "wsj.com"; "marketwatch.com";
      "investopedia.com"; "theverge.com"; "techcrunch.com"; "engadget.com";
      "wired.com"; "cnet.com"; "businessinsider.com"; "buzzfeed.com";
      "quora.com"; "fandom.com"; "tripadvisor.com"; "booking.com";
      "airbnb.com"; "expedia.com"; "kayak.com"; "zillow.com";
      "realtor.com"; "indeed.com"; "glassdoor.com"; "craigslist.org";
      "etsy.com"; "wayfair.com"; "chewy.com"; "overstock.com"; "nike.com";
      "adidas.com"; "underarmour.com"; "dickssportinggoods.com";
      "oldnavy.com"; "gap.com"; "uniqlo.com"; "ae.com"; "hollisterco.com";
      "abercrombie.com"; "shein.com"; "fashionnova.com"; "poshmark.com";
      "thredup.com"; "sephora.com"; "ulta.com"; "glossier.com";
      "macys.com"; "nordstrom.com"; "jcpenney.com"; "bjs.com";
      "samsclub.com"; "kroger.com"; "wholefoodsmarket.com";
      "traderjoes.com"; "publix.com"; "safeway.com"; "wegmans.com";
      "aldi.us"; "harborfreight.com"; "acehardware.com"; "grainger.com"])
   100.


(** [DNSSpeedTester()] *)
Definition DNSSpeedTester_init : DnsIpv4.DNSSpeedTester :=
  {| DnsIpv4.dns_servers := dns_servers; DnsIpv4.test_domains := test_domains |}.

(** [DoHSpeedTester(DOH_SERVERS, US_DOMAINS)] *)
Definition DoHSpeedTester_init : DohIpv4.DoHSpeedTester :=
  {| DohIpv4.doh_servers := DOH_SERVERS; DohIpv4.domains := US_DOMAINS |}.

End Tables.

(* ===================================================================== *)
(** * The console, and the command lines of the two programs              *)
(* ===================================================================== *)

Module Console.
Import Py.

(** One call of [print]: which message it is, and the values the message
    shows.  The layout of the text (padding, number of decimals, blank
    lines) is left out. *)
Inductive line : Type :=
| Starting (servers : Z)               (* how many resolvers are tested *)
| QueriesPerServer (num_queries : Z)
| DomainCount (domain_count : Z)
| Dashes                               (* "-" * 60 *)
| Equals                               (* "=" * 60 *)
| TimedOut (name : str)                (* live line of a resolver without success *)
| Progress (name : str) (avg min : pyfloat) (success_rate : Q)
| TestFailed (name : str) (e : exn)    (* live line of a task that raised *)
| SummaryTitle
| NoServer                             (* no usable resolver *)
| TableHeader
| Row (rank : Z) (name : str) (avg min : pyfloat) (success_rate : Q)
| Fastest (name : str)
| FastestAvg (avg : pyfloat)
| FastestMin (min : pyfloat)
| FastestRate (success_rate : Q)
| Best (name : str) (avg : pyfloat)
| Added (name ip : str)
| Removed (name : str)
| ListHeader
| ListEntry (name ip : str)
| RunFailed (e : exn).                 (* the error line of [main] *)

(** [enumerate(l, start)] *)
Fixpoint enumerate {A} (l : list A) (start : Z) : list (Z * A) :=
  match l with
  | [] => []
  | x :: l' => (start, x) :: enumerate l' (start + 1)
  end.

Definition row (x : Z * (str * Stats.t)) : line :=
  let '(i, (name, stats)) := x in
  Row i name (Stats.avg stats) (Stats.min stats) (Stats.success_rate stats).

End Console.

(** ** dns_ipv4.py with its console output *)

Module DnsCli.
Import Py OS Console DnsIpv4.

(** The body of [for future in as_completed(future_to_server)], with the
    line it prints. *)
Definition report (st : list line * dict Stats.t) (f : result Stats.t * str)
  : list line * dict Stats.t :=
  let '(out, results) := st in
  let server_name := snd f in
  match fst f with
  | Ok result =>
      let results := dict_set results server_name result in
      if feq (Stats.avg result) Inf
      then (out ++ [TimedOut server_name], results)
      else (out ++ [Progress server_name (Stats.avg result) (Stats.min result)
                      (Stats.success_rate result)], results)
  | Raise e =>
      (out ++ [TestFailed server_name e],
       dict_set results server_name Stats.sentinel)
  end.

(** [run_speed_test]: what it has printed, and what it returns or
    raises. *)
Definition run_speed_test (self : DNSSpeedTester) (num_queries max_workers : Z)
    (p : pool) : list line * result (dict Stats.t) :=
  let out := [Starting (len (dns_servers self)); QueriesPerServer num_queries;
              Dashes] in
  let results := [] in
  if Z.leb max_workers 0 then (out, Raise ValueError)
  else
    let future_to_server :=
      map (fun '(name, ip) =>
             (fst (test_multiple_queries self name ip num_queries (world_of p name)),
              name))
          (items (dns_servers self)) in
    let '(out, results) :=
      fold_left report (as_completed p future_to_server) (out, results) in
    (out, Ok results).

Definition print_summary (results : dict Stats.t) : list line :=
  let out := [Equals; SummaryTitle; Equals] in
  let valid_results :=
    filter (fun '(k, v) =>
              negb (feq (Stats.avg v) Inf) && Qltb 0 (Stats.success_rate v))
           (items results) in
  match valid_results with
  | [] => out ++ [NoServer]
  | _ =>
      let sorted_results := sorted by_avg flt valid_results in
      let out := out ++ [TableHeader; Dashes] in
      let out := out ++ map row (enumerate (firstn 10 sorted_results) 1) in
      match sorted_results with
      | [] => out
      | (fastest_server, fastest_stats) :: _ =>
          out ++ [Fastest fastest_server;
                  FastestAvg (Stats.avg fastest_stats);
                  FastestMin (Stats.min fastest_stats);
                  FastestRate (Stats.success_rate fastest_stats)]
      end
  end.

(** What [parser.parse_args()] hands to [main]. *)
Module Args.
Record t : Type := {
  queries : Z;
  workers : Z;
  add_dns : option (str * str);
  remove_dns : option str;
  list : bool
}.
End Args.

(** [main].  The tests [if args.add_dns:] and [if args.remove_dns:] are
    tests of truth: a pair of strings is true, the empty string is not.
    Every exception of the model is an [Exception], which the last
    handler catches. *)
Definition main (args : Args.t) (p : pool) : list line :=
  let tester := Tables.DNSSpeedTester_init in
  let '(tester, out) :=
    match Args.add_dns args with
    | Some (name, ip) => (add_custom_dns tester name ip, [Added name ip])
    | None => (tester, [])
    end in
  let '(tester, out) :=
    match Args.remove_dns args with
    | Some (c :: name) =>
        (remove_dns tester (c :: name), out ++ [Removed (c :: name)])
    | _ => (tester, out)
    end in
  if Args.list args then
    out ++ ListHeader
        :: map (fun '(name, ip) => ListEntry name ip) (items (dns_servers tester))
  else
    match run_speed_test tester (Args.queries args) (Args.workers args) p with
    | (out', Ok results) => out ++ out' ++ print_summary results
    | (out', Raise e) => out ++ out' ++ [RunFailed e]
    end.

End DnsCli.

(** ** doh_ipv4.py with its console output *)

Module DohCli.
Import Py OS Console DohIpv4.

Section WithDnsPython.

Variable make_query_to_wire : str -> result bytes.

(** The body of [for future in as_completed(futures)], with the line it
    prints. *)
Definition report (st : list line * dict Stats.t) (f : result Stats.t * str)
  : list line * dict Stats.t :=
  let '(out, results) := st in
  let name := snd f in
  match fst f with
  | Ok stats =>
      let results := dict_set results name stats in
      if feq (Stats.avg stats) Inf
      then (out ++ [TimedOut name], results)
      else (out ++ [Progress name (Stats.avg stats) (Stats.min stats)
                      (Stats.success_rate stats)], results)
  | Raise e => (out ++ [TestFailed name e], results)
  end.

Definition run (self : DoHSpeedTester) (domain_count max_workers : Z)
    (p : pool) : list line * result (dict Stats.t) :=
  let out := [DomainCount domain_count; Dashes] in
  let results := [] in
  if Z.leb max_workers 0 then (out, Raise ValueError)
  else
    let futures :=
      map (fun '(name, url) =>
             (fst (test_server_on_domains make_query_to_wire self name url
                     domain_count (world_of p name)),
              name))
          (items (doh_servers self)) in
    let '(out, results) := fold_left report (as_completed p futures) (out, results) in
    (out, Ok results).

End WithDnsPython.

Definition print_summary (results : dict Stats.t) : list line :=
  let out := [SummaryTitle; Equals] in
  let valid :=
    filter (fun '(k, v) => negb (feq (Stats.avg v) Inf)) (items results) in
  let sorted_results := sorted by_avg flt valid in
  let out := out ++ [TableHeader] in
  let out := out ++ map row (enumerate sorted_results 1) in
  match sorted_results with
  | [] => out
  | best :: _ => out ++ [Best (fst best) (Stats.avg (snd best))]
  end.

Module Args.
Record t : Type := {
  num : Z;
  workers : Z
}.
End Args.

(** [main] has no handler: what [run] raises leaves the program. *)
Definition main (make_query_to_wire : str -> result bytes) (args : Args.t)
    (p : pool) : list line * result unit :=
  let tester := Tables.DoHSpeedTester_init in
  match run make_query_to_wire tester (Args.num args) (Args.workers args) p with
  | (out, Ok results) => (out ++ print_summary results, Ok tt)
  | (out, Raise e) => (out, Raise e)
  end.

End DohCli.

(* ===================================================================== *)
(** * Notions used to state the properties                                *)
(* ===================================================================== *)

Module CodecSpec.
Import Py.

(** A label made of ASCII characters only. *)
Definition ascii_label (part : str) : Prop := Forall (fun c => (c < 128)%N) part.

(** A label on the wire: its length in one octet, then its octets. *)
Definition label_wire (part : str) : bytes :=
  byte_of (N.of_nat (length part)) :: map byte_of part.

Definition header_bytes : bytes :=
  [x12; x34; x01; x00; x00; x01; x00; x00; x00; x00; x00; x00].

Definition type_class_bytes : bytes := [x00; x01; x00; x01].

(** A label the loop body of the encoder accepts, and one it refuses. *)
Definition accepted (part : str) : Prop :=
  (length part <= 255)%nat /\ returns (encode part).

Definition refused (part : str) : Prop :=
  (255 < length part)%nat \/ raises (encode part).

End CodecSpec.

Module SamplerSpec.
Import Py OS.

(** The probe each sampler issues for one domain. *)
Definition udp_probe (server_name server_ip : str) (domain : str) : io pyfloat :=
  (r <- DnsIpv4.test_dns_server server_name server_ip domain 2 ;; ret (snd r))%io.

Definition doh_probe (make_query_to_wire : str -> result bytes)
    (name url : str) (domain : str) : io pyfloat :=
  DohIpv4.test_doh_server make_query_to_wire name url domain 3.

(** The outcomes of probing [domains] one after the other, in order. *)
Fixpoint outcomes (probe : str -> io pyfloat) (domains : list str)
  : io (list pyfloat) :=
  match domains with
  | [] => ret []
  | d :: rest =>
      (o <- probe d ;; os <- outcomes probe rest ;; ret (o :: os))%io
  end.

(** The elapsed times of the outcomes that are successes. *)
Fixpoint successes (outs : list pyfloat) : list Q :=
  match outs with
  | [] => []
  | Fin t :: rest => t :: successes rest
  | Inf :: rest => successes rest
  end.

Definition is_minimum (m : Q) (xs : list Q) : Prop :=
  In m xs /\ Forall (fun x => (m <= x)%Q) xs.

Definition is_maximum (m : Q) (xs : list Q) : Prop :=
  In m xs /\ Forall (fun x => (x <= m)%Q) xs.

(** The median by rank: the middle value of the samples put in order, the
    mean of the two middle values when their number is even. *)
Definition is_median (m : Q) (xs : list Q) : Prop :=
  exists ys,
    Permutation ys xs /\ StronglySorted Qle ys /\
    m = if Nat.odd (length ys) then nth (length ys / 2) ys 0%Q
        else ((nth (length ys / 2 - 1) ys 0 + nth (length ys / 2) ys 0) / 2)%Q.

Definition arithmetic_mean (xs : list Q) : Q :=
  (Qsum xs / inject_Z (Z.of_nat (length xs)))%Q.

(** [s] holds the mean, minimum, maximum and median of the samples [xs]. *)
Definition summary_of (xs : list Q) (s : Stats.t) : Prop :=
  Stats.avg s = Fin (arithmetic_mean xs) /\
  (exists m, Stats.min s = Fin m /\ is_minimum m xs) /\
  (exists m, Stats.max s = Fin m /\ is_maximum m xs) /\
  (exists m, Stats.median s = Fin m /\ is_median m xs).

(** The datagram [dg] carries the query for one of the domains [ds], to
    port 53 of the address [ip]. *)
Definition query_for (ds : list str) (ip : str) (dg : bytes * str * Z) : Prop :=
  exists d,
    In d ds /\ DnsCodec.create_dns_query d = Ok (fst (fst dg)) /\
    snd (fst dg) = ip /\ snd dg = 53%Z.

(** The request [rq] carries the query for one of the domains [ds], to
    the address [url]. *)
Definition request_for (make_query_to_wire : str -> result bytes)
    (ds : list str) (url : str) (rq : str * bytes) : Prop :=
  exists d, In d ds /\ make_query_to_wire d = Ok (snd rq) /\ fst rq = url.

(** The sampler [run] sends datagrams for the domains of the slice
    [domains[:count]] only. *)
Definition sends_only (ip : str) (domains : list str) (run : Z -> io Stats.t)
  : Prop :=
  forall count w,
    exists dgs,
      sent (snd (run count w)) = sent w ++ dgs /\
      Forall (query_for (slice_to domains count) ip) dgs.

(** The sampler [run] posts requests for the domains of the slice
    [domains[:count]] only. *)
Definition posts_only (make_query_to_wire : str -> result bytes) (url : str)
    (domains : list str) (run : Z -> io Stats.t) : Prop :=
  forall count w,
    exists rqs,
      posted (snd (run count w)) = posted w ++ rqs /\
      Forall (request_for make_query_to_wire (slice_to domains count) url) rqs.

(** Every socket of the world was numbered before [next_fd]. *)
Definition fds_below_next (w : World) : Prop :=
  Forall (fun fd => (fd < next_fd w)%nat) (open_socks w).

(** What a future holds for the result mapping once a fault is replaced
    by the sentinel. *)
Definition or_sentinel (f : result Stats.t) : Stats.t :=
  match f with
  | Ok s => s
  | Raise _ => Stats.sentinel
  end.

Definition all_infinite (s : Stats.t) : Prop :=
  Stats.avg s = Inf /\ Stats.min s = Inf /\ Stats.max s = Inf /\
  Stats.median s = Inf.

(** The shape the two samplers share. *)
Definition summarize (results : list Q) (count : Z) : result Stats.t :=
  match results with
  | [] => Ok Stats.sentinel
  | _ =>
      (a <- mean results ;;
       mn <- py_min results ;;
       mx <- py_max results ;;
       md <- median results ;;
       r <- truediv (len results) count ;;
       Ok {| Stats.avg := Fin a; Stats.min := Fin mn; Stats.max := Fin mx;
             Stats.median := Fin md;
             Stats.success_rate := (r * 100)%Q |})%result
  end.

Definition sampler (probe : str -> io pyfloat) (domains : list str) (count : Z)
  : io Stats.t :=
  (results <- DnsIpv4.probe_each probe (slice_to domains count) [] ;;
   lift (summarize results count))%io.

(** Once the probes of the slice [domains[:count]] have reported, the
    sampler [run] returns: the sentinel when none of them succeeded, and
    otherwise the statistics of the elapsed times of the successful ones,
    and of nothing else.  It returns in no other case. *)
Definition computes_statistics (probe : str -> io pyfloat) (domains : list str)
    (run : Z -> io Stats.t) : Prop :=
  forall count w,
    (forall outs w',
        outcomes probe (slice_to domains count) w = (Ok outs, w') ->
        exists s,
          run count w = (Ok s, w') /\
          (successes outs = [] -> s = Stats.sentinel) /\
          (successes outs <> [] -> summary_of (successes outs) s)) /\
    (forall s w',
        run count w = (Ok s, w') ->
        exists outs, outcomes probe (slice_to domains count) w = (Ok outs, w')).

(** The success rate of the statistics [run] returns: the successes over
    the requested number, as a percentage, hence between 0 and 100; [run]
    returns whenever the probes have reported, with no division when
    nothing was attempted. *)
Definition rates_successes (probe : str -> io pyfloat) (domains : list str)
    (run : Z -> io Stats.t) : Prop :=
  forall count w,
    (0 <= count)%Z ->
    (forall s w',
        run count w = (Ok s, w') ->
        (0 <= Stats.success_rate s /\ Stats.success_rate s <= 100)%Q /\
        exists outs,
          outcomes probe (firstn (Z.to_nat count) domains) w = (Ok outs, w') /\
          (successes outs = [] -> Stats.success_rate s = 0%Q) /\
          (successes outs <> [] ->
           (0 < count)%Z /\
           Stats.success_rate s
           = (inject_Z (len (successes outs)) / inject_Z count * 100)%Q)) /\
    (forall outs w',
        outcomes probe (firstn (Z.to_nat count) domains) w = (Ok outs, w') ->
        exists s, run count w = (Ok s, w')) /\
    (domains = [] \/ count = 0%Z -> run count w = (Ok Stats.sentinel, w)).

(** When every probe of the slice has reported and none has succeeded,
    [run] returns the sentinel; whatever [run] returns comes after every
    probe has reported, and is the sentinel exactly when none has
    succeeded; and statistics that [run] returns with a success rate of 0
    have their four latencies infinite, for a requested number of at most
    10^300 in absolute value.  Within that bound the quotient the program
    computes, a binary64, is zero only when the exact quotient is; beyond
    it nothing is stated. *)
Definition sentinel_on_failure (probe : str -> io pyfloat) (domains : list str)
    (run : Z -> io Stats.t) : Prop :=
  forall count w,
    (forall outs w',
        outcomes probe (slice_to domains count) w = (Ok outs, w') ->
        successes outs = [] ->
        run count w = (Ok Stats.sentinel, w')) /\
    (forall s w',
        run count w = (Ok s, w') ->
        (exists outs,
            outcomes probe (slice_to domains count) w = (Ok outs, w') /\
            (successes outs = [] <-> s = Stats.sentinel)) /\
        ((Z.abs count <= 10 ^ 300)%Z ->
         (Stats.success_rate s == 0)%Q -> all_infinite s)).

Definition latencies_ordered (run : Z -> io Stats.t) : Prop :=
  forall count w s w',
    run count w = (Ok s, w') ->
    (0 < Stats.success_rate s)%Q ->
    fle (Stats.min s) (Stats.median s) /\ fle (Stats.median s) (Stats.max s) /\
    fle (Stats.min s) (Stats.avg s) /\ fle (Stats.avg s) (Stats.max s).

End SamplerSpec.

Module RankSpec.
Import Py.

(** [x] may stand before [y] in a list sorted by [key]: the key of [y] is
    not below the key of [x]. *)
Definition before {A K} (key : A -> K) (lt : K -> K -> bool) (x y : A) : Prop :=
  lt (key y) (key x) = false.

(** [l1] is [l2] with some entries left out, the others in their order. *)
Inductive subseq {A} : list A -> list A -> Prop :=
| subseq_nil : forall l, subseq [] l
| subseq_take : forall x l1 l2, subseq l1 l2 -> subseq (x :: l1) (x :: l2)
| subseq_skip : forall x l1 l2, subseq l1 l2 -> subseq l1 (x :: l2).

Definition avg_le (x y : str * Stats.t) : Prop :=
  fle (Stats.avg (snd x)) (Stats.avg (snd y)).

(** The entries of [l] whose average is the float [k], in their order. *)
Definition with_avg (k : pyfloat) (l : list (str * Stats.t)) : list (str * Stats.t) :=
  filter (fun e => feq (Stats.avg (snd e)) k) l.

Definition finite_avg (e : str * Stats.t) : bool := negb (feq (Stats.avg (snd e)) Inf).

Definition infinite_avg (e : str * Stats.t) : bool := feq (Stats.avg (snd e)) Inf.


End RankSpec.

(** ** Further notions *)

Module WireSpec.
Import Py CodecSpec.

(** A label as the encoder writes it: the number of its characters in
    one octet, then the octets of its UTF-8 text. *)
Definition label_record (part : str) (octets : bytes) : bytes :=
  byte_of (N.of_nat (length part)) :: octets.

Definition records (parts : list str) (octets : list bytes) : bytes :=
  concat (map (fun po => label_record (fst po) (snd po)) (combine parts octets)).

(** [octets] are the UTF-8 texts of the labels [parts], each of at most
    255 characters. *)
Definition encoded_as (parts : list str) (octets : list bytes) : Prop :=
  Forall2 (fun part o => (length part <= 255)%nat /\ encode part = Ok o)
          parts octets.

(** Labels of ASCII characters, at most 255 of them. *)
Definition plain (domain : str) : Prop :=
  Forall (fun part => ascii_label part /\ (length part <= 255)%nat)
         (split DOT domain).

End WireSpec.

Module TraceSpec.
Import Py OS.

(** What the outside world answers to the [k]-th call made from [w]. *)
Definition call (w : World) (k : nat) : answer := oracle w (k + tick w).

(** The datagram [dg] is the query for [d], addressed to port 53 of
    [ip]. *)
Definition carries (ip : str) (d : str) (dg : bytes * str * Z) : Prop :=
  DnsCodec.create_dns_query d = Ok (fst (fst dg)) /\
  snd (fst dg) = ip /\ snd dg = 53%Z.

(** The request [rq] is the query for [d], posted to [url]. *)
Definition requests (make_query_to_wire : str -> result bytes) (url : str)
    (d : str) (rq : str * bytes) : Prop :=
  make_query_to_wire d = Ok (snd rq) /\ fst rq = url.

(** How many outcomes are failures. *)
Definition failures (outs : list pyfloat) : nat :=
  length outs - length (SamplerSpec.successes outs).

End TraceSpec.

Module FleetSpec.
Import Py OS SamplerSpec.

(** The futures [run_speed_test] submits, in the order of [dns_servers],
    each with the name of its resolver. *)
Definition future_to_server (self : DnsIpv4.DNSSpeedTester) (num_queries : Z)
    (p : DnsIpv4.pool) : list (result Stats.t * str) :=
  map (fun '(name, ip) =>
         (fst (DnsIpv4.test_multiple_queries self name ip num_queries
                 (DnsIpv4.world_of p name)),
          name))
      (items (DnsIpv4.dns_servers self)).

(** The futures [run] submits. *)
Definition futures (make_query_to_wire : str -> result bytes)
    (self : DohIpv4.DoHSpeedTester) (domain_count : Z) (p : DohIpv4.pool)
  : list (result Stats.t * str) :=
  map (fun '(name, url) =>
         (fst (DohIpv4.test_server_on_domains make_query_to_wire self name url
                 domain_count (DohIpv4.world_of p name)),
          name))
      (items (DohIpv4.doh_servers self)).

(** The entry a completed future leaves in the mapping of the UDP
    program. *)
Definition entry (f : result Stats.t * str) : str * Stats.t :=
  (snd f, or_sentinel (fst f)).

(** The task of the future returned. *)
Definition returned (f : result Stats.t * str) : bool :=
  match fst f with
  | Ok _ => true
  | Raise _ => false
  end.

(** [as_completed] yields the futures it is given, each once, in some
    order. *)
Definition yields_each_once
    (as_completed : list (result Stats.t * str) -> list (result Stats.t * str))
  : Prop :=
  forall l, Permutation (as_completed l) l.

End FleetSpec.

Module SummarySpec.
Import Py.

(** A resolver the summary of [dns_ipv4.py] ranks: a finite average and
    a positive success rate. *)
Definition usable (e : str * Stats.t) : Prop :=
  Stats.avg (snd e) <> Inf /\ (0 < Stats.success_rate (snd e))%Q.

Definition usableb (e : str * Stats.t) : bool :=
  negb (feq (Stats.avg (snd e)) Inf) && Qltb 0 (Stats.success_rate (snd e)).

End SummarySpec.

Module ConfigSpec.
Import Py.

(** The entries [remove_dns] keeps. *)
Definition keeps (name : str) (kv : str * str) : bool :=
  negb (str_eqb (fst kv) name).

End ConfigSpec.

Module CliSpec.
Import Py Console.

(** The resolver a live line reports on. *)
Definition resolver_of (l : line) : option str :=
  match l with
  | TimedOut name | Progress name _ _ _ | TestFailed name _ => Some name
  | _ => None
  end.

(** The live line of a completed future. *)
Definition live_line (f : result Stats.t * str) : line :=
  match fst f with
  | Ok s =>
      if feq (Stats.avg s) Inf then TimedOut (snd f)
      else Progress (snd f) (Stats.avg s) (Stats.min s) (Stats.success_rate s)
  | Raise e => TestFailed (snd f) e
  end.

(** The name [main] removes: the argument of [-r], unless it is empty. *)
Definition removed (args : DnsCli.Args.t) : option str :=
  match DnsCli.Args.remove_dns args with
  | Some (c :: name) => Some (c :: name)
  | _ => None
  end.

(** The address of a name after [-a]: the one given on the command line,
    or else the one of the built-in table. *)
Definition added_or_builtin (args : DnsCli.Args.t) (name : str) : option str :=
  match DnsCli.Args.add_dns args with
  | Some (n, ip) =>
      if str_eqb n name then Some ip else dict_get Tables.dns_servers name
  | None => dict_get Tables.dns_servers name
  end.

(** The address [--list] shows for a name, if it shows the name. *)
Definition listed (args : DnsCli.Args.t) (name : str) : option str :=
  match removed args with
  | Some r => if str_eqb r name then None else added_or_builtin args name
  | None => added_or_builtin args name
  end.

(** The tester [main] works with once [-a] and [-r] are applied, and the
    lines printed on the way. *)
Definition configured (args : DnsCli.Args.t) : DnsIpv4.DNSSpeedTester :=
  let tester :=
    match DnsCli.Args.add_dns args with
    | Some (name, ip) =>
        DnsIpv4.add_custom_dns Tables.DNSSpeedTester_init name ip
    | None => Tables.DNSSpeedTester_init
    end in
  match removed args with
  | Some name => DnsIpv4.remove_dns tester name
  | None => tester
  end.

Definition setup_lines (args : DnsCli.Args.t) : list line :=
  match DnsCli.Args.add_dns args with
  | Some (name, ip) => [Added name ip]
  | None => []
  end
  ++ match removed args with
     | Some name => [Removed name]
     | None => []
     end.

(** A line [main] prints when it adds or removes a resolver. *)
Definition setup_line (l : line) : Prop :=
  match l with
  | Added _ _ | Removed _ => True
  | _ => False
  end.

Fixpoint distinct (l : list str) : bool :=
  match l with
  | [] => true
  | x :: l' => negb (existsb (str_eqb x) l') && distinct l'
  end.

(** A line that reports a fault: the line of a failed test, or the error
    line of [main]. *)
Definition fault_line (l : line) : bool :=
  match l with
  | TestFailed _ _ | RunFailed _ => true
  | _ => false
  end.

End CliSpec.

(** Worlds and testers for the worked examples. *)
Module Examples.
Import Py OS.

Definition answer_ok (t : Q) : answer :=
  {| ans_ok := true; ans_timeout := false; ans_time := t;
     ans_status := 200; ans_data := [] |}.

Definition answer_timeout : answer :=
  {| ans_ok := false; ans_timeout := true; ans_time := 0;
     ans_status := 200; ans_data := [] |}.

Definition answer_status (status : Z) (t : Q) : answer :=
  {| ans_ok := true; ans_timeout := false; ans_time := t;
     ans_status := status; ans_data := [] |}.

(** A stand-in for the idna codec: it encodes the hosts whose labels
    have between 1 and 63 characters. *)
Definition idna_labels (host : str) : bool :=
  forallb (fun part => Nat.leb 1 (length part) && Nat.leb (length part) 63)
          (split DOT host).

(** A world in which nothing has happened yet. *)
Definition world0 (o : nat -> answer) : World :=
  {| oracle := o; idna := idna_labels; tick := 0; next_fd := 3;
     open_socks := []; sent := []; posted := [] |}.

(** Every call succeeds, and the clock shows the square of the number of
    calls made, so that successive probes take longer and longer. *)
Definition clock (n : nat) : answer := answer_ok (inject_Z (Z.of_nat (n * n))).

(** As [clock], but the call number [k] times out. *)
Definition timeout_at (k : nat) (n : nat) : answer :=
  if Nat.eqb n k then answer_timeout else clock n.

(** No call ever succeeds. *)
Definition unreachable (n : nat) : answer := answer_timeout.

Definition answer_error : answer :=
  {| ans_ok := false; ans_timeout := false; ans_time := 0;
     ans_status := 200; ans_data := [] |}.

(** As [clock], but the call number [k] fails with a socket error. *)
Definition error_at (k : nat) (n : nat) : answer :=
  if Nat.eqb n k then answer_error else clock n.

Definition tester (domains : list string) : DnsIpv4.DNSSpeedTester :=
  {| DnsIpv4.dns_servers := [(str_of_string "Google DNS 1", str_of_string "8.8.8.8")];
     DnsIpv4.test_domains := map str_of_string domains |}.

Definition doh_tester (domains : list string) : DohIpv4.DoHSpeedTester :=
  {| DohIpv4.doh_servers :=
       [(str_of_string "Cloudflare IPv4", str_of_string "https://1.1.1.1/dns-query")];
     DohIpv4.domains := map str_of_string domains |}.

Definition google : str := str_of_string "Google DNS 1".
Definition google_ip : str := str_of_string "8.8.8.8".
Definition cloudflare : str := str_of_string "Cloudflare IPv4".
Definition cloudflare_url : str := str_of_string "https://1.1.1.1/dns-query".

(** A stand-in for dnspython that refuses names with an empty label, as
    [dns.name.from_text] does, and otherwise answers with the encoder of
    the UDP program. *)
Definition strict_make_query (domain : str) : result bytes :=
  if existsb (fun part => Nat.eqb (length part) 0) (split DOT domain)
  then Raise DNSException
  else DnsCodec.create_dns_query domain.

(** Three resolvers after a run over two domains: the first answered in
    10 and 20 ms, the second never, the third once in 15 ms. *)
Definition stats_a : Stats.t :=
  {| Stats.avg := Fin 15; Stats.min := Fin 10; Stats.max := Fin 20;
     Stats.median := Fin 15; Stats.success_rate := 100 |}.

Definition stats_c : Stats.t :=
  {| Stats.avg := Fin 15; Stats.min := Fin 15; Stats.max := Fin 15;
     Stats.median := Fin 15; Stats.success_rate := 50 |}.

(** Statistics with a finite average and a success rate of 0. *)
Definition stats_z : Stats.t :=
  {| Stats.avg := Fin 15; Stats.min := Fin 15; Stats.max := Fin 15;
     Stats.median := Fin 15; Stats.success_rate := 0 |}.

(** Three resolvers: B never answered, Z has a finite average and a
    success rate of 0, A answered every time. *)
Definition zero_rate_results : dict Stats.t :=
  [(str_of_string "B", Stats.sentinel); (str_of_string "Z", stats_z);
   (str_of_string "A", stats_a)].

Definition three_resolvers : dict Stats.t :=
  [(str_of_string "B", Stats.sentinel); (str_of_string "A", stats_a);
   (str_of_string "C", stats_c)].

(** A pool whose tasks all run in the world [w] and complete in the
    reverse of the order of submission. *)
Definition udp_pool (w : World) : DnsIpv4.pool :=
  {| DnsIpv4.world_of := fun _ => w;
     DnsIpv4.as_completed := @rev (result Stats.t * str) |}.

Definition doh_pool (w : World) : DohIpv4.pool :=
  {| DohIpv4.world_of := fun _ => w;
     DohIpv4.as_completed := @rev (result Stats.t * str) |}.

Definition two_servers : dict str :=
  [(str_of_string "Google DNS 1", str_of_string "8.8.8.8");
   (str_of_string "Quad9", str_of_string "9.9.9.9")].

(** A tester whose second domain has a label of 300 characters. *)
Definition long_label_tester : DnsIpv4.DNSSpeedTester :=
  {| DnsIpv4.dns_servers := two_servers;
     DnsIpv4.test_domains := [str_of_string "qq.com"; repeat 97%N 300] |}.

(** A tester whose second domain has an empty label. *)
Definition empty_label_tester : DohIpv4.DoHSpeedTester :=
  {| DohIpv4.doh_servers := Tables.DOH_SERVERS;
     DohIpv4.domains := [str_of_string "google.com"; str_of_string "a..b"] |}.

End Examples.

(* ===================================================================== *)
(** * Properties of the query encoder                                     *)
(* ===================================================================== *)

Module CodecProofs.
Import Py DnsCodec CodecSpec.

Lemma to_N_byte_of (n : N) : (n < 256)%N -> Byte.to_N (byte_of n) = n.
Proof.
  intros Hn. unfold byte_of.
  assert (Hl : N.land n 255 = n).
  { change 255%N with (N.ones 8). rewrite N.land_ones.
    apply N.mod_small. exact Hn. }
  rewrite Hl.
  destruct (Byte.of_N n) as [b|] eqn:E.
  - now apply Byte.to_of_N.
  - apply Byte.of_N_None_iff in E. lia.
Qed.

Lemma split_not_nil (sep : N) (s : str) : split sep s <> [].
Proof.
  destruct s as [|c s]; simpl; [discriminate|].
  destruct (N.eqb c sep); [discriminate|].
  destruct (split sep s); discriminate.
Qed.

Lemma join_split (sep : N) (s : str) : join sep (split sep s) = s.
Proof.
  induction s as [|c s IH]; simpl; [reflexivity|].
  destruct (N.eqb_spec c sep) as [->|Hne].
  - pose proof (split_not_nil sep s) as Hnil.
    destruct (split sep s) as [|p ps] eqn:E; [congruence|].
    change (join sep ([] :: p :: ps)) with (sep :: join sep (p :: ps)).
    now rewrite IH.
  - destruct (split sep s) as [|p ps] eqn:E.
    + exfalso. eapply split_not_nil; eauto.
    + destruct ps as [|p' ps]; simpl in *; now rewrite <- IH.
Qed.

(** No part of a split contains the separator. *)
Lemma split_no_sep (sep : N) (s : str) :
  Forall (fun part => ~ In sep part) (split sep s).
Proof.
  induction s as [|c s IH]; simpl.
  - constructor; [intros []|constructor].
  - destruct (N.eqb_spec c sep) as [->|Hne].
    + constructor; [intros []|exact IH].
    + destruct (split sep s) as [|p ps]; [repeat constructor; intros [H|[]]; congruence|].
      inversion IH; subst. constructor; [|assumption].
      intros [H|H]; [congruence|contradiction].
Qed.

Lemma length_join (parts : list str) :
  parts <> [] ->
  S (length (join DOT parts)) = list_sum (map (fun p => S (length p)) parts).
Proof.
  induction parts as [|p ps IH]; [congruence|]. intros _.
  destruct ps as [|p' ps].
  - simpl. lia.
  - change (join DOT (p :: p' :: ps)) with (p ++ DOT :: join DOT (p' :: ps)).
    rewrite length_app. unfold list_sum in *. cbn [length map fold_right] in *.
    assert (H : p' :: ps <> []) by discriminate.
    specialize (IH H). lia.
Qed.

Lemma length_label_wire (parts : list str) :
  length (flat_map label_wire parts)
  = list_sum (map (fun p => S (length p)) parts).
Proof.
  induction parts as [|p ps IH]; simpl; [reflexivity|].
  rewrite length_app, length_map, IH. reflexivity.
Qed.

Lemma encode_ascii (part : str) :
  ascii_label part -> encode part = Ok (map byte_of part).
Proof.
  induction 1 as [|c part Hc _ IH]; simpl; [reflexivity|].
  unfold utf8_char.
  replace (N.ltb c 128) with true by (symmetry; apply N.ltb_lt; exact Hc).
  simpl. now rewrite IH.
Qed.

Lemma pack_B_len (part : str) :
  (length part <= 255)%nat ->
  struct_pack [B] [len part] = Ok [byte_of (N.of_nat (length part))].
Proof.
  intros H. unfold len. cbn [struct_pack pack1].
  replace (Z.leb 0 (Z.of_nat (length part))) with true
    by (symmetry; apply Z.leb_le; lia).
  replace (Z.leb (Z.of_nat (length part)) 255) with true
    by (symmetry; apply Z.leb_le; lia).
  simpl. now rewrite <- nat_N_Z, N2Z.id.
Qed.

Lemma pack_B_long (part : str) :
  (255 < length part)%nat -> struct_pack [B] [len part] = Raise StructError.
Proof.
  intros H. unfold len. cbn [struct_pack pack1].
  replace (Z.leb (Z.of_nat (length part)) 255) with false
    by (symmetry; apply Z.leb_gt; lia).
  now rewrite andb_false_r.
Qed.

Lemma encode_parts_ascii (parts : list str) (question : bytes) :
  Forall (fun part => ascii_label part /\ (length part <= 255)%nat) parts ->
  encode_parts parts question = Ok (question ++ flat_map label_wire parts).
Proof.
  intros H. revert question.
  induction H as [|p ps [Ha Hl] _ IH]; intros question;
    cbn [encode_parts flat_map].
  - now rewrite app_nil_r.
  - rewrite (pack_B_len p Hl). cbn [rbind].
    rewrite (encode_ascii Ha). cbn [rbind].
    rewrite IH. unfold label_wire. now rewrite <- app_assoc.
Qed.

Lemma text_of_ascii (part : str) :
  ascii_label part -> text_of (map byte_of part) = part.
Proof.
  unfold text_of. induction 1 as [|c part Hc _ IH]; simpl; [reflexivity|].
  rewrite IH, to_N_byte_of; [reflexivity|lia].
Qed.

Lemma read_labels_wire (parts : list str) (tl : bytes) :
  Forall (fun p => ascii_label p /\ (length p <= 255)%nat) parts ->
  Forall (fun p => p <> []) parts ->
  forall fuel, (length parts < fuel)%nat ->
  read_labels fuel (flat_map label_wire parts ++ x00 :: tl)
  = Some (map (map byte_of) parts, tl).
Proof.
  intros Hw Hne. induction Hw as [|p ps [Ha Hl] Hw IH]; intros fuel Hf.
  - destruct fuel as [|fuel]; [inversion Hf|]. reflexivity.
  - inversion Hne as [|? ? Hp Hne']; subst.
    destruct fuel as [|fuel]; [inversion Hf|].
    destruct p as [|c p]; [congruence|].
    cbn [flat_map label_wire app read_labels].
    rewrite to_N_byte_of by lia.
    rewrite Nat2N.id. cbn [length].
    set (rest := (map byte_of (c :: p) ++ flat_map label_wire ps) ++ x00 :: tl).
    assert (Hrest : rest = map byte_of (c :: p)
                           ++ (flat_map label_wire ps ++ x00 :: tl))
      by (unfold rest; now rewrite <- app_assoc).
    assert (Hlen : length (map byte_of (c :: p)) = S (length p))
      by (now rewrite length_map).
    replace (length rest <? S (length p))%nat with false.
    2:{ symmetry. apply Nat.ltb_ge. rewrite Hrest, length_app, Hlen. lia. }
    rewrite Hrest.
    rewrite <- Hlen at 1. rewrite skipn_app, skipn_all, Nat.sub_diag.
    cbn [app skipn].
    rewrite (IH Hne' fuel) by (cbn [length] in Hf; lia).
    rewrite <- Hlen. rewrite firstn_app, firstn_all, Nat.sub_diag.
    cbn [firstn]. now rewrite app_nil_r.
Qed.

(** What the encoder produces on labels of at most 255 ASCII characters. *)
Lemma create_dns_query_ascii (domain : str) :
  Forall (fun part => ascii_label part /\ (length part <= 255)%nat)
         (split DOT domain) ->
  create_dns_query domain
  = Ok (header_bytes
        ++ (flat_map label_wire (split DOT domain) ++ [x00]) ++ type_class_bytes).
Proof.
  intros Hparts. unfold create_dns_query.
  change (struct_pack [H; H; H; H; H; H]
            [0x1234%Z; 0x0100%Z; 1%Z; 0%Z; 0%Z; 0%Z]) with (Ok header_bytes).
  change (struct_pack [H; H] [1%Z; 1%Z]) with (Ok type_class_bytes).
  cbn [rbind]. rewrite (encode_parts_ascii [] Hparts). reflexivity.
Qed.

(** *** When the encoder raises *)



Lemma utf8_char_exn (c : N) (e : exn) :
  utf8_char c = Raise e -> e = UnicodeEncodeError.
Proof.
  unfold utf8_char.
  repeat match goal with
         | |- context [if ?t then _ else _] => destruct t
         end; intros E; inversion E; reflexivity.
Qed.

Lemma encode_exn (part : str) (e : exn) :
  encode part = Raise e -> e = UnicodeEncodeError.
Proof.
  induction part as [|c part IH]; simpl; [discriminate|].
  destruct (utf8_char c) as [bc|e'] eqn:Ec; cbn [rbind].
  - destruct (encode part) as [bs|e'] eqn:Es; cbn [rbind]; [discriminate|].
    intros E. inversion E; subst. now apply IH.
  - intros E. inversion E; subst. now apply utf8_char_exn with c.
Qed.

Lemma accepted_or_refused (part : str) : accepted part \/ refused part.
Proof.
  unfold accepted, refused, returns, raises.
  destruct (le_lt_dec (length part) 255) as [Hl|Hl]; [|right; left; exact Hl].
  destruct (encode part) as [b|e]; [left|right; right]; eauto.
Qed.

Lemma all_accepted_or_one_refused (parts : list str) :
  Forall accepted parts \/ Exists refused parts.
Proof.
  induction parts as [|p ps [IH|IH]].
  - left. constructor.
  - destruct (accepted_or_refused p) as [H|H].
    + left. now constructor.
    + right. now constructor.
  - right. now constructor 2.
Qed.

Lemma encode_parts_returns (parts : list str) (question : bytes) :
  Forall accepted parts -> returns (encode_parts parts question).
Proof.
  intros H. revert question.
  induction H as [|p ps [Hl [b Hb]] _ IH]; intros question;
    cbn [encode_parts].
  - now exists question.
  - rewrite (pack_B_len p Hl). cbn [rbind]. rewrite Hb. cbn [rbind]. apply IH.
Qed.

Lemma encode_parts_exn (parts : list str) (question : bytes) (e : exn) :
  encode_parts parts question = Raise e ->
  (e = StructError \/ e = UnicodeEncodeError) /\ Exists refused parts.
Proof.
  revert question. induction parts as [|p ps IH]; intros question;
    cbn [encode_parts]; [discriminate|].
  destruct (le_lt_dec (length p) 255) as [Hl|Hl].
  - rewrite (pack_B_len p Hl). cbn [rbind].
    destruct (encode p) as [b|e'] eqn:Eb; cbn [rbind].
    + intros E. destruct (IH _ E) as [He Hex]. split; [exact He|].
      now constructor 2.
    + intros E. inversion E; subst. split.
      * right. now apply encode_exn with p.
      * constructor. right. now exists e.
  - rewrite (pack_B_long p Hl). cbn [rbind]. intros E. inversion E; subst.
    split; [now left|]. constructor. now left.
Qed.

Lemma create_dns_query_cases (domain : str) :
  match create_dns_query domain with
  | Ok q => Forall accepted (split DOT domain)
  | Raise e => (e = StructError \/ e = UnicodeEncodeError)
               /\ Exists refused (split DOT domain)
  end.
Proof.
  unfold create_dns_query.
  change (struct_pack [H; H; H; H; H; H]
            [0x1234%Z; 0x0100%Z; 1%Z; 0%Z; 0%Z; 0%Z]) with (Ok header_bytes).
  change (struct_pack [H; H] [1%Z; 1%Z]) with (Ok type_class_bytes).
  cbn [rbind].
  destruct (encode_parts (split DOT domain) []) as [q|e] eqn:E; cbn [rbind].
  - destruct (all_accepted_or_one_refused (split DOT domain)) as [Hall|Hex];
      [exact Hall|].
    exfalso. clear -E Hex. revert E. generalize (@nil byte) as acc.
    induction Hex as [p ps [Hl|[e He]]|p ps _ IH]; intros acc;
      cbn [encode_parts].
    + now rewrite (pack_B_long p Hl).
    + destruct (struct_pack [B] [len p]); cbn [rbind]; [|discriminate].
      now rewrite He.
    + destruct (struct_pack [B] [len p]); cbn [rbind]; [|discriminate].
      destruct (encode p); cbn [rbind]; [|discriminate]. apply IH.
  - now apply encode_parts_exn with (question := []).
Qed.

(** Claim C1, as amended.  For every domain whose labels have at most 255
    characters, all ASCII, [create_dns_query] returns a message that
    starts with the twelve header octets (identifier 0x1234, flags 0x0100,
    one question, no answer, authority or additional record, big-endian),
    continues with every label behind its length octet, a zero octet, and
    ends with type 1 and class 1; when no label is empty, reading the
    question section back along the length octets gives the domain. *)
Theorem create_dns_query_wire_format (domain : str) :
  Forall (fun part => ascii_label part /\ (length part <= 255)%nat)
         (split DOT domain) ->
  exists q,
    create_dns_query domain = Ok q /\
    firstn 12 q = header_bytes /\
    unpack_H 0 q = Some 0x1234%Z /\
    unpack_H 2 q = Some 0x0100%Z /\
    unpack_H 4 q = Some 1%Z /\
    unpack_H 6 q = Some 0%Z /\
    unpack_H 8 q = Some 0%Z /\
    unpack_H 10 q = Some 0%Z /\
    skipn 12 q
      = flat_map label_wire (split DOT domain) ++ [x00] ++ [x00; x01; x00; x01] /\
    (Forall (fun part => part <> []) (split DOT domain) ->
     parse_question q = Some (domain, [x00; x01; x00; x01])).
Proof.
  intros Hparts. eexists. split; [apply (create_dns_query_ascii _ Hparts)|].
  repeat (split; [reflexivity|]).
  split; [cbn [header_bytes app skipn]; now rewrite <- app_assoc|].
  intros Hne. unfold parse_question. cbn [header_bytes app skipn].
  rewrite <- app_assoc. cbn [app].
  rewrite (read_labels_wire type_class_bytes Hparts Hne).
  - rewrite map_map.
    rewrite (map_ext_in _ (fun p => p)), map_id, join_split; [reflexivity|].
    intros p Hp. apply text_of_ascii.
    apply (proj1 (Forall_forall _ _) Hparts p Hp).
  - rewrite length_app, length_label_wire. cbn [length].
    clear. induction (split DOT domain) as [|p ps IH];
      unfold list_sum in *; cbn [map fold_right length] in *; lia.
Qed.

Lemma create_dns_query_wire_format_witness :
  Forall (fun part => ascii_label part /\ (length part <= 255)%nat)
         (split DOT (str_of_string "baidu.com")) /\
  exists q,
    create_dns_query (str_of_string "baidu.com") = Ok q /\
    firstn 12 q = header_bytes /\
    parse_question q = Some (str_of_string "baidu.com", [x00; x01; x00; x01]).
Proof.
  assert (Hparts : Forall (fun part => ascii_label part /\ (length part <= 255)%nat)
                     (split DOT (str_of_string "baidu.com"))).
  { repeat constructor; cbn [length]; lia. }
  split; [exact Hparts|].
  destruct (create_dns_query_wire_format (str_of_string "baidu.com") Hparts)
    as (q & Hq & Hh & _ & _ & _ & _ & _ & _ & _ & Hrt).
  exists q. repeat split; try assumption.
  apply Hrt. repeat constructor; discriminate.
Defined.

(** Claim C1 fails as stated: a label of 256 characters makes the encoder
    raise [struct.error]; the domain "a..b" is encoded but read back as
    "a"; and the label "é" is given the length octet 1 ahead of its two
    UTF-8 octets, so that the question section cannot be read back. *)
Lemma create_dns_query_not_every_domain :
  create_dns_query (repeat 97%N 256) = Raise StructError /\
  (rbind (create_dns_query (str_of_string "a..b"))
         (fun q => Ok (option_map fst (parse_question q)))
   = Ok (Some (str_of_string "a"))) /\
  create_dns_query [233%N]
  = Ok (header_bytes ++ [x01; xc3; xa9; x00] ++ [x00; x01; x00; x01]) /\
  rbind (create_dns_query [233%N]) (fun q => Ok (parse_question q)) = Ok None.
Proof. repeat split; vm_compute; reflexivity. Qed.




(** Claim C10.  On a non-empty domain made of ASCII labels of at most 255
    characters the message has as many octets as the domain has
    characters, plus 18. *)
Theorem create_dns_query_length (domain : str) :
  domain <> [] ->
  Forall (fun part => ascii_label part /\ (length part <= 255)%nat)
         (split DOT domain) ->
  exists q, create_dns_query domain = Ok q /\ len q = (len domain + 18)%Z.
Proof.
  intros _ Hparts. eexists. split; [apply (create_dns_query_ascii _ Hparts)|].
  unfold len. rewrite !length_app, length_label_wire.
  rewrite <- (length_join (split_not_nil DOT domain)), join_split.
  cbn [length header_bytes type_class_bytes]. lia.
Qed.

Lemma create_dns_query_length_witness :
  (str_of_string "people.com.cn" <> [] /\
   Forall (fun part => ascii_label part /\ (length part <= 255)%nat)
          (split DOT (str_of_string "people.com.cn"))) /\
  exists q, create_dns_query (str_of_string "people.com.cn") = Ok q
            /\ len q = 31%Z.
Proof.
  assert (Hparts : Forall (fun part => ascii_label part /\ (length part <= 255)%nat)
                     (split DOT (str_of_string "people.com.cn"))).
  { repeat constructor; cbn [length]; lia. }
  split; [split; [discriminate|exact Hparts]|].
  apply (create_dns_query_length (domain := str_of_string "people.com.cn")).
  - discriminate.
  - exact Hparts.
Defined.

(** Every domain of the two tables is accepted by the encoder. *)
Lemma test_domains_encodable :
  Forall (fun d => returns (create_dns_query d)) Tables.test_domains.
Proof.
  apply Forall_forall. intros d Hd.
  assert (H : forallb (fun d => match create_dns_query d with
                                | Ok _ => true | Raise _ => false end)
                Tables.test_domains = true) by (vm_compute; reflexivity).
  pose proof (proj1 (forallb_forall _ _) H d Hd) as Hq. cbv beta in Hq.
  destruct (create_dns_query d) as [q|e]; [now exists q|discriminate].
Qed.

End CodecProofs.

(* ===================================================================== *)
(** * Properties of the Python runtime functions                          *)
(* ===================================================================== *)

Module RuntimeProofs.
Import Py.

Lemma Qltb_lt (a b : Q) : Qltb a b = true <-> (a < b)%Q.
Proof.
  unfold Qltb. rewrite negb_true_iff. split.
  - intros Hf. apply Qnot_le_lt. intros Hle.
    apply Qle_bool_iff in Hle. congruence.
  - intros Hlt. destruct (Qle_bool b a) eqn:E; [|reflexivity].
    apply Qle_bool_iff in E. exfalso. eapply Qlt_not_le; eauto.
Qed.

Lemma Qltb_ge (a b : Q) : Qltb a b = false <-> (b <= a)%Q.
Proof.
  unfold Qltb. rewrite negb_false_iff. apply Qle_bool_iff.
Qed.

(** ** [sorted] *)

Section SortedFacts.
Variables (A K : Type) (key : A -> K) (lt : K -> K -> bool).

Local Abbreviation before := (RankSpec.before key lt).

Hypothesis lt_asym : forall a b, lt a b = true -> lt b a = false.
Hypothesis le_trans :
  forall a b c, lt b a = false -> lt c b = false -> lt c a = false.

Lemma insert_perm (x : A) (l : list A) :
  Permutation (insert key lt x l) (x :: l).
Proof.
  induction l as [|y l IH]; simpl; [reflexivity|].
  destruct (lt (key y) (key x)); [|reflexivity].
  rewrite IH. apply perm_swap.
Qed.

Lemma sorted_perm (l : list A) : Permutation (sorted key lt l) l.
Proof.
  induction l as [|x l IH]; simpl; [reflexivity|].
  rewrite insert_perm. now constructor.
Qed.

Lemma insert_sorted (x : A) (l : list A) :
  StronglySorted before l -> StronglySorted before (insert key lt x l).
Proof.
  induction 1 as [|y l Hs IH Hy]; simpl.
  - repeat constructor.
  - destruct (lt (key y) (key x)) eqn:E.
    + constructor; [exact IH|].
      apply Forall_forall. intros z Hz.
      apply (Permutation_in _ (insert_perm x l)) in Hz.
      destruct Hz as [<-|Hz].
      * unfold before. now apply lt_asym.
      * exact (proj1 (Forall_forall _ _) Hy z Hz).
    + constructor; [now constructor|].
      constructor; [exact E|].
      eapply Forall_impl; [|exact Hy].
      intros z Hz. unfold before in *. eapply le_trans; eauto.
Qed.

Lemma sorted_sorted (l : list A) : StronglySorted before (sorted key lt l).
Proof.
  induction l as [|x l IH]; simpl; [constructor|]. now apply insert_sorted.
Qed.

(** Stability: the entries that share a key keep their order. *)
Variable same : K -> K -> bool.
Hypothesis same_not_lt :
  forall k a b, same a k = true -> same b k = true -> lt a b = false.

Lemma insert_filter_same (k : K) (x : A) (l : list A) :
  StronglySorted before l ->
  filter (fun e => same (key e) k) (insert key lt x l)
  = filter (fun e => same (key e) k) (x :: l).
Proof.
  induction 1 as [|y l Hs IH Hy]; [reflexivity|].
  cbn [insert]. destruct (lt (key y) (key x)) eqn:E; [|reflexivity].
  cbn [filter] in *. rewrite IH.
  destruct (same (key x) k) eqn:Ex; [|reflexivity].
  destruct (same (key y) k) eqn:Ey; [|reflexivity].
  rewrite (same_not_lt Ey Ex) in E. discriminate.
Qed.

Lemma sorted_stable (k : K) (l : list A) :
  filter (fun e => same (key e) k) (sorted key lt l)
  = filter (fun e => same (key e) k) l.
Proof.
  induction l as [|x l IH]; [reflexivity|].
  cbn [sorted]. rewrite insert_filter_same by apply sorted_sorted.
  cbn [filter]. now rewrite IH.
Qed.

Lemma insert_app (x : A) (l r : list A) :
  Forall (fun y => lt (key y) (key x) = false) r ->
  insert key lt x (l ++ r) = insert key lt x l ++ r.
Proof.
  intros Hr. induction l as [|y l IH]; cbn [app insert].
  - destruct Hr as [|z r Hz _]; [reflexivity|]. cbn [insert]. now rewrite Hz.
  - destruct (lt (key y) (key x)); [|reflexivity]. now rewrite IH.
Qed.

Lemma insert_last (x : A) (l r : list A) :
  Forall (fun y => lt (key y) (key x) = true) l ->
  Forall (fun y => lt (key y) (key x) = false) r ->
  insert key lt x (l ++ r) = l ++ x :: r.
Proof.
  intros Hl Hr. induction Hl as [|y l Hy _ IH]; cbn [app insert].
  - destruct Hr as [|z r Hz _]; [reflexivity|]. cbn [insert]. now rewrite Hz.
  - now rewrite Hy, IH.
Qed.

End SortedFacts.

(** ** [min], [max], [statistics.mean], [statistics.median] *)

Import SamplerSpec.

Lemma fold_min (xs : list Q) (x : Q) :
  let m := fold_left (fun best y => if Qltb y best then y else best) xs x in
  In m (x :: xs) /\ (m <= x)%Q /\ Forall (fun y => (m <= y)%Q) xs.
Proof.
  revert x. induction xs as [|y xs IH]; intros x; cbn [fold_left].
  - split; [now left|]. split; [apply Qle_refl|constructor].
  - destruct (Qltb y x) eqn:E.
    + destruct (IH y) as (Hin & Hle & Hall). apply Qltb_lt in E.
      split; [now right|]. split; [|now constructor].
      apply Qle_trans with y; [exact Hle|now apply Qlt_le_weak].
    + destruct (IH x) as (Hin & Hle & Hall). apply Qltb_ge in E.
      split; [destruct Hin as [<-|Hin]; [now left|now right; right]|].
      split; [exact Hle|]. constructor; [|exact Hall].
      now apply Qle_trans with x.
Qed.

Lemma fold_max (xs : list Q) (x : Q) :
  let m := fold_left (fun best y => if Qltb best y then y else best) xs x in
  In m (x :: xs) /\ (x <= m)%Q /\ Forall (fun y => (y <= m)%Q) xs.
Proof.
  revert x. induction xs as [|y xs IH]; intros x; cbn [fold_left].
  - split; [now left|]. split; [apply Qle_refl|constructor].
  - destruct (Qltb x y) eqn:E.
    + destruct (IH y) as (Hin & Hle & Hall). apply Qltb_lt in E.
      split; [now right|]. split; [|now constructor].
      apply Qle_trans with y; [now apply Qlt_le_weak|exact Hle].
    + destruct (IH x) as (Hin & Hle & Hall). apply Qltb_ge in E.
      split; [destruct Hin as [<-|Hin]; [now left|now right; right]|].
      split; [exact Hle|]. constructor; [|exact Hall].
      now apply Qle_trans with x.
Qed.

Lemma py_min_spec (xs : list Q) :
  xs <> [] -> exists m, py_min xs = Ok m /\ is_minimum m xs.
Proof.
  destruct xs as [|x xs]; [congruence|]. intros _. eexists. split; [reflexivity|].
  destruct (fold_min xs x) as (Hin & Hle & Hall).
  split; [exact Hin|now constructor].
Qed.

Lemma py_max_spec (xs : list Q) :
  xs <> [] -> exists m, py_max xs = Ok m /\ is_maximum m xs.
Proof.
  destruct xs as [|x xs]; [congruence|]. intros _. eexists. split; [reflexivity|].
  destruct (fold_max xs x) as (Hin & Hle & Hall).
  split; [exact Hin|now constructor].
Qed.

Lemma Qltb_asym (a b : Q) : Qltb a b = true -> Qltb b a = false.
Proof. rewrite Qltb_lt, Qltb_ge. apply Qlt_le_weak. Qed.

Lemma Qltb_le_trans (a b c : Q) :
  Qltb b a = false -> Qltb c b = false -> Qltb c a = false.
Proof. rewrite !Qltb_ge. apply Qle_trans. Qed.

Lemma sorted_Q_sorted (xs : list Q) :
  StronglySorted Qle (sorted (fun x => x) Qltb xs).
Proof.
  pose proof (sorted_sorted (fun x : Q => x) Qltb Qltb_asym Qltb_le_trans xs) as H.
  induction H as [|y l _ IH Hy]; constructor; [exact IH|].
  eapply Forall_impl; [|exact Hy]. intros z Hz. now apply Qltb_ge.
Qed.

Lemma odd_mod2 (n : nat) : Nat.eqb (n mod 2) 1 = Nat.odd n.
Proof. rewrite <- Nat.bit0_mod, Nat.bit0_odd. now destruct (Nat.odd n). Qed.

Lemma median_spec (xs : list Q) :
  xs <> [] -> exists m, median xs = Ok m /\ is_median m xs.
Proof.
  intros Hne. unfold median.
  set (ys := sorted (fun x => x) Qltb xs).
  assert (Hp : Permutation ys xs) by apply sorted_perm.
  assert (Hn : length ys <> 0%nat).
  { rewrite (Permutation_length Hp). destruct xs; [congruence|discriminate]. }
  replace (Nat.eqb (length ys) 0) with false
    by (symmetry; now apply Nat.eqb_neq).
  rewrite odd_mod2.
  assert (Hs : StronglySorted Qle ys) by apply sorted_Q_sorted.
  destruct (Nat.odd (length ys)) eqn:E; eexists; (split; [reflexivity|]);
    exists ys; rewrite E; auto.
Qed.

Lemma mean_spec (xs : list Q) :
  xs <> [] -> mean xs = Ok (arithmetic_mean xs).
Proof. destruct xs; [congruence|reflexivity]. Qed.

(** ** Bounds *)

Lemma Qsum_bounds (lo hi : Q) (xs : list Q) :
  Forall (fun x => (lo <= x)%Q) xs -> Forall (fun x => (x <= hi)%Q) xs ->
  (lo * inject_Z (Z.of_nat (length xs)) <= Qsum xs
   /\ Qsum xs <= hi * inject_Z (Z.of_nat (length xs)))%Q.
Proof.
  induction xs as [|x xs IH]; intros Hlo Hhi.
  - cbn. split; ring_simplify; apply Qle_refl.
  - inversion Hlo; inversion Hhi; subst.
    destruct IH as [IHlo IHhi]; [assumption..|].
    cbn [length Qsum fold_right]. rewrite Nat2Z.inj_succ. unfold Z.succ.
    rewrite inject_Z_plus. fold (Qsum xs).
    change (inject_Z 1) with 1%Q. split; lra.
Qed.

Lemma mean_bounds (lo hi : Q) (xs : list Q) :
  xs <> [] ->
  Forall (fun x => (lo <= x)%Q) xs -> Forall (fun x => (x <= hi)%Q) xs ->
  (lo <= arithmetic_mean xs /\ arithmetic_mean xs <= hi)%Q.
Proof.
  intros Hne Hlo Hhi. destruct (Qsum_bounds Hlo Hhi) as [H1 H2].
  assert (Hn : (0 < inject_Z (Z.of_nat (length xs)))%Q).
  { change 0%Q with (inject_Z 0). rewrite <- Zlt_Qlt.
    destruct xs; [congruence|cbn [length]; lia]. }
  unfold arithmetic_mean. split.
  - now apply Qle_shift_div_l.
  - now apply Qle_shift_div_r.
Qed.

Lemma nth_bounds (lo hi : Q) (ys : list Q) (i : nat) :
  Forall (fun x => (lo <= x)%Q) ys -> Forall (fun x => (x <= hi)%Q) ys ->
  (i < length ys)%nat ->
  (lo <= nth i ys 0 /\ nth i ys 0 <= hi)%Q.
Proof.
  intros Hlo Hhi Hi. pose proof (nth_In ys 0%Q Hi) as Hin.
  split.
  - exact (proj1 (Forall_forall _ _) Hlo _ Hin).
  - exact (proj1 (Forall_forall _ _) Hhi _ Hin).
Qed.

Lemma median_bounds (lo hi m : Q) (xs : list Q) :
  xs <> [] ->
  Forall (fun x => (lo <= x)%Q) xs -> Forall (fun x => (x <= hi)%Q) xs ->
  is_median m xs -> (lo <= m /\ m <= hi)%Q.
Proof.
  intros Hne Hlo Hhi (ys & Hp & _ & ->).
  assert (Hlo' : Forall (fun x => (lo <= x)%Q) ys)
    by (apply Forall_forall; intros y Hy;
        exact (proj1 (Forall_forall _ _) Hlo y (Permutation_in _ Hp Hy))).
  assert (Hhi' : Forall (fun x => (x <= hi)%Q) ys)
    by (apply Forall_forall; intros y Hy;
        exact (proj1 (Forall_forall _ _) Hhi y (Permutation_in _ Hp Hy))).
  assert (Hn : (0 < length ys)%nat).
  { rewrite (Permutation_length Hp). destruct xs; [congruence|cbn; lia]. }
  assert (Hhalf : (length ys / 2 < length ys)%nat)
    by (apply Nat.div_lt; lia).
  destruct (Nat.odd (length ys)).
  - now apply nth_bounds.
  - destruct (nth_bounds (i := length ys / 2 - 1) Hlo' Hhi') as [A1 A2]; [lia|].
    destruct (nth_bounds (i := length ys / 2) Hlo' Hhi') as [B1 B2]; [lia|].
    split.
    + apply Qle_shift_div_l; [reflexivity|lra].
    + apply Qle_shift_div_r; [reflexivity|lra].
Qed.

End RuntimeProofs.

(* ===================================================================== *)
(** * Properties of the probes                                            *)
(* ===================================================================== *)

Module ProbeProofs.
Import Py OS SamplerSpec Examples.

Lemma create_dns_query_not_socket (domain : str) (e : exn) :
  DnsCodec.create_dns_query domain = Raise e ->
  DnsIpv4.catches_socket e = false.
Proof.
  intros E. pose proof (CodecProofs.create_dns_query_cases domain) as H.
  rewrite E in H. destruct H as [[-> | ->] _]; reflexivity.
Qed.

Lemma check_timeout_exn (timeout : Q) (e : exn) :
  check_timeout timeout = Raise e -> DnsIpv4.catches_socket e = false.
Proof.
  unfold check_timeout. destruct (Qltb _ _).
  - intros H. injection H as <-. reflexivity.
  - destruct (Qltb timeout 0); intros H; [|discriminate].
    injection H as <-. reflexivity.
Qed.

(** The timeout of the samplers' probes, 2 seconds, is accepted. *)
Lemma check_timeout_default : check_timeout 2 = Ok tt.
Proof. reflexivity. Qed.

(** Symbolic execution of one UDP probe: a case for each way in which
    the encoder, the timeout, the host and the four calls can turn out. *)
Ltac run_udp_probe w server_ip domain timeout :=
  unfold DnsIpv4.test_dns_server;
  let Eq := fresh "Eq" in
  let Hs := fresh "Hs" in
  let Et := fresh "Et" in
  let Hts := fresh "Hts" in
  destruct (DnsCodec.create_dns_query domain) as [?q|?e] eqn:Eq;
    [|pose proof (create_dns_query_not_socket _ Eq) as Hs];
    (destruct (check_timeout timeout) as [[]|?et] eqn:Et;
     [|pose proof (check_timeout_exn _ Et) as Hts]);
    destruct (host_refused (idna w) server_ip) eqn:?Eh;
    destruct (ans_ok (oracle w (tick w))) eqn:?E0;
    destruct (ans_ok (oracle w (S (S (tick w))))) eqn:?E2;
    destruct (ans_ok (oracle w (S (S (S (tick w)))))) eqn:?E3;
    destruct (ans_timeout (oracle w (S (S (S (tick w)))))) eqn:?E3t;
    unfold try_except, bind, socket_socket, settimeout, lift, time_time,
      sendto, recvfrom, close, ask, ret;
    repeat (progress (cbn; rewrite ?E0, ?E2, ?E3, ?E3t, ?Et, ?Eh, ?Hs, ?Hts)).

Ltac run_doh_probe w mk domain :=
  unfold DohIpv4.test_doh_server, DohIpv4.build_dns_query;
  destruct (mk domain) as [?q|?e] eqn:?Eq;
    destruct (ans_ok (oracle w (S (tick w)))) eqn:?E1;
    destruct (is_success (ans_status (oracle w (S (tick w))))) eqn:?E1s;
    unfold try_except, bind, lift, time_time, httpx_post, raise_for_status,
      ask, ret;
    repeat (progress (cbn; rewrite ?E1, ?E1s)).

(** [open_socks] holds the sockets that were created and that no call
    of [close] has closed; what the finalizer of a socket object does
    once the object is unreachable is outside the model.  A probe calls
    [close] on no socket that was there before it and creates at most
    one socket, numbered [next_fd].  After a probe that reports a finite
    time the list is as it was before the probe: the probe has closed
    its socket.  After any other probe the list is as it was or has the
    socket of the probe added. *)
Lemma test_dns_server_socket (server_name server_ip domain : str) (timeout : Q)
    (w : World) :
  fds_below_next w ->
  (forall n x,
      fst (DnsIpv4.test_dns_server server_name server_ip domain timeout w)
      = Ok (n, Fin x) ->
      open_socks (snd (DnsIpv4.test_dns_server server_name server_ip domain
                         timeout w))
      = open_socks w) /\
  (open_socks (snd (DnsIpv4.test_dns_server server_name server_ip domain
                      timeout w))
   = open_socks w
   \/ open_socks (snd (DnsIpv4.test_dns_server server_name server_ip domain
                         timeout w))
      = next_fd w :: open_socks w).
Proof.
  intros Hw.
  assert (Hfresh : remove Nat.eq_dec (next_fd w) (open_socks w) = open_socks w).
  { apply notin_remove. intros Hin.
    pose proof (proj1 (Forall_forall _ _) Hw _ Hin) as Hlt.
    cbv beta in Hlt. lia. }
  run_udp_probe w server_ip domain timeout;
    try (destruct (Nat.eq_dec (next_fd w) (next_fd w)); [|congruence]);
    rewrite ?Hfresh;
    (split; [intros n x H; solve [reflexivity | discriminate]
            |solve [now left | now right]]).
Qed.

Lemma test_dns_server_socket_witness :
  fds_below_next (world0 (timeout_at 3)) /\
  (open_socks (snd (DnsIpv4.test_dns_server google google_ip
                      (str_of_string "qq.com") 2 (world0 (timeout_at 3))))
   = open_socks (world0 (timeout_at 3))
   \/ open_socks (snd (DnsIpv4.test_dns_server google google_ip
                         (str_of_string "qq.com") 2 (world0 (timeout_at 3))))
      = next_fd (world0 (timeout_at 3)) :: open_socks (world0 (timeout_at 3))).
Proof.
  assert (Hw : fds_below_next (world0 (timeout_at 3))) by constructor.
  split; [exact Hw|].
  exact (proj2 (test_dns_server_socket google google_ip (str_of_string "qq.com")
                  2 Hw)).
Defined.

Lemma test_dns_server_fds (server_name server_ip domain : str) (timeout : Q)
    (w : World) :
  fds_below_next w ->
  fds_below_next
    (snd (DnsIpv4.test_dns_server server_name server_ip domain timeout w)).
Proof.
  intros Hw. unfold fds_below_next in *.
  assert (Hup : forall n l, (next_fd w <= n)%nat -> incl l (open_socks w) ->
                            Forall (fun fd => (fd < n)%nat) l).
  { intros n l Hn Hl. apply Forall_forall. intros fd Hfd.
    pose proof (proj1 (Forall_forall _ _) Hw _ (Hl _ Hfd)) as Hlt.
    cbv beta in Hlt. lia. }
  run_udp_probe w server_ip domain timeout;
    try (destruct (Nat.eq_dec (next_fd w) (next_fd w)); [|congruence]);
    try (constructor; [lia|]);
    try (apply Hup; [lia|]);
    try apply incl_refl;
    intros fd Hfd; apply in_remove in Hfd; apply Hfd.
Qed.

(** Claim C8, at the inputs where the program departs from it.  A probe
    whose receive times out, whose receive fails with a socket error, or
    whose send fails, returns [inf] and leaves its socket, number 3, open;
    the probe that succeeds closes it. *)
Theorem test_dns_server_leaves_socket_open :
  (fst (DnsIpv4.test_dns_server google google_ip (str_of_string "qq.com") 2
          (world0 (timeout_at 3))) = Ok (google, Inf) /\
   open_socks (snd (DnsIpv4.test_dns_server google google_ip
                      (str_of_string "qq.com") 2 (world0 (timeout_at 3))))
   = [3%nat]) /\
  (fst (DnsIpv4.test_dns_server google google_ip (str_of_string "qq.com") 2
          (world0 (error_at 3))) = Ok (google, Inf) /\
   open_socks (snd (DnsIpv4.test_dns_server google google_ip
                      (str_of_string "qq.com") 2 (world0 (error_at 3))))
   = [3%nat]) /\
  (fst (DnsIpv4.test_dns_server google google_ip (str_of_string "qq.com") 2
          (world0 (error_at 2))) = Ok (google, Inf) /\
   open_socks (snd (DnsIpv4.test_dns_server google google_ip
                      (str_of_string "qq.com") 2 (world0 (error_at 2))))
   = [3%nat]) /\
  (fst (DnsIpv4.test_dns_server google google_ip (str_of_string "qq.com") 2
          (world0 clock)) = Ok (google, Fin 15000) /\
   open_socks (snd (DnsIpv4.test_dns_server google google_ip
                      (str_of_string "qq.com") 2 (world0 clock)))
   = []).
Proof. repeat split; vm_compute; reflexivity. Qed.

(** A sampling run over five domains, the second and the fourth of which
    time out, ends with two sockets that it has not closed. *)
Lemma test_multiple_queries_open_sockets :
  open_socks (snd (DnsIpv4.test_multiple_queries Tables.DNSSpeedTester_init
                     google google_ip 5
                     (world0 (fun n => if Nat.eqb n 8 then answer_timeout
                                       else timeout_at 17 n))))
  = [6%nat; 4%nat].
Proof. vm_compute. reflexivity. Qed.

(** A probe sends at most one datagram: the query for its domain. *)
Lemma test_dns_server_sent (server_name server_ip domain : str) (timeout : Q)
    (w : World) :
  sent (snd (DnsIpv4.test_dns_server server_name server_ip domain timeout w))
  = sent w
  \/ exists q,
      DnsCodec.create_dns_query domain = Ok q /\
      sent (snd (DnsIpv4.test_dns_server server_name server_ip domain timeout w))
      = sent w ++ [(q, server_ip, 53%Z)].
Proof.
  run_udp_probe w server_ip domain timeout;
    solve [now left | right; eexists; split; reflexivity].
Qed.

(** The probes of a sampling run send queries for the domains sampled,
    and nothing else, whether the run returns or raises. *)
Lemma probe_each_sent (server_name server_ip : str) (ds : list str) :
  forall (acc : list Q) (w : World),
  exists dgs,
    sent (snd (DnsIpv4.probe_each (udp_probe server_name server_ip) ds acc w))
    = sent w ++ dgs /\
    Forall (query_for ds server_ip) dgs.
Proof.
  induction ds as [|d ds IH]; intros acc w.
  - exists []. cbn. split; [now rewrite app_nil_r|constructor].
  - cbn [DnsIpv4.probe_each]. unfold bind at 1. unfold udp_probe at 1.
    unfold bind at 1.
    pose proof (test_dns_server_sent server_name server_ip d 2 w) as Hs.
    destruct (DnsIpv4.test_dns_server server_name server_ip d 2 w)
      as [[r|e] w1]; cbn [snd] in Hs.
    + unfold ret at 1.
      destruct (IH (match snd r with Fin t => acc ++ [t] | Inf => acc end) w1)
        as (dgs & Hd & Hq).
      assert (Hq' : Forall (query_for (d :: ds) server_ip) dgs).
      { eapply Forall_impl; [|exact Hq].
        intros dg (d' & Hin & Hrest). exists d'. split; [now right|exact Hrest]. }
      destruct Hs as [Hs|(q & Eq & Hs)].
      * exists dgs. rewrite Hd, Hs. now split.
      * exists ((q, server_ip, 53%Z) :: dgs). rewrite Hd, Hs, <- app_assoc.
        split; [reflexivity|]. constructor; [|exact Hq'].
        exists d. cbn. repeat split; [now left|exact Eq].
    + cbn [snd]. destruct Hs as [Hs|(q & Eq & Hs)].
      * exists []. rewrite Hs, app_nil_r. split; [reflexivity|constructor].
      * exists [(q, server_ip, 53%Z)]. rewrite Hs. split; [reflexivity|].
        constructor; [|constructor].
        exists d. cbn. repeat split; [now left|exact Eq].
Qed.

(** Only the domains of the slice are queried. *)
Lemma test_multiple_queries_sent (self : DnsIpv4.DNSSpeedTester)
    (server_name server_ip : str) :
  sends_only server_ip (DnsIpv4.test_domains self)
    (DnsIpv4.test_multiple_queries self server_name server_ip).
Proof.
  intros num_queries w.
  destruct (probe_each_sent server_name server_ip
              (slice_to (DnsIpv4.test_domains self) num_queries) [] w)
    as (dgs & Hd & Hq).
  exists dgs. split; [|exact Hq]. rewrite <- Hd.
  unfold DnsIpv4.test_multiple_queries. fold (udp_probe server_name server_ip).
  unfold bind.
  destruct (DnsIpv4.probe_each _ _ _ w) as [[[|x xs]|e] w']; reflexivity.
Qed.

(** A DoH probe posts at most one request: the query for its domain. *)
Lemma test_doh_server_posted (mk : str -> result bytes)
    (server_name url domain : str) (timeout : Q) (w : World) :
  posted (snd (DohIpv4.test_doh_server mk server_name url domain timeout w))
  = posted w
  \/ exists q,
      mk domain = Ok q /\
      posted (snd (DohIpv4.test_doh_server mk server_name url domain timeout w))
      = posted w ++ [(url, q)].
Proof.
  run_doh_probe w mk domain;
    solve [now left | right; eexists; split; reflexivity].
Qed.

Lemma doh_probe_each_posted (mk : str -> result bytes) (name url : str)
    (ds : list str) :
  forall (acc : list Q) (w : World),
  exists rqs,
    posted (snd (DnsIpv4.probe_each (doh_probe mk name url) ds acc w))
    = posted w ++ rqs /\
    Forall (request_for mk ds url) rqs.
Proof.
  induction ds as [|d ds IH]; intros acc w.
  - exists []. cbn. split; [now rewrite app_nil_r|constructor].
  - cbn [DnsIpv4.probe_each]. unfold bind at 1. unfold doh_probe at 1.
    pose proof (test_doh_server_posted mk name url d 3 w) as Hs.
    destruct (DohIpv4.test_doh_server mk name url d 3 w)
      as [[r|e] w1]; cbn [snd] in Hs.
    + destruct (IH (match r with Fin t => acc ++ [t] | Inf => acc end) w1)
        as (rqs & Hd & Hq).
      assert (Hq' : Forall (request_for mk (d :: ds) url) rqs).
      { eapply Forall_impl; [|exact Hq].
        intros rq (d' & Hin & Hrest). exists d'. split; [now right|exact Hrest]. }
      destruct Hs as [Hs|(q & Eq & Hs)].
      * exists rqs. rewrite Hd, Hs. now split.
      * exists ((url, q) :: rqs). rewrite Hd, Hs, <- app_assoc.
        split; [reflexivity|]. constructor; [|exact Hq'].
        exists d. cbn. repeat split; [now left|exact Eq].
    + cbn [snd]. destruct Hs as [Hs|(q & Eq & Hs)].
      * exists []. rewrite Hs, app_nil_r. split; [reflexivity|constructor].
      * exists [(url, q)]. rewrite Hs. split; [reflexivity|].
        constructor; [|constructor].
        exists d. cbn. repeat split; [now left|exact Eq].
Qed.

Lemma test_server_on_domains_posted (mk : str -> result bytes)
    (self : DohIpv4.DoHSpeedTester) (name url : str) :
  posts_only mk url (DohIpv4.domains self)
    (DohIpv4.test_server_on_domains mk self name url).
Proof.
  intros count w.
  destruct (doh_probe_each_posted mk name url
              (slice_to (DohIpv4.domains self) count) [] w)
    as (rqs & Hd & Hq).
  exists rqs. split; [|exact Hq]. rewrite <- Hd.
  unfold DohIpv4.test_server_on_domains.
  change DohIpv4.probe_each with DnsIpv4.probe_each.
  fold (doh_probe mk name url).
  unfold bind.
  destruct (DnsIpv4.probe_each _ _ _ w) as [[[|x xs]|e] w']; reflexivity.
Qed.

(** The world's idna codec is the same after a probe. *)
Lemma test_dns_server_idna (server_name server_ip domain : str) (timeout : Q)
    (w : World) :
  idna (snd (DnsIpv4.test_dns_server server_name server_ip domain timeout w))
  = idna w.
Proof. run_udp_probe w server_ip domain timeout; reflexivity. Qed.

(** A probe of the samplers raises only when its query cannot be built
    or the host of the resolver is refused. *)
Lemma udp_probe_returns (server_name server_ip domain : str) (w : World) :
  returns (DnsCodec.create_dns_query domain) ->
  host_refused (idna w) server_ip = false ->
  exists o w',
    udp_probe server_name server_ip domain w = (Ok o, w') /\ idna w' = idna w.
Proof.
  intros [q0 Eq0] Hh. unfold udp_probe.
  pose proof check_timeout_default as Hd.
  run_udp_probe w server_ip domain 2%Q;
    try discriminate;
    eexists; eexists; split; reflexivity.
Qed.

Lemma udp_probe_idna (server_name server_ip domain : str) (w : World) :
  idna (snd (udp_probe server_name server_ip domain w)) = idna w.
Proof.
  unfold udp_probe, bind.
  pose proof (test_dns_server_idna server_name server_ip domain 2 w) as H.
  destruct (DnsIpv4.test_dns_server server_name server_ip domain 2 w)
    as [[r|e] w1]; exact H.
Qed.

(** With a query that can be built, the only exception of a probe of the
    samplers is the [TypeError] of a refused host. *)
Lemma udp_probe_raises (server_name server_ip domain : str) (w : World)
    (e : exn) (w' : World) :
  returns (DnsCodec.create_dns_query domain) ->
  udp_probe server_name server_ip domain w = (Raise e, w') ->
  e = TypeError /\ host_refused (idna w) server_ip = true.
Proof.
  intros [q0 Eq0]. unfold udp_probe.
  pose proof check_timeout_default as Hd.
  run_udp_probe w server_ip domain 2%Q;
    try discriminate;
    intros E; injection E as <- _; now split.
Qed.

Lemma doh_probe_returns (mk : str -> result bytes) (name url domain : str)
    (w : World) :
  returns (mk domain) ->
  exists o w', doh_probe mk name url domain w = (Ok o, w').
Proof.
  intros [q0 Eq0]. unfold doh_probe.
  run_doh_probe w mk domain; try discriminate;
    eexists; eexists; reflexivity.
Qed.

End ProbeProofs.

(* ===================================================================== *)
(** * Properties of the samplers                                          *)
(* ===================================================================== *)

Module SamplerProofs.
Import Py OS SamplerSpec RuntimeProofs Examples.

Lemma bind_run {A B} (m : io A) (k : A -> io B) (w : World) :
  bind m k w
  = match m w with
    | (Ok a, w') => k a w'
    | (Raise e, w') => (Raise e, w')
    end.
Proof. reflexivity. Qed.

(** The loop keeps exactly the successes, in order, and stops where a
    probe raises. *)
Lemma probe_each_outcomes (probe : str -> io pyfloat) (ds : list str) :
  forall (acc : list Q) (w : World),
    DnsIpv4.probe_each probe ds acc w
    = match outcomes probe ds w with
      | (Ok outs, w') => (Ok (acc ++ successes outs), w')
      | (Raise e, w') => (Raise e, w')
      end.
Proof.
  induction ds as [|d ds IH]; intros acc w.
  - cbn. now rewrite app_nil_r.
  - cbn [DnsIpv4.probe_each outcomes]. rewrite !bind_run.
    destruct (probe d w) as [[o|e] w1]; [|reflexivity].
    rewrite IH, bind_run. unfold ret.
    destruct (outcomes probe ds w1) as [[os|e] w2]; [|reflexivity].
    destruct o as [t|]; cbn [successes]; [|reflexivity].
    now rewrite <- app_assoc.
Qed.

Lemma sampler_outcomes (probe : str -> io pyfloat) (domains : list str)
    (count : Z) (w : World) :
  sampler probe domains count w
  = match outcomes probe (slice_to domains count) w with
    | (Ok outs, w') => (summarize (successes outs) count, w')
    | (Raise e, w') => (Raise e, w')
    end.
Proof.
  unfold sampler, bind. rewrite probe_each_outcomes.
  destruct (outcomes probe (slice_to domains count) w) as [[outs|e] w'];
    reflexivity.
Qed.

(** The two samplers of the repository are instances of the shared shape. *)
Lemma test_multiple_queries_sampler (self : DnsIpv4.DNSSpeedTester)
    (server_name server_ip : str) (num_queries : Z) (w : World) :
  DnsIpv4.test_multiple_queries self server_name server_ip num_queries w
  = sampler (udp_probe server_name server_ip) (DnsIpv4.test_domains self)
            num_queries w.
Proof.
  unfold DnsIpv4.test_multiple_queries, sampler, bind.
  fold (udp_probe server_name server_ip).
  destruct (DnsIpv4.probe_each _ _ _ w) as [[[|x xs]|e] w']; reflexivity.
Qed.

Lemma test_server_on_domains_sampler (mk : str -> result bytes)
    (self : DohIpv4.DoHSpeedTester) (name url : str) (count : Z) (w : World) :
  DohIpv4.test_server_on_domains mk self name url count w
  = sampler (doh_probe mk name url) (DohIpv4.domains self) count w.
Proof.
  unfold DohIpv4.test_server_on_domains, sampler, bind.
  change DohIpv4.probe_each with DnsIpv4.probe_each.
  fold (doh_probe mk name url).
  destruct (DnsIpv4.probe_each _ _ _ w) as [[[|x xs]|e] w']; reflexivity.
Qed.

Lemma length_outcomes (probe : str -> io pyfloat) (ds : list str) :
  forall w outs w',
    outcomes probe ds w = (Ok outs, w') -> length outs = length ds.
Proof.
  induction ds as [|d ds IH]; intros w outs w'; cbn [outcomes].
  - intros E. inversion E. reflexivity.
  - rewrite bind_run. destruct (probe d w) as [[o|e] w1]; [|discriminate].
    rewrite bind_run. unfold ret.
    destruct (outcomes probe ds w1) as [[os|e] w2] eqn:E1; [|discriminate].
    intros E. inversion E; subst. cbn [length]. f_equal. eapply IH; eauto.
Qed.

Lemma length_successes (outs : list pyfloat) :
  (length (successes outs) <= length outs)%nat.
Proof.
  induction outs as [|[t|] outs IH]; cbn [successes length]; lia.
Qed.

Lemma slice_to_nonneg {A} (l : list A) (n : Z) :
  (0 <= n)%Z -> slice_to l n = firstn (Z.to_nat n) l.
Proof.
  intros Hn. unfold slice_to.
  now replace (Z.ltb n 0) with false by (symmetry; apply Z.ltb_ge; lia).
Qed.

Lemma slice_to_zero {A} (l : list A) : slice_to l 0 = [].
Proof. reflexivity. Qed.

(** A success can only come from a domain of the slice, so the requested
    number is not zero. *)
Lemma successes_count (probe : str -> io pyfloat) (domains : list str)
    (count : Z) (w : World) (outs : list pyfloat) (w' : World) :
  outcomes probe (slice_to domains count) w = (Ok outs, w') ->
  successes outs <> [] -> count <> 0%Z.
Proof.
  intros E Hne ->. rewrite slice_to_zero in E. cbn in E.
  inversion E; subst. now apply Hne.
Qed.

Lemma summarize_nonempty (xs : list Q) (count : Z) :
  xs <> [] -> count <> 0%Z ->
  exists s,
    summarize xs count = Ok s /\ summary_of xs s /\
    Stats.success_rate s
    = (inject_Z (len xs) / inject_Z count * 100)%Q.
Proof.
  intros Hne Hc.
  destruct (py_min_spec Hne) as (mn & Emn & Hmn).
  destruct (py_max_spec Hne) as (mx & Emx & Hmx).
  destruct (median_spec Hne) as (md & Emd & Hmd).
  unfold summarize. destruct xs as [|x xs]; [congruence|].
  rewrite (mean_spec Hne), Emn, Emx, Emd. cbn [rbind].
  unfold truediv.
  replace (Z.eqb count 0) with false by (symmetry; now apply Z.eqb_neq).
  cbn [rbind]. eexists. split; [reflexivity|].
  split; [|reflexivity].
  repeat split; cbn [Stats.avg Stats.min Stats.max Stats.median]; eauto.
Qed.

Lemma summarize_zero_division (xs : list Q) :
  xs <> [] -> summarize xs 0 = Raise ZeroDivisionError.
Proof.
  intros Hne.
  destruct (py_min_spec Hne) as (mn & Emn & Hmn).
  destruct (py_max_spec Hne) as (mx & Emx & Hmx).
  destruct (median_spec Hne) as (md & Emd & Hmd).
  unfold summarize. destruct xs as [|x xs]; [congruence|].
  now rewrite (mean_spec Hne), Emn, Emx, Emd.
Qed.

(** What a sampler returns, whatever the requested number. *)
Lemma sampler_returns (probe : str -> io pyfloat) (domains : list str)
    (count : Z) (w : World) (outs : list pyfloat) (w' : World) :
  outcomes probe (slice_to domains count) w = (Ok outs, w') ->
  exists s,
    sampler probe domains count w = (Ok s, w') /\
    (successes outs = [] -> s = Stats.sentinel) /\
    (successes outs <> [] ->
     count <> 0%Z /\ summary_of (successes outs) s /\
     Stats.success_rate s
     = (inject_Z (len (successes outs)) / inject_Z count * 100)%Q).
Proof.
  intros E. rewrite sampler_outcomes, E.
  destruct (successes outs) as [|x xs] eqn:Exs.
  - exists Stats.sentinel. split; [reflexivity|]. split; [reflexivity|congruence].
  - assert (Hne : x :: xs <> []) by discriminate.
    assert (Hc : count <> 0%Z).
    { eapply successes_count; [exact E|]. now rewrite Exs. }
    destruct (summarize_nonempty Hne Hc) as (s & Es & Hs & Hr).
    exists s. split; [now rewrite Es|]. split; [discriminate|]. auto.
Qed.

(** Conversely, whatever a sampler returns comes from outcomes of the
    probes on the slice. *)
Lemma sampler_inv (probe : str -> io pyfloat) (domains : list str)
    (count : Z) (w : World) (s : Stats.t) (w' : World) :
  sampler probe domains count w = (Ok s, w') ->
  exists outs, outcomes probe (slice_to domains count) w = (Ok outs, w').
Proof.
  rewrite sampler_outcomes.
  destruct (outcomes probe (slice_to domains count) w) as [[outs|e] w1];
    [|discriminate].
  intros E. exists outs. congruence.
Qed.

Lemma firstn_slice_outcomes (probe : str -> io pyfloat) (domains : list str)
    (count : Z) (w : World) (outs : list pyfloat) (w' : World) :
  (0 <= count)%Z ->
  outcomes probe (firstn (Z.to_nat count) domains) w = (Ok outs, w') ->
  outcomes probe (slice_to domains count) w = (Ok outs, w').
Proof. intros Hc E. now rewrite slice_to_nonneg. Qed.

Lemma outcomes_return (probe : str -> io pyfloat) (accepts : str -> Prop) :
  (forall d w, accepts d -> exists o w', probe d w = (Ok o, w')) ->
  forall ds w,
    Forall accepts ds -> exists outs w', outcomes probe ds w = (Ok outs, w').
Proof.
  intros Hp ds. induction ds as [|d ds IH]; intros w Hds.
  - exists [], w. reflexivity.
  - inversion Hds as [|? ? Hd Hds']; subst.
    destruct (Hp d w Hd) as (o & w1 & E1).
    destruct (IH w1 Hds') as (os & w2 & E2).
    exists (o :: os), w2. cbn [outcomes]. rewrite bind_run, E1, bind_run, E2.
    reflexivity.
Qed.

Lemma sampler_computes_statistics (probe : str -> io pyfloat)
    (domains : list str) :
  computes_statistics probe domains (sampler probe domains).
Proof.
  intros count w. split.
  - intros outs w' E.
    destruct (sampler_returns probe domains count w E)
      as (s & Es & Hnil & Hne).
    exists s. split; [exact Es|]. split; [exact Hnil|].
    intros H. now destruct (Hne H) as (_ & Hs & _).
  - intros s w' Es. exact (sampler_inv _ _ _ _ Es).
Qed.

(** Claim C2, as amended.  Whatever number is requested, each sampler
    sends queries for the domains of the slice [domains[:count]] only,
    which are the first [count] domains when the number is not negative
    and all but the last [- count] domains when it is negative.  Once
    the probes of these domains have reported, the sampler returns:
    the sentinel when none of them succeeded, and otherwise the
    arithmetic mean, the minimum, the maximum and the median by rank of
    the elapsed times of the successful ones.  It returns in no other
    case. *)
Theorem sampler_statistics :
  (forall self server_name server_ip,
      computes_statistics (udp_probe server_name server_ip)
        (DnsIpv4.test_domains self)
        (DnsIpv4.test_multiple_queries self server_name server_ip) /\
      sends_only server_ip (DnsIpv4.test_domains self)
        (DnsIpv4.test_multiple_queries self server_name server_ip)) /\
  (forall make_query_to_wire self name url,
      computes_statistics (doh_probe make_query_to_wire name url)
        (DohIpv4.domains self)
        (DohIpv4.test_server_on_domains make_query_to_wire self name url) /\
      posts_only make_query_to_wire url (DohIpv4.domains self)
        (DohIpv4.test_server_on_domains make_query_to_wire self name url)) /\
  (forall (domains : list str) count,
      ((0 <= count)%Z ->
       slice_to domains count = firstn (Z.to_nat count) domains) /\
      ((count < 0)%Z ->
       slice_to domains count
       = firstn (length domains - Z.to_nat (- count)) domains)).
Proof.
  split; [|split].
  - intros self server_name server_ip.
    split; [|apply ProbeProofs.test_multiple_queries_sent].
    intros count w.
    destruct (sampler_computes_statistics (udp_probe server_name server_ip)
                (DnsIpv4.test_domains self) count w) as (H1 & H2).
    split.
    + intros outs w' E. rewrite test_multiple_queries_sampler. now apply H1.
    + intros s w'. rewrite test_multiple_queries_sampler. apply H2.
  - intros mk self name url.
    split; [|apply ProbeProofs.test_server_on_domains_posted].
    intros count w.
    destruct (sampler_computes_statistics (doh_probe mk name url)
                (DohIpv4.domains self) count w) as (H1 & H2).
    split.
    + intros outs w' E. rewrite test_server_on_domains_sampler. now apply H1.
    + intros s w'. rewrite test_server_on_domains_sampler. apply H2.
  - intros domains count. split; intros Hc; [now apply slice_to_nonneg|].
    unfold slice_to.
    replace (Z.ltb count 0) with true by (symmetry; apply Z.ltb_lt; exact Hc).
    f_equal. unfold len. lia.
Qed.

Lemma sampler_statistics_witness :
  exists outs s,
    fst (outcomes (udp_probe google google_ip)
           (slice_to (DnsIpv4.test_domains
                        (tester ["a.b"; "c.d"; "e.f"; "g.h"]%string)) 3)
           (world0 (timeout_at 8))) = Ok outs /\
    successes outs = [15000; 69000]%Q /\
    fst (DnsIpv4.test_multiple_queries
           (tester ["a.b"; "c.d"; "e.f"; "g.h"]%string)
           google google_ip 3 (world0 (timeout_at 8))) = Ok s /\
    summary_of (successes outs) s.
Proof.
  destruct (outcomes (udp_probe google google_ip)
              (slice_to (DnsIpv4.test_domains
                           (tester ["a.b"; "c.d"; "e.f"; "g.h"]%string)) 3)
              (world0 (timeout_at 8))) as [r w'] eqn:E.
  assert (Er : r = fst (outcomes (udp_probe google google_ip)
                          (slice_to (DnsIpv4.test_domains
                                       (tester ["a.b"; "c.d"; "e.f"; "g.h"]%string))
                                    3)
                          (world0 (timeout_at 8))))
    by (now rewrite E).
  vm_compute in Er. subst r.
  destruct (proj1 (proj1 (proj1 sampler_statistics
                            (tester ["a.b"; "c.d"; "e.f"; "g.h"]%string)
                            google google_ip)
                     3%Z (world0 (timeout_at 8))) _ _ E)
    as (s & Es & _ & Hs).
  eexists. exists s. split; [reflexivity|]. split; [reflexivity|].
  rewrite Es. split; [reflexivity|]. apply Hs. discriminate.
Defined.

(** Claim C2 fails as stated.  With a requested number of -1 and two
    domains, none of the probes the claim allows exists, yet the sampler
    sends the query for the first domain and returns its time.  And over
    "qq.com" and a label of 300 characters, the first probe succeeds and
    the sampler returns no statistics: it raises the [struct.error] of
    the second probe. *)
Lemma sampler_departures :
  outcomes (udp_probe google google_ip)
    (firstn (Z.to_nat (-1)) (DnsIpv4.test_domains (tester ["a.b"; "c.d"]%string)))
    (world0 clock)
  = (Ok [], world0 clock) /\
  fst (DnsIpv4.test_multiple_queries (tester ["a.b"; "c.d"]%string)
         google google_ip (-1) (world0 clock))
  = Ok {| Stats.avg := Fin 15000; Stats.min := Fin 15000;
          Stats.max := Fin 15000; Stats.median := Fin 15000;
          Stats.success_rate := (-100)%Q |} /\
  map (fun d => snd (fst d))
      (sent (snd (DnsIpv4.test_multiple_queries (tester ["a.b"; "c.d"]%string)
                    google google_ip (-1) (world0 clock))))
  = [google_ip] /\
  fst (udp_probe google google_ip (str_of_string "qq.com") (world0 clock))
  = Ok (Fin 15000) /\
  fst (DnsIpv4.test_multiple_queries long_label_tester google google_ip 2
         (world0 clock))
  = Raise StructError.
Proof. repeat split; vm_compute; reflexivity. Qed.

(** *** The success rate *)

Lemma inject_Z_pos (z : Z) : (0 < z)%Z -> (0 < inject_Z z)%Q.
Proof. intros H. change 0%Q with (inject_Z 0). now rewrite <- Zlt_Qlt. Qed.

Lemma percentage_bounds (a c : Z) :
  (0 <= a <= c)%Z -> (0 < c)%Z ->
  (0 <= inject_Z a / inject_Z c * 100
   /\ inject_Z a / inject_Z c * 100 <= 100)%Q.
Proof.
  intros Ha Hc. pose proof (inject_Z_pos Hc) as Hc'.
  assert (H0 : (0 <= inject_Z a / inject_Z c)%Q).
  { apply Qle_shift_div_l; [exact Hc'|]. ring_simplify.
    change 0%Q with (inject_Z 0). rewrite <- Zle_Qle. lia. }
  assert (H1 : (inject_Z a / inject_Z c <= 1)%Q).
  { apply Qle_shift_div_r; [exact Hc'|]. ring_simplify.
    rewrite <- Zle_Qle. lia. }
  split; lra.
Qed.

Lemma percentage_nonzero (a c : Z) :
  (0 < a)%Z -> c <> 0%Z -> ~ (inject_Z a / inject_Z c * 100 == 0)%Q.
Proof.
  intros Ha Hc H.
  assert (Hx : (inject_Z a / inject_Z c == 0)%Q) by lra.
  assert (Hc' : ~ (inject_Z c == 0)%Q).
  { unfold Qeq. cbn. lia. }
  assert (Hm : (inject_Z a == 0)%Q).
  { rewrite <- (Qmult_div_r (inject_Z a) (inject_Z c) Hc'), Hx. ring. }
  revert Hm. unfold Qeq. cbn. lia.
Qed.

Lemma sampler_rates_successes (probe : str -> io pyfloat)
    (domains : list str) :
  rates_successes probe domains (sampler probe domains).
Proof.
  intros count w Hc. split; [|split].
  - intros s w' Es.
    destruct (sampler_inv _ _ _ _ Es) as (outs & E').
    destruct (sampler_returns probe domains count w E')
      as (s' & Es' & Hnil & Hne).
    assert (s' = s) by congruence. subst s'.
    assert (E : outcomes probe (firstn (Z.to_nat count) domains) w
                = (Ok outs, w')) by (now rewrite <- slice_to_nonneg).
    destruct (successes outs) as [|x xs] eqn:Exs.
    + rewrite (Hnil eq_refl). cbn. split; [split; discriminate|].
      exists outs. rewrite Exs. repeat split; congruence.
    + assert (Hx : x :: xs <> []) by discriminate.
      destruct (Hne Hx) as (Hc0 & _ & Hr).
      assert (Hlen : (0 < len (x :: xs) <= count)%Z).
      { unfold len. rewrite <- Exs. split.
        - rewrite Exs. cbn [length]. lia.
        - pose proof (length_successes outs) as H1.
          pose proof (length_outcomes _ _ _ E) as H2.
          rewrite length_firstn in H2. lia. }
      rewrite Hr. split; [apply percentage_bounds; lia|].
      exists outs. rewrite Exs. split; [exact E|].
      split; [discriminate|]. intros _. split; [lia|reflexivity].
  - intros outs w' E.
    destruct (sampler_returns probe domains count w
                (firstn_slice_outcomes _ _ _ Hc E)) as (s & Es & _).
    now exists s.
  - intros Hz. rewrite sampler_outcomes.
    assert (Hs : slice_to domains count = []).
    { destruct Hz as [->| ->]; [|reflexivity].
      rewrite slice_to_nonneg by exact Hc. apply firstn_nil. }
    rewrite Hs. reflexivity.
Qed.

(** Claim C4, as amended.  For a requested number that is not negative,
    the success rate of the statistics a sampler returns lies between 0
    and 100; it is 0 when no probe succeeded, and otherwise the number of
    successes over the requested number, times 100, also when the list
    holds fewer domains than requested.  The sampler returns as soon as
    its probes have reported, and with the sentinel, no division made,
    when the list is empty or the requested number is 0. *)
Theorem success_rate_formula :
  (forall self server_name server_ip,
      rates_successes (udp_probe server_name server_ip)
        (DnsIpv4.test_domains self)
        (DnsIpv4.test_multiple_queries self server_name server_ip)) /\
  (forall make_query_to_wire self name url,
      rates_successes (doh_probe make_query_to_wire name url)
        (DohIpv4.domains self)
        (DohIpv4.test_server_on_domains make_query_to_wire self name url)).
Proof.
  split.
  - intros self server_name server_ip count w Hc.
    destruct (sampler_rates_successes (udp_probe server_name server_ip)
                (DnsIpv4.test_domains self) w Hc) as (H1 & H2 & H3).
    split; [|split].
    + intros s w'. rewrite test_multiple_queries_sampler. apply H1.
    + intros outs w'. rewrite test_multiple_queries_sampler. apply H2.
    + rewrite test_multiple_queries_sampler. apply H3.
  - intros mk self name url count w Hc.
    destruct (sampler_rates_successes (doh_probe mk name url)
                (DohIpv4.domains self) w Hc) as (H1 & H2 & H3).
    split; [|split].
    + intros s w'. rewrite test_server_on_domains_sampler. apply H1.
    + intros outs w'. rewrite test_server_on_domains_sampler. apply H2.
    + rewrite test_server_on_domains_sampler. apply H3.
Qed.

Lemma success_rate_formula_witness :
  (0 <= 5)%Z /\
  exists s,
    fst (DohIpv4.test_server_on_domains strict_make_query
           (doh_tester ["a.b"; "c.d"]%string) cloudflare cloudflare_url 5
           (world0 (timeout_at 1))) = Ok s /\
    (0 <= Stats.success_rate s /\ Stats.success_rate s <= 100)%Q /\
    Stats.success_rate s = (inject_Z 1 / inject_Z 5 * 100)%Q.
Proof.
  split; [lia|].
  assert (Hc : (0 <= 5)%Z) by lia.
  destruct (DohIpv4.test_server_on_domains strict_make_query
              (doh_tester ["a.b"; "c.d"]%string) cloudflare cloudflare_url 5
              (world0 (timeout_at 1))) as [r w'] eqn:E.
  assert (Er : r = fst (DohIpv4.test_server_on_domains strict_make_query
                          (doh_tester ["a.b"; "c.d"]%string) cloudflare
                          cloudflare_url 5 (world0 (timeout_at 1))))
    by (now rewrite E).
  vm_compute in Er. subst r.
  eexists. split; [reflexivity|].
  destruct (proj1 (proj2 success_rate_formula strict_make_query
                     (doh_tester ["a.b"; "c.d"]%string) cloudflare
                     cloudflare_url 5%Z (world0 (timeout_at 1)) Hc) _ _ E)
    as (Hb & _).
  split; [exact Hb|reflexivity].
Defined.

(** Claim C4 fails as stated: with a requested number of -1 the sampler
    probes the first of two domains and reports a success rate of -100. *)
Lemma success_rate_negative :
  rbind (fst (DnsIpv4.test_multiple_queries (tester ["qq.com"; "jd.com"]%string)
                google google_ip (-1) (world0 clock)))
        (fun s => Ok (Stats.success_rate s))
  = Ok (-100)%Q.
Proof. vm_compute. reflexivity. Qed.

(** *** The sentinel *)

Lemma sampler_sentinel_on_failure (probe : str -> io pyfloat)
    (domains : list str) :
  sentinel_on_failure probe domains (sampler probe domains).
Proof.
  intros count w. split.
  - intros outs w' E Hnil.
    destruct (sampler_returns probe domains count w E) as (s & Es & Hs & _).
    now rewrite <- (Hs Hnil).
  - intros s w' Es.
    destruct (sampler_inv _ _ _ _ Es) as (outs & E).
    destruct (sampler_returns probe domains count w E) as (s' & Es' & Hnil & Hne).
    assert (s' = s) by congruence. subst s'.
    split.
    + exists outs. split; [exact E|]. split; [exact Hnil|].
      intros Hs. destruct (successes outs) as [|x xs] eqn:Exs; [reflexivity|].
      assert (Hx : x :: xs <> []) by discriminate.
      destruct (Hne Hx) as (_ & (Ha & _) & _).
      rewrite Hs in Ha. discriminate.
    + intros _ Hr. destruct (successes outs) as [|x xs] eqn:Exs.
      * rewrite (Hnil eq_refl). repeat split.
      * assert (Hx : x :: xs <> []) by discriminate.
        destruct (Hne Hx) as (Hc & _ & Hrate).
        rewrite Hrate in Hr. exfalso.
        apply (@percentage_nonzero (len (x :: xs)) count);
          [unfold len; cbn [length]; lia|exact Hc|exact Hr].
Qed.

(** *** Order of the latencies *)

Lemma sampler_latencies_ordered (probe : str -> io pyfloat)
    (domains : list str) :
  latencies_ordered (sampler probe domains).
Proof.
  intros count w s w' Es Hr.
  destruct (sampler_inv _ _ _ _ Es) as (outs & E).
  destruct (sampler_returns probe domains count w E) as (s' & Es' & Hnil & Hne).
  assert (s' = s) by congruence. subst s'.
  destruct (successes outs) as [|x xs] eqn:Exs.
  - rewrite (Hnil eq_refl) in Hr. cbn in Hr. now apply Qlt_irrefl in Hr.
  - assert (Hx : x :: xs <> []) by discriminate.
    destruct (Hne Hx) as (_ & (Ha & (mn & Emn & Hmn) & (mx & Emx & Hmx)
                                & (md & Emd & Hmd)) & _).
    rewrite Ha, Emn, Emx, Emd. cbn [fle].
    destruct Hmn as [_ Hlo]. destruct Hmx as [_ Hhi].
    destruct (median_bounds Hx Hlo Hhi Hmd).
    destruct (mean_bounds Hx Hlo Hhi).
    repeat split; assumption.
Qed.

(** Claim C9.  Whenever a sampler returns statistics with a positive
    success rate, the minimum is at most the median and the mean, and
    these are at most the maximum. *)
Theorem latency_bounds :
  (forall self server_name server_ip,
      latencies_ordered
        (DnsIpv4.test_multiple_queries self server_name server_ip)) /\
  (forall make_query_to_wire self name url,
      latencies_ordered
        (DohIpv4.test_server_on_domains make_query_to_wire self name url)).
Proof.
  split.
  - intros self server_name server_ip count w s w'.
    rewrite test_multiple_queries_sampler.
    apply sampler_latencies_ordered.
  - intros mk self name url count w s w'.
    rewrite test_server_on_domains_sampler.
    apply sampler_latencies_ordered.
Qed.

Lemma latency_bounds_witness :
  exists s,
    fst (DnsIpv4.test_multiple_queries Tables.DNSSpeedTester_init
           google google_ip 5 (world0 (timeout_at 13))) = Ok s /\
    (0 < Stats.success_rate s)%Q /\
    fle (Stats.min s) (Stats.median s) /\ fle (Stats.median s) (Stats.max s) /\
    fle (Stats.min s) (Stats.avg s) /\ fle (Stats.avg s) (Stats.max s).
Proof.
  destruct (DnsIpv4.test_multiple_queries Tables.DNSSpeedTester_init
              google google_ip 5 (world0 (timeout_at 13))) as [r w'] eqn:E.
  assert (Er : r = fst (DnsIpv4.test_multiple_queries Tables.DNSSpeedTester_init
                          google google_ip 5 (world0 (timeout_at 13))))
    by (now rewrite E).
  vm_compute in Er. subst r.
  eexists. split; [reflexivity|].
  assert (Hr : (0 < 400 # 5)%Q) by reflexivity.
  split; [exact Hr|].
  exact (proj1 latency_bounds _ _ _ _ _ _ _ E Hr).
Defined.

End SamplerProofs.

(* ===================================================================== *)
(** * Properties of the rankings                                          *)
(* ===================================================================== *)

Module RankProofs.
Import Py RankSpec RuntimeProofs.

Lemma flt_asym (a b : pyfloat) : flt a b = true -> flt b a = false.
Proof.
  destruct a as [x|], b as [y|]; cbn; try congruence. apply Qltb_asym.
Qed.

Lemma flt_le_trans (a b c : pyfloat) :
  flt b a = false -> flt c b = false -> flt c a = false.
Proof.
  destruct a as [x|], b as [y|], c as [z|]; cbn; try congruence.
  apply Qltb_le_trans.
Qed.

Lemma feq_not_flt (k a b : pyfloat) :
  feq a k = true -> feq b k = true -> flt a b = false.
Proof.
  destruct a as [x|], b as [y|], k as [z|]; cbn; try congruence.
  intros Hx Hy. apply Qeq_bool_iff in Hx, Hy. apply Qltb_ge.
  rewrite Hx, Hy. apply Qle_refl.
Qed.

Lemma feq_Inf (a : pyfloat) : feq a Inf = true <-> a = Inf.
Proof. destruct a; cbn; split; congruence. Qed.

Lemma before_avg_le (key : str * Stats.t -> pyfloat) (x y : str * Stats.t) :
  (forall e, key e = Stats.avg (snd e)) ->
  before key flt x y -> avg_le x y.
Proof.
  intros Hk. unfold before, avg_le. rewrite !Hk.
  destruct (Stats.avg (snd x)) as [a|], (Stats.avg (snd y)) as [b|]; cbn;
    try congruence; auto.
  apply Qltb_ge.
Qed.

(** A list sorted by average is in non-decreasing order of average, and
    entries of equal average keep their order. *)
Lemma sorted_by_avg (key : str * Stats.t -> pyfloat) (l : list (str * Stats.t)) :
  (forall e, key e = Stats.avg (snd e)) ->
  Permutation (sorted key flt l) l /\
  StronglySorted avg_le (sorted key flt l) /\
  forall k, with_avg k (sorted key flt l) = with_avg k l.
Proof.
  intros Hk. split; [apply sorted_perm|]. split.
  - pose proof (sorted_sorted key flt flt_asym flt_le_trans l) as H.
    induction H as [|y r _ IH Hy]; constructor; [exact IH|].
    eapply Forall_impl; [|exact Hy]. intros z. now apply before_avg_le.
  - intros k. unfold with_avg.
    transitivity (filter (fun e => feq (key e) k) (sorted key flt l));
      [apply filter_ext; intros e; now rewrite Hk|].
    rewrite (sorted_stable key flt flt_asym flt_le_trans feq feq_not_flt k l).
    apply filter_ext. intros e. now rewrite Hk.
Qed.

(** ** Subsequences *)

Lemma subseq_refl {A} (l : list A) : subseq l l.
Proof. induction l; constructor; assumption. Qed.

Lemma subseq_trans {A} (l1 l2 l3 : list A) :
  subseq l1 l2 -> subseq l2 l3 -> subseq l1 l3.
Proof.
  intros H12 H23. revert l1 H12.
  induction H23 as [l|x l2 l3 _ IH|x l2 l3 _ IH]; intros l1 H12.
  - inversion H12; subst. constructor.
  - inversion H12; subst.
    + constructor.
    + constructor. now apply IH.
    + constructor 3. now apply IH.
  - constructor 3. now apply IH.
Qed.

Lemma subseq_filter {A} (f : A -> bool) (l : list A) : subseq (filter f l) l.
Proof.
  induction l as [|x l IH]; cbn; [constructor|].
  destruct (f x); now constructor.
Qed.

Lemma subseq_firstn {A} (n : nat) (l : list A) : subseq (firstn n l) l.
Proof.
  revert n. induction l as [|x l IH]; intros [|n]; cbn; constructor.
  apply IH.
Qed.

Lemma filter_subseq {A} (f : A -> bool) (l1 l2 : list A) :
  subseq l1 l2 -> subseq (filter f l1) (filter f l2).
Proof.
  induction 1 as [l|x l1 l2 _ IH|x l1 l2 _ IH]; cbn.
  - constructor.
  - destruct (f x); [now constructor|exact IH].
  - destruct (f x); [now constructor 3|exact IH].
Qed.

Lemma In_firstn {A} (n : nat) (l : list A) (y : A) :
  In y (firstn n l) -> In y l.
Proof.
  revert n. induction l as [|x l IH]; intros [|n]; cbn; try tauto.
  intros [H|H]; [now left|right; eapply IH; eauto].
Qed.

Lemma StronglySorted_firstn {A} (R : A -> A -> Prop) (n : nat) (l : list A) :
  StronglySorted R l -> StronglySorted R (firstn n l).
Proof.
  intros H. revert n. induction H as [|x l _ IH Hx]; intros [|n]; cbn;
    try constructor.
  - apply IH.
  - apply Forall_forall. intros y Hy.
    apply (proj1 (Forall_forall _ _) Hx). exact (In_firstn _ _ _ Hy).
Qed.

(** ** The sentinel in a ranking *)

(** Sorting by average puts every entry with an infinite average behind
    all the others. *)
Lemma sorted_infinite_last (key : str * Stats.t -> pyfloat)
    (l : list (str * Stats.t)) :
  (forall e, key e = Stats.avg (snd e)) ->
  sorted key flt l
  = sorted key flt (filter finite_avg l) ++ filter infinite_avg l.
Proof.
  intros Hk. induction l as [|x l IH]; [reflexivity|].
  cbn [sorted filter]. unfold finite_avg at 1, infinite_avg at 1.
  assert (Hinf : Forall (fun y => key y = Inf) (filter infinite_avg l)).
  { apply Forall_forall. intros y Hy. apply filter_In in Hy.
    rewrite Hk. apply feq_Inf. apply Hy. }
  destruct (feq (Stats.avg (snd x)) Inf) eqn:E; cbn [negb].
  - apply feq_Inf in E. rewrite IH.
    apply insert_last.
    + apply Forall_forall. intros y Hy.
      apply (Permutation_in _ (sorted_perm key flt _)) in Hy.
      apply filter_In in Hy. destruct Hy as [_ Hy]. unfold finite_avg in Hy.
      rewrite !Hk, E. destruct (Stats.avg (snd y)); [reflexivity|discriminate].
    + eapply Forall_impl; [|exact Hinf]. intros y Hy. now rewrite Hy.
  - cbn [sorted]. rewrite IH. apply insert_app.
    eapply Forall_impl; [|exact Hinf]. intros y Hy. now rewrite Hy.
Qed.

(** ** The two [print_summary] *)

Import SamplerSpec SamplerProofs Examples.

Lemma udp_sorted_results (results : dict Stats.t) :
  DnsIpv4.sorted_results results
  = sorted DnsIpv4.by_avg flt
      (filter (fun '(k, v) => negb (feq (Stats.avg v) Inf)
                              && Qltb 0 (Stats.success_rate v))
              (items results)).
Proof.
  unfold DnsIpv4.sorted_results.
  destruct (filter _ (items results)); reflexivity.
Qed.

Lemma udp_rows_valid (results : dict Stats.t) :
  Forall (fun e => Stats.avg (snd e) <> Inf
                   /\ ~ (Stats.success_rate (snd e) == 0)%Q)
         (DnsIpv4.print_summary results).
Proof.
  apply Forall_forall. intros [k v] Hin.
  apply In_firstn in Hin. rewrite udp_sorted_results in Hin.
  apply (Permutation_in _ (sorted_perm _ _ _)) in Hin.
  apply filter_In in Hin. destruct Hin as [_ Hv].
  apply andb_true_iff in Hv. destruct Hv as [Ha Hr]. cbn [snd]. split.
  - intros E. rewrite E in Ha. discriminate.
  - apply Qltb_lt in Hr. intros E. rewrite E in Hr.
    now apply Qlt_irrefl in Hr.
Qed.

Lemma doh_rows_valid (results : dict Stats.t) :
  Forall (fun e => Stats.avg (snd e) <> Inf) (DohIpv4.print_summary results).
Proof.
  apply Forall_forall. intros [k v] Hin.
  apply (Permutation_in _ (sorted_perm _ _ _)) in Hin.
  apply filter_In in Hin. destruct Hin as [_ Hv]. cbn [snd].
  intros E. rewrite E in Hv. discriminate.
Qed.

(** The two rankings, whatever the result mapping.  No row of either
    ranking has an infinite average, so the sentinel is never a row; the
    rows are in non-decreasing order of average; and the rows that share
    an average stand in the order of the mapping.  The ranking of
    [dns_ipv4.py] has no row with a zero success rate; the ranking of
    [doh_ipv4.py] tests the average only: every entry of the mapping with
    a finite average is a row, whatever its success rate. *)
Theorem print_summary_ranking (results : dict Stats.t) :
  (Forall (fun e => Stats.avg (snd e) <> Inf
                    /\ ~ (Stats.success_rate (snd e) == 0)%Q)
          (DnsIpv4.print_summary results) /\
   (forall name, ~ In (name, Stats.sentinel) (DnsIpv4.print_summary results)) /\
   StronglySorted avg_le (DnsIpv4.print_summary results) /\
   (forall k, subseq (with_avg k (DnsIpv4.print_summary results))
                     (with_avg k (items results)))) /\
  (Forall (fun e => Stats.avg (snd e) <> Inf) (DohIpv4.print_summary results) /\
   (forall name, ~ In (name, Stats.sentinel) (DohIpv4.print_summary results)) /\
   (forall e,
       In e (items results) -> Stats.avg (snd e) <> Inf ->
       In e (DohIpv4.print_summary results)) /\
   StronglySorted avg_le (DohIpv4.print_summary results) /\
   (forall k, subseq (with_avg k (DohIpv4.print_summary results))
                     (with_avg k (items results)))).
Proof.
  split.
  - pose proof (udp_rows_valid results) as Hv.
    split; [exact Hv|]. split; [|split].
    + intros name Hin.
      destruct (proj1 (Forall_forall _ _) Hv _ Hin) as [Ha _]. now apply Ha.
    + unfold DnsIpv4.print_summary. apply StronglySorted_firstn.
      rewrite udp_sorted_results.
      now apply (sorted_by_avg DnsIpv4.by_avg).
    + intros k. unfold DnsIpv4.print_summary.
      eapply subseq_trans; [apply filter_subseq, subseq_firstn|].
      rewrite udp_sorted_results.
      destruct (sorted_by_avg DnsIpv4.by_avg
                  (filter (fun '(k, v) => negb (feq (Stats.avg v) Inf)
                                          && Qltb 0 (Stats.success_rate v))
                          (items results))
                  (fun e => eq_refl)) as (_ & _ & Hst).
      fold (with_avg k (sorted DnsIpv4.by_avg flt
                          (filter (fun '(k, v) =>
                                     negb (feq (Stats.avg v) Inf)
                                     && Qltb 0 (Stats.success_rate v))
                                  (items results)))).
      rewrite Hst. apply filter_subseq, subseq_filter.
  - pose proof (doh_rows_valid results) as Hv.
    split; [exact Hv|]. split; [|split; [|split]].
    + intros name Hin.
      now apply (proj1 (Forall_forall _ _) Hv _ Hin).
    + intros [k v] Hin Ha. cbn [snd] in Ha.
      apply (Permutation_in _ (Permutation_sym (sorted_perm _ _ _))).
      apply filter_In. split; [exact Hin|].
      destruct (feq (Stats.avg v) Inf) eqn:Ef; [|reflexivity].
      now apply feq_Inf in Ef.
    + now apply (sorted_by_avg DohIpv4.by_avg).
    + intros k. unfold DohIpv4.print_summary, DohIpv4.sorted_results.
      destruct (sorted_by_avg DohIpv4.by_avg
                  (filter (fun '(k, v) => negb (feq (Stats.avg v) Inf))
                          (items results))
                  (fun e => eq_refl)) as (_ & _ & Hst).
      rewrite Hst. apply filter_subseq, subseq_filter.
Qed.

Lemma print_summary_ranking_witness :
  DnsIpv4.print_summary three_resolvers
  = [(str_of_string "A", stats_a); (str_of_string "C", stats_c)] /\
  DohIpv4.print_summary three_resolvers
  = [(str_of_string "A", stats_a); (str_of_string "C", stats_c)] /\
  StronglySorted avg_le (DohIpv4.print_summary three_resolvers) /\
  In (str_of_string "C", stats_c) (DohIpv4.print_summary three_resolvers).
Proof.
  split; [reflexivity|]. split; [reflexivity|].
  destruct (proj2 (print_summary_ranking three_resolvers))
    as (_ & _ & Hin & Hs & _).
  split; [exact Hs|].
  apply Hin; [right; right; now left|discriminate].
Defined.

(** Claim C5, at the input where [doh_ipv4.py] departs from it.  Of
    three resolvers, B has the sentinel, Z a finite average with a
    success rate of 0, and A a finite average with a success rate of
    100.  The ranking of [dns_ipv4.py] leaves out B and Z, as the claim
    says; the ranking of [doh_ipv4.py] tests the average only and has
    the row Z, ahead of A. *)
Theorem doh_print_summary_ranks_zero_rate :
  Stats.success_rate stats_z = 0%Q /\
  DnsIpv4.print_summary zero_rate_results = [(str_of_string "A", stats_a)] /\
  DohIpv4.print_summary zero_rate_results
  = [(str_of_string "Z", stats_z); (str_of_string "A", stats_a)].
Proof. repeat split. Qed.

(** Claim C3, as amended.  When every probe a sampler issues has
    reported and none has succeeded, the sampler returns the sentinel,
    whose four latencies are infinite and whose success rate is 0;
    whatever a sampler returns comes after every probe has reported, and
    is the sentinel exactly when none has succeeded; statistics returned
    with a success rate of 0, for a requested number of at most 10^300 in
    absolute value, have their four latencies infinite; and sorting any
    list by average puts the entries with the sentinel's average behind
    all the others. *)
Theorem sentinel_statistics :
  (forall self server_name server_ip,
      sentinel_on_failure (udp_probe server_name server_ip)
        (DnsIpv4.test_domains self)
        (DnsIpv4.test_multiple_queries self server_name server_ip)) /\
  (forall make_query_to_wire self name url,
      sentinel_on_failure (doh_probe make_query_to_wire name url)
        (DohIpv4.domains self)
        (DohIpv4.test_server_on_domains make_query_to_wire self name url)) /\
  (all_infinite Stats.sentinel /\ Stats.success_rate Stats.sentinel = 0%Q) /\
  (forall l,
      sorted DnsIpv4.by_avg flt l
      = sorted DnsIpv4.by_avg flt (filter finite_avg l) ++ filter infinite_avg l) /\
  (forall l,
      sorted DohIpv4.by_avg flt l
      = sorted DohIpv4.by_avg flt (filter finite_avg l) ++ filter infinite_avg l).
Proof.
  split; [|split; [|split; [|split]]].
  - intros self server_name server_ip count w.
    destruct (sampler_sentinel_on_failure (udp_probe server_name server_ip)
                (DnsIpv4.test_domains self) count w) as [H1 H2].
    split.
    + intros outs w' E Hn. rewrite test_multiple_queries_sampler. eauto.
    + intros s w'. rewrite test_multiple_queries_sampler. apply H2.
  - intros mk self name url count w.
    destruct (sampler_sentinel_on_failure (doh_probe mk name url)
                (DohIpv4.domains self) count w) as [H1 H2].
    split.
    + intros outs w' E Hn. rewrite test_server_on_domains_sampler. eauto.
    + intros s w'. rewrite test_server_on_domains_sampler. apply H2.
  - repeat split.
  - intros l. now apply sorted_infinite_last.
  - intros l. now apply sorted_infinite_last.
Qed.

Lemma sentinel_statistics_witness :
  fst (outcomes (udp_probe google google_ip)
         (slice_to (DnsIpv4.test_domains Tables.DNSSpeedTester_init) 5)
         (world0 unreachable))
  = Ok [Inf; Inf; Inf; Inf; Inf] /\
  fst (DnsIpv4.test_multiple_queries Tables.DNSSpeedTester_init
         google google_ip 5 (world0 unreachable))
  = Ok Stats.sentinel.
Proof.
  split; [vm_compute; reflexivity|].
  assert (E : outcomes (udp_probe google google_ip)
                (slice_to (DnsIpv4.test_domains Tables.DNSSpeedTester_init) 5)
                (world0 unreachable)
              = (Ok [Inf; Inf; Inf; Inf; Inf],
                 snd (outcomes (udp_probe google google_ip)
                        (slice_to (DnsIpv4.test_domains
                                     Tables.DNSSpeedTester_init) 5)
                        (world0 unreachable)))).
  { rewrite (surjective_pairing (outcomes _ _ _)) at 1. f_equal. }
  rewrite (proj1 (proj1 sentinel_statistics Tables.DNSSpeedTester_init
                    google google_ip 5%Z (world0 unreachable)) _ _ E eq_refl).
  reflexivity.
Defined.

(** Claim C3 fails as stated: a probe that raises is not a probe that
    fails.  Over "qq.com" and a label of 300 characters, with the first
    answer lost, no probe succeeds and the sampler raises the
    [struct.error] of the second probe instead of returning the sentinel;
    likewise in [doh_ipv4.py] over "google.com" and "a..b" when the first
    request fails. *)
Lemma sentinel_not_returned_on_raise :
  fst (udp_probe google google_ip (str_of_string "qq.com")
         (world0 (timeout_at 3))) = Ok Inf /\
  fst (DnsIpv4.test_multiple_queries long_label_tester google google_ip 2
         (world0 (timeout_at 3))) = Raise StructError /\
  fst (doh_probe strict_make_query cloudflare cloudflare_url
         (str_of_string "google.com") (world0 (timeout_at 1))) = Ok Inf /\
  fst (DohIpv4.test_server_on_domains strict_make_query empty_label_tester
         cloudflare cloudflare_url 2 (world0 (timeout_at 1)))
  = Raise DNSException.
Proof. repeat split; vm_compute; reflexivity. Qed.

End RankProofs.


(* ===================================================================== *)
(** * Properties of the fleet testers                                     *)
(* ===================================================================== *)

Module FleetProofs.
Import Py OS SamplerSpec Examples.

Lemma str_eqb_eq (a b : str) : str_eqb a b = true <-> a = b.
Proof.
  unfold str_eqb. destruct (list_eq_dec N.eq_dec a b); split; congruence.
Qed.

Lemma dict_get_set_same {V} (d : dict V) (k : str) (v : V) :
  dict_get (dict_set d k v) k = Some v.
Proof.
  induction d as [|[k' v'] d IH]; cbn.
  - now rewrite (proj2 (str_eqb_eq k k) eq_refl).
  - destruct (str_eqb k' k) eqn:E; cbn; rewrite E; [reflexivity|exact IH].
Qed.

Lemma dict_get_set_other {V} (d : dict V) (k k' : str) (v : V) :
  k <> k' -> dict_get (dict_set d k v) k' = dict_get d k'.
Proof.
  intros Hne. induction d as [|[k0 v0] d IH]; cbn.
  - destruct (str_eqb k k') eqn:E; [|reflexivity].
    apply str_eqb_eq in E. congruence.
  - destruct (str_eqb k0 k) eqn:E; cbn.
    + apply str_eqb_eq in E. subst k0.
      destruct (str_eqb k k') eqn:E'; [|reflexivity].
      apply str_eqb_eq in E'. congruence.
    + destruct (str_eqb k0 k'); [reflexivity|exact IH].
Qed.

(** ** [dns_ipv4.py]: every future leaves an entry *)

Lemma udp_collect_other (l : list (result Stats.t * str)) (d : dict Stats.t)
    (name : str) :
  ~ In name (map snd l) ->
  dict_get (fold_left DnsIpv4.collect l d) name = dict_get d name.
Proof.
  revert d. induction l as [|[f n] l IH]; intros d Hn; [reflexivity|].
  cbn [fold_left]. rewrite IH by (intros H; apply Hn; now right).
  assert (Hne : n <> name) by (intros ->; apply Hn; now left).
  unfold DnsIpv4.collect. cbn [fst snd].
  destruct f; now apply dict_get_set_other.
Qed.

Lemma udp_collect_entry (l : list (result Stats.t * str)) (d : dict Stats.t)
    (f : result Stats.t) (name : str) :
  NoDup (map snd l) -> In (f, name) l ->
  dict_get (fold_left DnsIpv4.collect l d) name = Some (or_sentinel f).
Proof.
  revert d. induction l as [|[f' n] l IH]; intros d Hnd Hin; [contradiction|].
  cbn [map snd] in Hnd. inversion Hnd as [|? ? Hn Hnd']; subst.
  cbn [fold_left]. destruct Hin as [E|Hin].
  - inversion E; subst. rewrite udp_collect_other by exact Hn.
    unfold DnsIpv4.collect. cbn [fst snd].
    destruct f; apply dict_get_set_same.
  - now apply IH.
Qed.

(** ** [doh_ipv4.py]: a future that raised leaves none *)

Lemma doh_collect_other (l : list (result Stats.t * str)) (d : dict Stats.t)
    (name : str) :
  ~ In name (map snd l) ->
  dict_get (fold_left DohIpv4.collect l d) name = dict_get d name.
Proof.
  revert d. induction l as [|[f n] l IH]; intros d Hn; [reflexivity|].
  cbn [fold_left]. rewrite IH by (intros H; apply Hn; now right).
  assert (Hne : n <> name) by (intros ->; apply Hn; now left).
  unfold DohIpv4.collect. cbn [fst snd].
  destruct f; [now apply dict_get_set_other|reflexivity].
Qed.

Lemma doh_collect_entry (l : list (result Stats.t * str)) (d : dict Stats.t)
    (f : result Stats.t) (name : str) :
  NoDup (map snd l) -> In (f, name) l ->
  dict_get (fold_left DohIpv4.collect l d) name
  = match f with
    | Ok stats => Some stats
    | Raise _ => dict_get d name
    end.
Proof.
  revert d. induction l as [|[f' n] l IH]; intros d Hnd Hin; [contradiction|].
  cbn [map snd] in Hnd. inversion Hnd as [|? ? Hn Hnd']; subst.
  cbn [fold_left]. destruct Hin as [E|Hin].
  - inversion E; subst. rewrite doh_collect_other by exact Hn.
    unfold DohIpv4.collect. cbn [fst snd].
    destruct f; [apply dict_get_set_same|reflexivity].
  - rewrite IH by assumption. destruct f; [reflexivity|].
    assert (Hne : n <> name).
    { intros ->. apply Hn. apply in_map_iff. now exists (Raise e, name). }
    unfold DohIpv4.collect. cbn [fst snd].
    destruct f'; [now apply dict_get_set_other|reflexivity].
Qed.

(** ** The two runs *)

Lemma futures_names {A} (task : str -> A -> result Stats.t)
    (servers : list (str * A)) :
  map snd (map (fun '(name, a) => (task name a, name)) servers)
  = map fst servers.
Proof.
  induction servers as [|[n a] l IH]; cbn; [reflexivity|]. now rewrite IH.
Qed.

(** In [dns_ipv4.py] every configured resolver has an entry in the result
    mapping, whatever the order of completion: the statistics of its task,
    or the sentinel when the task raised. *)
Lemma run_speed_test_entries (self : DnsIpv4.DNSSpeedTester)
    (num_queries max_workers : Z) (p : DnsIpv4.pool) (name ip : str) :
  (0 < max_workers)%Z ->
  NoDup (map fst (DnsIpv4.dns_servers self)) ->
  (forall l, Permutation (DnsIpv4.as_completed p l) l) ->
  In (name, ip) (items (DnsIpv4.dns_servers self)) ->
  exists results,
    DnsIpv4.run_speed_test self num_queries max_workers p = Ok results /\
    dict_get results name
    = Some (or_sentinel
              (fst (DnsIpv4.test_multiple_queries self name ip num_queries
                      (DnsIpv4.world_of p name)))).
Proof.
  intros Hw Hnd Hp Hin. unfold DnsIpv4.run_speed_test.
  replace (Z.leb max_workers 0) with false by (symmetry; apply Z.leb_gt; lia).
  eexists. split; [reflexivity|].
  set (task := fun name ip =>
                 fst (DnsIpv4.test_multiple_queries self name ip num_queries
                        (DnsIpv4.world_of p name))).
  set (futures := map _ (items (DnsIpv4.dns_servers self))).
  apply udp_collect_entry.
  - apply (Permutation_NoDup (l := map snd futures)).
    + apply Permutation_map, Permutation_sym, Hp.
    + unfold futures. now rewrite (futures_names task).
  - apply (Permutation_in _ (Permutation_sym (Hp futures))).
    unfold futures. apply in_map_iff. now exists (name, ip).
Qed.

(** In [doh_ipv4.py] a resolver whose task raised has no entry. *)
Lemma run_entries (make_query_to_wire : str -> result bytes)
    (self : DohIpv4.DoHSpeedTester) (domain_count max_workers : Z)
    (p : DohIpv4.pool) (name url : str) :
  (0 < max_workers)%Z ->
  NoDup (map fst (DohIpv4.doh_servers self)) ->
  (forall l, Permutation (DohIpv4.as_completed p l) l) ->
  In (name, url) (items (DohIpv4.doh_servers self)) ->
  exists results,
    DohIpv4.run make_query_to_wire self domain_count max_workers p = Ok results /\
    dict_get results name
    = match fst (DohIpv4.test_server_on_domains make_query_to_wire self name url
                   domain_count (DohIpv4.world_of p name)) with
      | Ok stats => Some stats
      | Raise _ => None
      end.
Proof.
  intros Hw Hnd Hp Hin. unfold DohIpv4.run.
  replace (Z.leb max_workers 0) with false by (symmetry; apply Z.leb_gt; lia).
  eexists. split; [reflexivity|].
  set (task := fun name url =>
                 fst (DohIpv4.test_server_on_domains make_query_to_wire self
                        name url domain_count (DohIpv4.world_of p name))).
  set (futures := map _ (items (DohIpv4.doh_servers self))).
  rewrite (@doh_collect_entry (DohIpv4.as_completed p futures) []
             (task name url) name).
  - unfold task. now destruct (fst _).
  - apply (Permutation_NoDup (l := map snd futures)).
    + apply Permutation_map, Permutation_sym, Hp.
    + unfold futures. now rewrite (futures_names task).
  - apply (Permutation_in _ (Permutation_sym (Hp futures))).
    unfold futures. apply in_map_iff. now exists (name, url).
Qed.

Lemma two_servers_NoDup : NoDup (map fst two_servers).
Proof.
  constructor; [|constructor; [intros []|constructor]].
  intros [H|[]]. vm_compute in H. discriminate H.
Qed.

Lemma rev_completes {A} (l : list A) : Permutation (rev l) l.
Proof. apply Permutation_sym, Permutation_rev. Qed.

Lemma run_speed_test_entries_witness :
  exists results,
    DnsIpv4.run_speed_test long_label_tester 2 20 (udp_pool (world0 clock))
    = Ok results /\
    dict_get results (str_of_string "Quad9") = Some Stats.sentinel.
Proof.
  assert (Hw : (0 < 20)%Z) by reflexivity.
  assert (Hin : In (str_of_string "Quad9", str_of_string "9.9.9.9")
                   (items (DnsIpv4.dns_servers long_label_tester)))
    by (right; left; reflexivity).
  destruct (@run_speed_test_entries long_label_tester 2 20
              (udp_pool (world0 clock)) _ _ Hw two_servers_NoDup
              (@rev_completes _) Hin) as (results & Er & Hg).
  exists results. split; [exact Er|]. rewrite Hg. reflexivity.
Defined.

Lemma doh_servers_NoDup : NoDup (map fst Tables.DOH_SERVERS).
Proof.
  repeat first
    [ apply NoDup_nil
    | apply NoDup_cons;
      [ cbn; intros H;
        repeat (destruct H as [H|H]; [vm_compute in H; discriminate H|]);
        exact H
      | ] ].
Qed.

Lemma run_entries_witness :
  exists results,
    DohIpv4.run strict_make_query empty_label_tester 2 10
      (doh_pool (world0 clock)) = Ok results /\
    dict_get results (str_of_string "Google DoH IPv4") = None.
Proof.
  assert (Hw : (0 < 10)%Z) by reflexivity.
  assert (Hin : In (str_of_string "Google DoH IPv4",
                    str_of_string "https://8.8.8.8/dns-query")
                   (items (DohIpv4.doh_servers empty_label_tester)))
    by (right; right; left; reflexivity).
  destruct (@run_entries strict_make_query empty_label_tester 2 10
              (doh_pool (world0 clock)) _ _ Hw doh_servers_NoDup
              (@rev_completes _) Hin) as (results & Er & Hg).
  exists results. split; [exact Er|]. rewrite Hg. reflexivity.
Defined.

(** Claim C7, at the input where [doh_ipv4.py] departs from it.  With a
    domain that dnspython refuses among those sampled, every task of the
    DoH run raises, and the run returns an empty mapping: no resolver is
    given the sentinel.  On the matching input (a label the encoder
    refuses) the UDP run gives every resolver the sentinel. *)
Theorem run_drops_faulted_resolvers :
  DohIpv4.run strict_make_query empty_label_tester 2 10 (doh_pool (world0 clock))
  = Ok [] /\
  fst (DohIpv4.test_server_on_domains strict_make_query empty_label_tester
         (str_of_string "Cloudflare IPv4")
         (str_of_string "https://1.1.1.1/dns-query") 2 (world0 clock))
  = Raise DNSException /\
  DnsIpv4.run_speed_test long_label_tester 2 20 (udp_pool (world0 clock))
  = Ok [(str_of_string "Quad9", Stats.sentinel);
        (str_of_string "Google DNS 1", Stats.sentinel)] /\
  fst (DnsIpv4.test_multiple_queries long_label_tester
         (str_of_string "Quad9") (str_of_string "9.9.9.9") 2 (world0 clock))
  = Raise StructError.
Proof. repeat split; vm_compute; reflexivity. Qed.

End FleetProofs.

(* ===================================================================== *)
(** * More on the query encoder                                           *)
(* ===================================================================== *)

Module WireProofs.
Import Py DnsCodec CodecSpec WireSpec CodecProofs.

Lemma encode_parts_layout (parts : list str) :
  forall (question r : bytes),
    encode_parts parts question = Ok r <->
    exists octets, encoded_as parts octets /\ r = question ++ records parts octets.
Proof.
  unfold encoded_as.
  induction parts as [|p rest IH]; intros question r; cbn [encode_parts].
  - split.
    + intros E. exists []. split; [constructor|].
      injection E as <-. unfold records. cbn. now rewrite app_nil_r.
    + intros (octets & Hf & ->). inversion Hf; subst.
      unfold records. cbn. now rewrite app_nil_r.
  - destruct (le_gt_dec (length p) 255) as [Hl|Hl].
    + rewrite (pack_B_len p Hl). cbn [rbind].
      destruct (encode p) as [o|e] eqn:Ep; cbn [rbind].
      * rewrite IH. split.
        -- intros (os & Hf & ->). exists (o :: os). split.
           ++ constructor; [now split|exact Hf].
           ++ unfold records, label_record. cbn. now rewrite <- !app_assoc.
        -- intros (octets & Hf & ->). inversion Hf as [|? o' ? os [_ Eo] Hf']; subst.
           assert (o' = o) by congruence. subst o'.
           exists os. split; [exact Hf'|].
           unfold records, label_record. cbn. now rewrite <- !app_assoc.
      * split; [discriminate|].
        intros (octets & Hf & _). inversion Hf as [|? o' ? os [_ Eo] Hf']; subst.
        congruence.
    + rewrite (pack_B_long p Hl). cbn [rbind]. split; [discriminate|].
      intros (octets & Hf & _). inversion Hf as [|? o' ? os [Hle _] Hf']; subst.
      lia.
Qed.

(** The message of every domain the encoder accepts, ASCII or not: the
    fixed header, then for each label of [domain.split('.')] the number
    of its characters and its UTF-8 octets, then the zero octet and the
    type and class.  The encoder returns exactly when each label has at
    most 255 characters and a UTF-8 text. *)
Theorem create_dns_query_layout (domain : str) (q : bytes) :
  create_dns_query domain = Ok q <->
  exists octets,
    encoded_as (split DOT domain) octets /\
    q = header_bytes ++ records (split DOT domain) octets ++ [x00]
        ++ type_class_bytes.
Proof.
  unfold create_dns_query.
  change (struct_pack [H; H; H; H; H; H]
            [0x1234%Z; 0x0100%Z; 1%Z; 0%Z; 0%Z; 0%Z]) with (Ok header_bytes).
  change (struct_pack [H; H] [1%Z; 1%Z]) with (Ok type_class_bytes).
  cbn [rbind].
  destruct (encode_parts (split DOT domain) []) as [r|e] eqn:E; cbn [rbind].
  - apply encode_parts_layout in E. destruct E as (os & Hf & ->).
    cbn [app]. split.
    + intros Eq. injection Eq as <-. exists os. split; [exact Hf|].
      now rewrite <- !app_assoc.
    + intros (os' & Hf' & ->). f_equal.
      assert (os' = os).
      { clear -Hf Hf'. unfold encoded_as in *.
        revert os' Hf'. induction Hf as [|p o ps os [_ Eo] _ IH]; intros os' Hf';
          inversion Hf' as [|? o' ? os1 [_ Eo'] Hf1]; subst; [reflexivity|].
        f_equal; [congruence|now apply IH]. }
      subst os'. now rewrite <- !app_assoc.
  - split; [discriminate|].
    intros (os & Hf & _).
    assert (Hr : encode_parts (split DOT domain) [] = Ok ([] ++ records (split DOT domain) os)).
    { apply encode_parts_layout. now exists os. }
    congruence.
Qed.

(** A label with a character outside ASCII: the length octet 6 stands
    before seven octets. *)
Lemma create_dns_query_layout_witness :
  create_dns_query (str_of_string "b" ++ [0xFC%N] ++ str_of_string "cher.de")
  = Ok (header_bytes ++ [x06; x62; xc3; xbc; x63; x68; x65; x72; x02; x64; x65]
        ++ [x00] ++ type_class_bytes).
Proof.
  apply (proj2 (create_dns_query_layout _ _)).
  exists [[x62; xc3; xbc; x63; x68; x65; x72]; [x64; x65]].
  split; [|reflexivity].
  repeat constructor.
Defined.

(** *** Distinct domains, distinct messages *)

Lemma app_same_length {A} (a b c d : list A) :
  length a = length c -> a ++ b = c ++ d -> a = c /\ b = d.
Proof.
  revert c. induction a as [|x a IH]; intros [|y c] Hl E; try discriminate.
  - now split.
  - cbn in *. injection E as -> E. injection Hl as Hl.
    destruct (IH c Hl E) as [-> ->]. now split.
Qed.

Lemma map_byte_of_ascii_inj (p1 p2 : str) :
  ascii_label p1 -> ascii_label p2 ->
  map byte_of p1 = map byte_of p2 -> p1 = p2.
Proof.
  intros H1 H2 E.
  rewrite <- (text_of_ascii H1), <- (text_of_ascii H2). now rewrite E.
Qed.

Lemma label_wire_inj (parts1 : list str) :
  forall parts2,
    Forall (fun part => ascii_label part /\ (length part <= 255)%nat) parts1 ->
    Forall (fun part => ascii_label part /\ (length part <= 255)%nat) parts2 ->
    flat_map label_wire parts1 = flat_map label_wire parts2 ->
    parts1 = parts2.
Proof.
  induction parts1 as [|p1 ps1 IH]; intros [|p2 ps2] H1 H2 E;
    cbn [flat_map label_wire app] in E; try discriminate; [reflexivity|].
  inversion H1 as [|? ? [Ha1 Hl1] H1']; subst.
  inversion H2 as [|? ? [Ha2 Hl2] H2']; subst.
  injection E as Eb E.
  assert (Hlen : length p1 = length p2).
  { apply (f_equal Byte.to_N) in Eb.
    rewrite !to_N_byte_of in Eb by lia. lia. }
  assert (Hm : length (map byte_of p1) = length (map byte_of p2))
    by (now rewrite !length_map).
  destruct (app_same_length _ _ _ _ Hm E) as [Ep Er].
  f_equal.
  - now apply map_byte_of_ascii_inj.
  - now apply IH.
Qed.

Lemma create_dns_query_plain_inj (domain1 domain2 : str) :
  plain domain1 -> plain domain2 ->
  create_dns_query domain1 = create_dns_query domain2 -> domain1 = domain2.
Proof.
  intros H1 H2 E. unfold plain in *.
  rewrite (create_dns_query_ascii _ H1), (create_dns_query_ascii _ H2) in E.
  injection E as E.
  apply app_inv_tail, app_inv_tail in E.
  apply (label_wire_inj H1 H2) in E.
  rewrite <- (join_split DOT domain1), <- (join_split DOT domain2).
  now rewrite E.
Qed.

(** Two domains whose labels are ASCII and have at most 255 characters
    are given the same message only if they are the same domain: the
    encoder writes the name as it is spelled, with no folding of case and
    no normalisation. *)
Theorem create_dns_query_injective (domain1 domain2 : str) :
  plain domain1 -> plain domain2 ->
  (create_dns_query domain1 = create_dns_query domain2 <-> domain1 = domain2).
Proof.
  intros H1 H2. split; [now apply create_dns_query_plain_inj|].
  now intros ->.
Qed.

Lemma create_dns_query_injective_witness :
  plain (str_of_string "QQ.com") /\ plain (str_of_string "qq.com") /\
  (create_dns_query (str_of_string "QQ.com")
   = create_dns_query (str_of_string "qq.com")
   <-> str_of_string "QQ.com" = str_of_string "qq.com").
Proof.
  assert (H1 : plain (str_of_string "QQ.com"))
    by (repeat constructor; cbn [length]; lia).
  assert (H2 : plain (str_of_string "qq.com"))
    by (repeat constructor; cbn [length]; lia).
  split; [exact H1|]. split; [exact H2|].
  exact (create_dns_query_injective H1 H2).
Defined.

(** *** A domain written with its final dot *)

Lemma split_snoc_sep (sep : N) (s : str) :
  split sep (s ++ [sep]) = split sep s ++ [[]].
Proof.
  induction s as [|c s IH]; cbn [split app].
  - now rewrite N.eqb_refl.
  - destruct (N.eqb c sep); [now rewrite IH|].
    rewrite IH. destruct (split sep s) as [|p ps] eqn:E; [|reflexivity].
    now apply split_not_nil in E.
Qed.

Lemma plain_snoc_dot (domain : str) : plain domain -> plain (domain ++ [DOT]).
Proof.
  unfold plain. intros H. rewrite split_snoc_sep.
  apply Forall_app. split; [exact H|].
  constructor; [|constructor]. split; [constructor|cbn; lia].
Qed.

(** A fully qualified name, written with its final dot, is encoded with
    an empty last label: the name section is the one of the domain
    without the dot, and one more zero octet follows it.  A receiver
    reads the name without the dot and then finds that zero octet where
    the type and class should start. *)
Theorem create_dns_query_trailing_dot (domain : str) :
  plain domain ->
  Forall (fun part => part <> []) (split DOT domain) ->
  exists name,
    create_dns_query domain = Ok (header_bytes ++ name ++ type_class_bytes) /\
    create_dns_query (domain ++ [DOT])
    = Ok (header_bytes ++ name ++ [x00] ++ type_class_bytes) /\
    parse_question (header_bytes ++ name ++ [x00] ++ type_class_bytes)
    = Some (domain, x00 :: type_class_bytes).
Proof.
  intros Hp Hne.
  exists (flat_map label_wire (split DOT domain) ++ [x00]).
  split; [apply (create_dns_query_ascii _ Hp)|]. split.
  - rewrite (create_dns_query_ascii _ (plain_snoc_dot Hp)).
    rewrite split_snoc_sep, flat_map_app. cbn [flat_map label_wire length map app].
    now rewrite <- !app_assoc.
  - unfold parse_question. cbn [header_bytes app skipn].
    rewrite <- app_assoc. cbn [app].
    rewrite (read_labels_wire (x00 :: type_class_bytes) Hp Hne).
    + rewrite map_map.
      rewrite (map_ext_in _ (fun p => p)), map_id, join_split; [reflexivity|].
      intros p Hin. apply text_of_ascii.
      apply (proj1 (Forall_forall _ _) Hp p Hin).
    + rewrite length_app, length_label_wire. cbn [length].
      clear. induction (split DOT domain) as [|p ps IH];
        unfold list_sum in *; cbn [map fold_right length] in *; lia.
Qed.

Lemma create_dns_query_trailing_dot_witness :
  plain (str_of_string "qq.com") /\
  Forall (fun part => part <> []) (split DOT (str_of_string "qq.com")) /\
  exists name,
    create_dns_query (str_of_string "qq.com")
    = Ok (header_bytes ++ name ++ type_class_bytes) /\
    create_dns_query (str_of_string "qq.com.")
    = Ok (header_bytes ++ name ++ [x00] ++ type_class_bytes) /\
    parse_question (header_bytes ++ name ++ [x00] ++ type_class_bytes)
    = Some (str_of_string "qq.com", x00 :: type_class_bytes).
Proof.
  assert (Hp : plain (str_of_string "qq.com"))
    by (repeat constructor; cbn [length]; lia).
  assert (Hne : Forall (fun part => part <> [])
                  (split DOT (str_of_string "qq.com")))
    by (repeat constructor; discriminate).
  split; [exact Hp|]. split; [exact Hne|].
  exact (create_dns_query_trailing_dot Hp Hne).
Defined.

End WireProofs.

(* ===================================================================== *)
(** * More on the probes and the samplers                                 *)
(* ===================================================================== *)

Module TraceProofs.
Import Py OS SamplerSpec RankSpec TraceSpec Examples ProbeProofs.

Lemma test_dns_server_result (server_name server_ip domain : str) (timeout : Q)
    (w : World) :
  fst (DnsIpv4.test_dns_server server_name server_ip domain timeout w)
  = if ans_ok (call w 0) then
      match check_timeout timeout with
      | Raise e => Raise e
      | Ok _ =>
          match DnsCodec.create_dns_query domain with
          | Raise e => Raise e
          | Ok _ =>
              if host_refused (idna w) server_ip then Raise TypeError
              else if ans_ok (call w 2) && ans_ok (call w 3)
              then Ok (server_name,
                       Fin ((ans_time (call w 4) - ans_time (call w 1)) * 1000))
              else Ok (server_name, Inf)
          end
      end
    else Ok (server_name, Inf).
Proof.
  unfold call. cbn [Nat.add].
  run_udp_probe w server_ip domain timeout; reflexivity.
Qed.

(** A timeout between 0 and 2 000 000 seconds is accepted. *)
Lemma check_timeout_accepts (timeout : Q) :
  (0 <= timeout)%Q -> (timeout <= 2000000)%Q -> check_timeout timeout = Ok tt.
Proof.
  intros H0 H9. unfold check_timeout.
  assert (Ha : (Qabs timeout == timeout)%Q) by (now apply Qabs_pos).
  replace (Qltb (inject_Z (2 ^ 63)) (Qabs timeout * inject_Z (10 ^ 9))) with false.
  - replace (Qltb timeout 0) with false; [reflexivity|].
    symmetry. unfold Qltb. apply negb_false_iff, Qle_bool_iff. exact H0.
  - symmetry. unfold Qltb. apply negb_false_iff, Qle_bool_iff.
    rewrite Ha.
    apply Qle_trans with (2000000 * inject_Z (10 ^ 9))%Q.
    + apply Qmult_le_compat_r; [exact H9|discriminate].
    + discriminate.
Qed.

(** What a UDP probe returns, for a timeout between 0 and 2 000 000
    seconds, a range in which [settimeout] accepts it on every platform.
    It raises exactly when its socket was created and either the encoder
    refuses the domain, with the exception of the encoder, or the query
    was built and the host of the resolver is refused, with a
    [TypeError]; a failure of the socket, of the send or of the receive
    never leaves it.  It names the resolver it was given.  It reports a finite time exactly when
    the socket was created, the query built, the host accepted, the
    datagram sent and an answer received: the time between the clock
    reading taken before the send and the one taken after the receive,
    in milliseconds. *)
Theorem test_dns_server_outcome (server_name server_ip domain : str)
    (timeout : Q) (w : World) :
  (0 <= timeout)%Q -> (timeout <= 2000000)%Q ->
  (forall e,
      fst (DnsIpv4.test_dns_server server_name server_ip domain timeout w)
      = Raise e
      <-> ans_ok (call w 0) = true /\
          (DnsCodec.create_dns_query domain = Raise e
           \/ (returns (DnsCodec.create_dns_query domain) /\
               host_refused (idna w) server_ip = true /\ e = TypeError))) /\
  (forall n x,
      fst (DnsIpv4.test_dns_server server_name server_ip domain timeout w)
      = Ok (n, x) -> n = server_name) /\
  (forall x,
      fst (DnsIpv4.test_dns_server server_name server_ip domain timeout w)
      = Ok (server_name, Fin x)
      <-> ans_ok (call w 0) = true /\
          returns (DnsCodec.create_dns_query domain) /\
          host_refused (idna w) server_ip = false /\
          ans_ok (call w 2) = true /\ ans_ok (call w 3) = true /\
          x = ((ans_time (call w 4) - ans_time (call w 1)) * 1000)%Q).
Proof.
  intros H0 H9.
  rewrite test_dns_server_result, (check_timeout_accepts H0 H9).
  split; [|split].
  - intros e. destruct (ans_ok (call w 0)).
    + destruct (DnsCodec.create_dns_query domain) as [q|e0].
      * destruct (host_refused (idna w) server_ip).
        -- split.
           ++ intros H. injection H as <-. split; [reflexivity|]. right.
              split; [now exists q|]. now split.
           ++ intros [_ [H|(_ & _ & ->)]]; [discriminate|reflexivity].
        -- destruct (ans_ok (call w 2) && ans_ok (call w 3)); split;
             try discriminate;
             intros [_ [H|(_ & H & _)]]; discriminate.
      * split.
        -- intros H. split; [reflexivity|]. left. congruence.
        -- intros [_ [H|([q Hq] & _)]]; [congruence|discriminate].
    + split; [discriminate|]. intros [H _]. discriminate.
  - intros n x.
    destruct (ans_ok (call w 0)); [|congruence].
    destruct (DnsCodec.create_dns_query domain); [|discriminate].
    destruct (host_refused (idna w) server_ip); [discriminate|].
    destruct (ans_ok (call w 2) && ans_ok (call w 3)); congruence.
  - intros x.
    destruct (ans_ok (call w 0));
      [|split; [discriminate|intros (H & _); discriminate]].
    destruct (DnsCodec.create_dns_query domain) as [q|e0];
      [|split; [discriminate|intros (_ & [q Hq] & _); discriminate]].
    destruct (host_refused (idna w) server_ip);
      [split; [discriminate|intros (_ & _ & H & _); discriminate]|].
    destruct (ans_ok (call w 2));
      [|split; [discriminate|intros (_ & _ & _ & H & _); discriminate]].
    destruct (ans_ok (call w 3));
      [|split; [discriminate|intros (_ & _ & _ & _ & H & _); discriminate]].
    cbn [andb]. split.
    + intros H. injection H as <-. repeat split. now exists q.
    + now intros (_ & _ & _ & _ & _ & ->).
Qed.

Lemma test_dns_server_outcome_witness :
  ((0 <= 2)%Q /\ (2 <= 2000000)%Q) /\
  fst (DnsIpv4.test_dns_server google google_ip (str_of_string "qq.com") 2
         (world0 clock))
  = Ok (google, Fin 15000).
Proof.
  assert (H0 : (0 <= 2)%Q) by discriminate.
  assert (H9 : (2 <= 2000000)%Q) by discriminate.
  split; [now split|].
  apply (proj2 (proj2 (@test_dns_server_outcome google google_ip
                         (str_of_string "qq.com") 2 (world0 clock) H0 H9))).
  repeat split. eexists. vm_compute. reflexivity.
Defined.

Lemma test_doh_server_result (mk : str -> result bytes)
    (server_name url domain : str) (timeout : Q) (w : World) :
  fst (DohIpv4.test_doh_server mk server_name url domain timeout w)
  = match mk domain with
    | Raise e => Raise e
    | Ok _ =>
        if ans_ok (call w 1) && is_success (ans_status (call w 1))
        then Ok (Fin ((ans_time (call w 2) - ans_time (call w 0)) * 1000))
        else Ok Inf
    end.
Proof.
  unfold call. cbn [Nat.add].
  run_doh_probe w mk domain; reflexivity.
Qed.

Lemma test_doh_server_world (mk : str -> result bytes)
    (server_name url domain : str) (timeout : Q) (w : World) :
  match mk domain with
  | Raise _ =>
      snd (DohIpv4.test_doh_server mk server_name url domain timeout w) = w
  | Ok q =>
      posted (snd (DohIpv4.test_doh_server mk server_name url domain timeout w))
      = posted w ++ [(url, q)]
  end.
Proof.
  run_doh_probe w mk domain; try reflexivity.
  all: destruct w; reflexivity.
Qed.

(** What a DoH probe returns.  It raises exactly when dnspython refuses
    the domain, with that exception, and then nothing has happened: no
    clock was read and no request posted.  Otherwise it hands one
    request to [httpx.post], the query for the domain, to the address of
    the resolver, and reports a finite time exactly when the request was
    answered with a status from 200 to 299: the time between the two
    clock readings around the request, in milliseconds. *)
Theorem test_doh_server_outcome (make_query_to_wire : str -> result bytes)
    (server_name url domain : str) (timeout : Q) (w : World) :
  (forall e,
      fst (DohIpv4.test_doh_server make_query_to_wire server_name url domain
             timeout w) = Raise e
      <-> make_query_to_wire domain = Raise e) /\
  (raises (make_query_to_wire domain) ->
   snd (DohIpv4.test_doh_server make_query_to_wire server_name url domain
          timeout w) = w) /\
  (forall q,
      make_query_to_wire domain = Ok q ->
      posted (snd (DohIpv4.test_doh_server make_query_to_wire server_name url
                     domain timeout w))
      = posted w ++ [(url, q)]) /\
  (forall x,
      fst (DohIpv4.test_doh_server make_query_to_wire server_name url domain
             timeout w) = Ok (Fin x)
      <-> returns (make_query_to_wire domain) /\
          ans_ok (call w 1) = true /\
          (200 <= ans_status (call w 1) <= 299)%Z /\
          x = ((ans_time (call w 2) - ans_time (call w 0)) * 1000)%Q).
Proof.
  pose proof (test_doh_server_world make_query_to_wire server_name url domain
                timeout w) as Hw.
  rewrite test_doh_server_result.
  destruct (make_query_to_wire domain) as [q|e0].
  - split; [|split; [|split]].
    + intros e. destruct (_ && _); split; discriminate.
    + intros [e He]. discriminate.
    + intros q' Hq. injection Hq as <-. exact Hw.
    + intros x. destruct (ans_ok (call w 1)); cbn [andb].
      * destruct (is_success (ans_status (call w 1))) eqn:Es;
          unfold is_success in Es.
        -- apply andb_true_iff in Es. destruct Es as [E2 E3].
           apply Z.leb_le in E2. apply Z.leb_le in E3. split.
           ++ intros H. injection H as <-.
              repeat split; [now exists q|exact E2|exact E3].
           ++ now intros (_ & _ & _ & ->).
        -- split; [discriminate|]. intros (_ & _ & [H2 H3] & _).
           apply andb_false_iff in Es.
           destruct Es as [Es|Es]; apply Z.leb_gt in Es; lia.
      * split; [discriminate|]. now intros (_ & H & _).
  - split; [|split; [|split]].
    + intros e. split; congruence.
    + intros _. exact Hw.
    + discriminate.
    + intros x. split; [discriminate|]. intros ([q Hq] & _). discriminate.
Qed.

(** ** Answers a probe takes from the outside world *)

Lemma test_dns_server_calls (server_name server_ip domain : str) (timeout : Q)
    (w : World) :
  oracle (snd (DnsIpv4.test_dns_server server_name server_ip domain timeout w))
  = oracle w /\
  (tick w <= tick (snd (DnsIpv4.test_dns_server server_name server_ip domain
                          timeout w)) <= tick w + 5)%nat.
Proof.
  run_udp_probe w server_ip domain timeout; split; try reflexivity; lia.
Qed.

Lemma test_doh_server_calls (mk : str -> result bytes)
    (server_name url domain : str) (timeout : Q) (w : World) :
  oracle (snd (DohIpv4.test_doh_server mk server_name url domain timeout w))
  = oracle w /\
  (tick w <= tick (snd (DohIpv4.test_doh_server mk server_name url domain
                          timeout w)) <= tick w + 3)%nat.
Proof.
  run_doh_probe w mk domain; split; try reflexivity; lia.
Qed.

Lemma udp_probe_world (server_name server_ip domain : str) (w : World) :
  snd (udp_probe server_name server_ip domain w)
  = snd (DnsIpv4.test_dns_server server_name server_ip domain 2 w).
Proof.
  unfold udp_probe, bind.
  destruct (DnsIpv4.test_dns_server server_name server_ip domain 2 w)
    as [[r|e] w']; reflexivity.
Qed.

Lemma sampler_world (probe : str -> io pyfloat) (domains : list str)
    (count : Z) (w : World) :
  snd (sampler probe domains count w)
  = snd (DnsIpv4.probe_each probe (slice_to domains count) [] w).
Proof.
  unfold sampler, bind, lift.
  destruct (DnsIpv4.probe_each probe (slice_to domains count) [] w)
    as [[r|e] w']; reflexivity.
Qed.

Lemma probe_each_calls (probe : str -> io pyfloat) (k : nat) :
  (forall d w, oracle (snd (probe d w)) = oracle w /\
               (tick w <= tick (snd (probe d w)) <= tick w + k)%nat) ->
  forall ds acc w,
    oracle (snd (DnsIpv4.probe_each probe ds acc w)) = oracle w /\
    (tick w <= tick (snd (DnsIpv4.probe_each probe ds acc w))
     <= tick w + k * length ds)%nat.
Proof.
  intros Hp. induction ds as [|d ds IH]; intros acc w.
  - cbn. split; [reflexivity|lia].
  - cbn [DnsIpv4.probe_each length]. rewrite !SamplerProofs.bind_run.
    destruct (Hp d w) as [Ho Ht].
    destruct (probe d w) as [[o|e] w1]; cbn [snd] in *.
    + destruct (IH (match o with Fin t => acc ++ [t] | Inf => acc end) w1)
        as [Ho' Ht'].
      split; [congruence|nia].
    + split; [exact Ho|nia].
Qed.

(** The answers a sampling run takes from the outside world.  The run
    reads one stream of answers, in order, and leaves the stream as it
    found it.  For each domain of the slice it takes at most five
    answers in the UDP program, those of [socket.socket], [time.time],
    [sendto], [recvfrom] and [time.time], and at most three in the DoH
    program, those of [time.time], [httpx.post] and [time.time]: the
    number of answers a run takes is at most linear in the length of the
    slice. *)
Theorem test_multiple_queries_calls :
  (forall self server_name server_ip num_queries w,
      oracle (snd (DnsIpv4.test_multiple_queries self server_name server_ip
                     num_queries w)) = oracle w /\
      (tick w
       <= tick (snd (DnsIpv4.test_multiple_queries self server_name server_ip
                       num_queries w))
       <= tick w + 5 * length (slice_to (DnsIpv4.test_domains self) num_queries))%nat) /\
  (forall make_query_to_wire self name url count w,
      oracle (snd (DohIpv4.test_server_on_domains make_query_to_wire self name
                     url count w)) = oracle w /\
      (tick w
       <= tick (snd (DohIpv4.test_server_on_domains make_query_to_wire self name
                       url count w))
       <= tick w + 3 * length (slice_to (DohIpv4.domains self) count))%nat).
Proof.
  split.
  - intros self server_name server_ip num_queries w.
    rewrite SamplerProofs.test_multiple_queries_sampler, sampler_world.
    apply probe_each_calls. intros d w0. rewrite udp_probe_world.
    apply test_dns_server_calls.
  - intros mk self name url count w.
    rewrite SamplerProofs.test_server_on_domains_sampler, sampler_world.
    apply probe_each_calls. intros d w0. apply test_doh_server_calls.
Qed.

(** ** The queries of a sampling run, in order *)

Lemma probe_each_sends_in_order (server_name server_ip : str) (ds : list str) :
  forall (acc : list Q) (w : World),
  exists ds' dgs,
    subseq ds' ds /\ Forall2 (carries server_ip) ds' dgs /\
    sent (snd (DnsIpv4.probe_each (udp_probe server_name server_ip) ds acc w))
    = sent w ++ dgs.
Proof.
  induction ds as [|d ds IH]; intros acc w.
  - exists [], []. cbn. repeat split; [constructor|constructor|].
    now rewrite app_nil_r.
  - cbn [DnsIpv4.probe_each]. rewrite !SamplerProofs.bind_run.
    pose proof (ProbeProofs.test_dns_server_sent server_name server_ip d 2 w)
      as Hs.
    rewrite <- udp_probe_world in Hs.
    destruct (udp_probe server_name server_ip d w) as [[o|e] w1];
      cbn [snd] in Hs.
    + destruct (IH (match o with Fin t => acc ++ [t] | Inf => acc end) w1)
        as (ds' & dgs & Hsub & Hc & Hd).
      destruct Hs as [Hs|(q & Eq & Hs)].
      * exists ds', dgs. rewrite Hd, Hs.
        repeat split; [now constructor|exact Hc].
      * exists (d :: ds'), ((q, server_ip, 53%Z) :: dgs).
        rewrite Hd, Hs, <- app_assoc.
        repeat split; [now constructor|].
        constructor; [|exact Hc]. now repeat split.
    + cbn [snd]. destruct Hs as [Hs|(q & Eq & Hs)].
      * exists [], []. rewrite Hs, app_nil_r.
        repeat split; constructor.
      * exists [d], [(q, server_ip, 53%Z)]. rewrite Hs.
        repeat split; [repeat constructor|].
        constructor; [|constructor]. now repeat split.
Qed.

(** The datagrams of a sampling run, whatever [num_queries] is and
    whether the run returns or raises: at most one for each sampled
    domain, each the query for its domain addressed to port 53 of the
    resolver, in the order of the domain list. *)
Theorem test_multiple_queries_sends_in_order (self : DnsIpv4.DNSSpeedTester)
    (server_name server_ip : str) (num_queries : Z) (w : World) :
  exists ds dgs,
    subseq ds (slice_to (DnsIpv4.test_domains self) num_queries) /\
    Forall2 (carries server_ip) ds dgs /\
    sent (snd (DnsIpv4.test_multiple_queries self server_name server_ip
                 num_queries w))
    = sent w ++ dgs.
Proof.
  rewrite SamplerProofs.test_multiple_queries_sampler, sampler_world.
  apply probe_each_sends_in_order.
Qed.

Lemma doh_probe_each_posts_in_order (mk : str -> result bytes) (name url : str)
    (ds : list str) :
  forall (acc : list Q) (w : World),
  exists k rqs,
    Forall2 (requests mk url) (firstn k ds) rqs /\
    posted (snd (DnsIpv4.probe_each (doh_probe mk name url) ds acc w))
    = posted w ++ rqs /\
    (returns (fst (DnsIpv4.probe_each (doh_probe mk name url) ds acc w)) ->
     k = length ds).
Proof.
  induction ds as [|d ds IH]; intros acc w.
  - exists 0%nat, []. cbn. repeat split; [constructor|].
    now rewrite app_nil_r.
  - cbn [DnsIpv4.probe_each]. rewrite !SamplerProofs.bind_run.
    change (doh_probe mk name url d w)
      with (DohIpv4.test_doh_server mk name url d 3 w).
    pose proof (test_doh_server_world mk name url d 3 w) as Hw.
    pose proof (test_doh_server_result mk name url d 3 w) as Hr.
    destruct (DohIpv4.test_doh_server mk name url d 3 w) as [[o|e] w1];
      cbn [fst snd] in *.
    + destruct (mk d) as [q|e] eqn:Eq; [|discriminate].
      destruct (IH (match o with Fin t => acc ++ [t] | Inf => acc end) w1)
        as (k & rqs & Hf & Hp & Hk).
      exists (S k), ((url, q) :: rqs). rewrite Hp, Hw, <- app_assoc.
      repeat split.
      * cbn [firstn]. constructor; [now split|exact Hf].
      * intros H. cbn [length]. f_equal. now apply Hk.
    + destruct (mk d) as [q|e'] eqn:Eq; [destruct (_ && _); discriminate|].
      exists 0%nat, []. rewrite Hw, app_nil_r.
      repeat split; [constructor|].
      intros [a Ha]. discriminate.
Qed.

(** The requests of a DoH sampling run: one for each sampled domain, in
    the order of the domain list, each the query for its domain posted to
    the address of the resolver, up to the first domain that dnspython
    refuses; a run that returns has posted one request for every sampled
    domain. *)
Theorem test_server_on_domains_posts_in_order
    (make_query_to_wire : str -> result bytes) (self : DohIpv4.DoHSpeedTester)
    (name url : str) (count : Z) (w : World) :
  exists k rqs,
    Forall2 (requests make_query_to_wire url)
            (firstn k (slice_to (DohIpv4.domains self) count)) rqs /\
    posted (snd (DohIpv4.test_server_on_domains make_query_to_wire self name url
                   count w))
    = posted w ++ rqs /\
    (returns (fst (DohIpv4.test_server_on_domains make_query_to_wire self name
                     url count w)) ->
     k = length (slice_to (DohIpv4.domains self) count)).
Proof.
  rewrite SamplerProofs.test_server_on_domains_sampler, sampler_world.
  destruct (doh_probe_each_posts_in_order make_query_to_wire name url
              (slice_to (DohIpv4.domains self) count) [] w)
    as (k & rqs & Hf & Hp & Hk).
  exists k, rqs. repeat split; [exact Hf|exact Hp|].
  intros [s Hs]. apply Hk.
  unfold sampler, bind in Hs.
  destruct (DnsIpv4.probe_each _ _ _ w) as [[r|e] w']; [now exists r|].
  discriminate.
Qed.

(** ** Sockets left open by a sampling run *)

Lemma test_dns_server_open (server_name server_ip domain : str) (timeout : Q)
    (w : World) :
  fds_below_next w ->
  exists leaked,
    open_socks (snd (DnsIpv4.test_dns_server server_name server_ip domain
                       timeout w))
    = leaked ++ open_socks w /\
    (length leaked <= 1)%nat /\
    (forall n x,
        fst (DnsIpv4.test_dns_server server_name server_ip domain timeout w)
        = Ok (n, Fin x) -> leaked = []).
Proof.
  intros Hw.
  assert (Hfresh : remove Nat.eq_dec (next_fd w) (open_socks w) = open_socks w).
  { apply notin_remove. intros Hin.
    pose proof (proj1 (Forall_forall _ _) Hw _ Hin) as Hlt.
    cbv beta in Hlt. lia. }
  run_udp_probe w server_ip domain timeout;
    try (destruct (Nat.eq_dec (next_fd w) (next_fd w)); [|congruence]);
    rewrite ?Hfresh;
    solve [ exists []; split; [reflexivity|split; [cbn; lia|reflexivity]]
          | exists [next_fd w];
            split; [reflexivity|split; [cbn; lia|discriminate]] ].
Qed.

Lemma failures_cons (o : pyfloat) (outs : list pyfloat) :
  failures (o :: outs)
  = (match o with Inf => 1 | Fin _ => 0 end + failures outs)%nat.
Proof.
  unfold failures. pose proof (SamplerProofs.length_successes outs).
  destruct o; cbn [successes length]; lia.
Qed.

Lemma outcomes_leaks (server_name server_ip : str) (ds : list str) :
  forall w outs w',
    fds_below_next w ->
    outcomes (udp_probe server_name server_ip) ds w = (Ok outs, w') ->
    exists leaked,
      open_socks w' = leaked ++ open_socks w /\
      (length leaked <= failures outs)%nat.
Proof.
  induction ds as [|d ds IH]; intros w outs w' Hw E.
  - cbn in E. injection E as <- <-. exists []. split; [reflexivity|cbn; lia].
  - cbn [outcomes] in E. rewrite SamplerProofs.bind_run in E.
    pose proof (test_dns_server_open server_name server_ip d 2 Hw)
      as (l1 & Ho & Hl & Hfin).
    pose proof (ProbeProofs.test_dns_server_fds server_name server_ip d 2 Hw)
      as Hw1.
    unfold udp_probe in E at 1. rewrite SamplerProofs.bind_run in E.
    destruct (DnsIpv4.test_dns_server server_name server_ip d 2 w)
      as [[[n o]|e] w1]; cbn [fst snd] in *; [|discriminate].
    unfold ret at 1 in E. cbn [snd] in E.
    rewrite SamplerProofs.bind_run in E.
    destruct (outcomes (udp_probe server_name server_ip) ds w1)
      as [[os|e] w2] eqn:Eos; [|discriminate].
    unfold ret in E. injection E as <- <-.
    destruct (IH w1 os w2 Hw1 Eos) as (l2 & Ho2 & Hl2).
    exists (l2 ++ l1). rewrite Ho2, Ho, app_assoc. split; [reflexivity|].
    rewrite failures_cons, length_app.
    destruct o as [x|]; [|lia].
    rewrite (Hfin n x eq_refl). cbn [length]. lia.
Qed.

(** A sampling run that starts with every open socket numbered below
    [next_fd] closes none of the sockets it finds open, and leaves open at
    most one socket of its own for each probe that failed: none when
    every probe succeeded. *)
Theorem test_multiple_queries_leaks (self : DnsIpv4.DNSSpeedTester)
    (server_name server_ip : str) (num_queries : Z) (w : World) (s : Stats.t)
    (w' : World) :
  fds_below_next w ->
  DnsIpv4.test_multiple_queries self server_name server_ip num_queries w
  = (Ok s, w') ->
  exists outs leaked,
    outcomes (udp_probe server_name server_ip)
      (slice_to (DnsIpv4.test_domains self) num_queries) w = (Ok outs, w') /\
    open_socks w' = leaked ++ open_socks w /\
    (length leaked <= failures outs)%nat.
Proof.
  intros Hw E. rewrite SamplerProofs.test_multiple_queries_sampler in E.
  destruct (SamplerProofs.sampler_inv _ _ _ _ E) as [outs Ho].
  destruct (outcomes_leaks _ _ _ Hw Ho) as (leaked & Hl).
  now exists outs, leaked.
Qed.

Lemma test_multiple_queries_leaks_witness :
  fds_below_next (world0 (timeout_at 8)) /\
  exists outs leaked,
    fst (outcomes (udp_probe google google_ip)
           (slice_to (DnsIpv4.test_domains
                        (tester ["a.b"; "c.d"; "e.f"; "g.h"]%string)) 3)
           (world0 (timeout_at 8))) = Ok outs /\
    open_socks (snd (DnsIpv4.test_multiple_queries
                       (tester ["a.b"; "c.d"; "e.f"; "g.h"]%string)
                       google google_ip 3 (world0 (timeout_at 8))))
    = leaked ++ [] /\
    (length leaked <= failures outs)%nat.
Proof.
  assert (Hw : fds_below_next (world0 (timeout_at 8))) by constructor.
  split; [exact Hw|].
  destruct (DnsIpv4.test_multiple_queries
              (tester ["a.b"; "c.d"; "e.f"; "g.h"]%string)
              google google_ip 3 (world0 (timeout_at 8))) as [[s|e] w'] eqn:E.
  - destruct (@test_multiple_queries_leaks _ _ _ _ _ _ _ Hw E)
      as (outs & leaked & Ho & Hl & Hf).
    exists outs, leaked. rewrite Ho. now repeat split.
  - exfalso.
    assert (Hr : fst (DnsIpv4.test_multiple_queries
                        (tester ["a.b"; "c.d"; "e.f"; "g.h"]%string)
                        google google_ip 3 (world0 (timeout_at 8)))
                 = Raise e) by (now rewrite E).
    vm_compute in Hr. discriminate.
Defined.

(** ** The built-in domain list *)

Lemma Forall_slice_to {A} (P : A -> Prop) (l : list A) (n : Z) :
  Forall P l -> Forall P (slice_to l n).
Proof.
  intros H. apply Forall_forall. intros x Hx.
  apply (proj1 (Forall_forall _ _) H).
  unfold slice_to in Hx.
  destruct (Z.ltb n 0); eapply RankProofs.In_firstn; exact Hx.
Qed.

Lemma udp_outcomes_return (server_name server_ip : str) (ds : list str) :
  forall w,
    Forall (fun d => returns (DnsCodec.create_dns_query d)) ds ->
    host_refused (idna w) server_ip = false ->
    exists outs w',
      outcomes (udp_probe server_name server_ip) ds w = (Ok outs, w').
Proof.
  induction ds as [|d ds IH]; intros w Hds Hh.
  - exists [], w. reflexivity.
  - inversion Hds as [|? ? Hd Hds']; subst.
    destruct (@ProbeProofs.udp_probe_returns server_name server_ip d w Hd Hh)
      as (o & w1 & E1 & Hi).
    rewrite <- Hi in Hh.
    destruct (IH w1 Hds' Hh) as (os & w2 & E2).
    exists (o :: os), w2. cbn [outcomes].
    rewrite SamplerProofs.bind_run, E1, SamplerProofs.bind_run, E2.
    reflexivity.
Qed.

Lemma encodable_sampler_returns (self : DnsIpv4.DNSSpeedTester)
    (server_name server_ip : str) (num_queries : Z) (w : World) :
  Forall (fun d => returns (DnsCodec.create_dns_query d))
         (DnsIpv4.test_domains self) ->
  host_refused (idna w) server_ip = false ->
  exists s w',
    DnsIpv4.test_multiple_queries self server_name server_ip num_queries w
    = (Ok s, w').
Proof.
  intros Hd Hh. rewrite SamplerProofs.test_multiple_queries_sampler.
  destruct (@udp_outcomes_return server_name server_ip
              (slice_to (DnsIpv4.test_domains self) num_queries) w
              (Forall_slice_to num_queries Hd) Hh)
    as (outs & w' & Ho).
  destruct (SamplerProofs.sampler_returns _ _ _ _ Ho) as (s & Hs & _).
  now exists s, w'.
Qed.

Lemma udp_outcomes_raise (server_name server_ip : str) (ds : list str) :
  forall w e w',
    Forall (fun d => returns (DnsCodec.create_dns_query d)) ds ->
    outcomes (udp_probe server_name server_ip) ds w = (Raise e, w') ->
    e = TypeError /\ host_refused (idna w) server_ip = true.
Proof.
  induction ds as [|d ds IH]; intros w e w' Hds E; [discriminate|].
  inversion Hds as [|? ? Hd Hds']; subst.
  cbn [outcomes] in E. rewrite SamplerProofs.bind_run in E.
  pose proof (ProbeProofs.udp_probe_idna server_name server_ip d w) as Hi.
  destruct (udp_probe server_name server_ip d w) as [[o|e0] w1] eqn:E1.
  - cbn [snd] in Hi. rewrite SamplerProofs.bind_run in E.
    destruct (outcomes (udp_probe server_name server_ip) ds w1)
      as [[os|e1] w2] eqn:E2; [discriminate|].
    injection E as <- _. rewrite <- Hi. exact (IH _ _ _ Hds' E2).
  - injection E as <- _.
    exact (@ProbeProofs.udp_probe_raises server_name server_ip d w e0 w1 Hd E1).
Qed.

(** With domains that can all be encoded, a sampling run raises only the
    [TypeError] of a refused host. *)
Lemma encodable_sampler_raises (self : DnsIpv4.DNSSpeedTester)
    (server_name server_ip : str) (num_queries : Z) (w : World) (e : exn) :
  Forall (fun d => returns (DnsCodec.create_dns_query d))
         (DnsIpv4.test_domains self) ->
  fst (DnsIpv4.test_multiple_queries self server_name server_ip num_queries w)
  = Raise e ->
  e = TypeError /\ host_refused (idna w) server_ip = true.
Proof.
  intros Hd. rewrite SamplerProofs.test_multiple_queries_sampler.
  destruct (outcomes (udp_probe server_name server_ip)
              (slice_to (DnsIpv4.test_domains self) num_queries) w)
    as [[outs|e0] w'] eqn:Eo.
  - destruct (SamplerProofs.sampler_returns _ _ _ _ Eo) as (s & Es & _).
    rewrite Es. discriminate.
  - rewrite SamplerProofs.sampler_outcomes, Eo. cbn [fst].
    intros E. injection E as <-.
    exact (@udp_outcomes_raise server_name server_ip _ w e0 w'
             (Forall_slice_to num_queries Hd) Eo).
Qed.

(** With the domain list the program is built with, a sampling run
    returns statistics for every resolver whose address the socket takes
    as a host name (an address without a NUL character that is ASCII or
    that the idna codec encodes), for every requested number (zero and
    negative numbers too) and every behaviour of the network: it does
    not raise. *)
Theorem test_multiple_queries_builtin_domains (self : DnsIpv4.DNSSpeedTester)
    (server_name server_ip : str) (num_queries : Z) (w : World) :
  DnsIpv4.test_domains self = Tables.test_domains ->
  host_refused (idna w) server_ip = false ->
  exists s w',
    DnsIpv4.test_multiple_queries self server_name server_ip num_queries w
    = (Ok s, w').
Proof.
  intros Hd Hh. apply encodable_sampler_returns; [|exact Hh]. rewrite Hd.
  exact CodecProofs.test_domains_encodable.
Qed.

Lemma test_multiple_queries_builtin_domains_witness :
  DnsIpv4.test_domains
    (DnsIpv4.add_custom_dns Tables.DNSSpeedTester_init
       (str_of_string "Local") (str_of_string "192.168.1.1"))
  = Tables.test_domains /\
  host_refused (idna (world0 (timeout_at 3))) (str_of_string "192.168.1.1")
  = false /\
  exists s w',
    DnsIpv4.test_multiple_queries
      (DnsIpv4.add_custom_dns Tables.DNSSpeedTester_init
         (str_of_string "Local") (str_of_string "192.168.1.1"))
      (str_of_string "Local") (str_of_string "192.168.1.1") (-100)
      (world0 (timeout_at 3))
    = (Ok s, w').
Proof.
  split; [reflexivity|]. split; [reflexivity|].
  apply test_multiple_queries_builtin_domains; reflexivity.
Defined.

(** ** A negative number of queries *)

Lemma negative_percentage (a c : Z) :
  (0 <= a)%Z -> (c < 0)%Z -> (inject_Z a / inject_Z c * 100 <= 0)%Q.
Proof.
  intros Ha Hc. destruct c as [|c|c]; try lia.
  unfold Qle, Qdiv, Qmult, Qinv, inject_Z. cbn. lia.
Qed.

Lemma sampler_negative_rate (probe : str -> io pyfloat) (domains : list str)
    (count : Z) (w : World) (s : Stats.t) (w' : World) :
  (count < 0)%Z ->
  sampler probe domains count w = (Ok s, w') ->
  (Stats.success_rate s <= 0)%Q.
Proof.
  intros Hc E.
  destruct (SamplerProofs.sampler_inv _ _ _ _ E) as [outs Ho].
  destruct (SamplerProofs.sampler_returns _ _ _ _ Ho) as (s' & Es & Hnil & Hcons).
  assert (s' = s) by congruence. subst s'.
  destruct (successes outs) as [|x xs] eqn:Exs.
  - rewrite (Hnil eq_refl). cbn. apply Qle_refl.
  - destruct Hcons as (_ & _ & ->); [discriminate|].
    apply negative_percentage; [unfold len; lia|exact Hc].
Qed.

(** ** More queries than domains *)

Lemma length_slice_to {A} (l : list A) (n : Z) :
  (0 <= n)%Z -> len (slice_to l n) = Z.min n (len l).
Proof.
  intros Hn. rewrite SamplerProofs.slice_to_nonneg by exact Hn.
  unfold len. rewrite length_firstn. lia.
Qed.

Lemma percentage_mono (a b c : Z) :
  (a <= b)%Z -> (0 < c)%Z ->
  (inject_Z a / inject_Z c * 100 <= inject_Z b / inject_Z c * 100)%Q.
Proof.
  intros Hab Hc. unfold Qdiv.
  apply Qmult_le_compat_r; [|discriminate].
  apply Qmult_le_compat_r; [now rewrite <- Zle_Qle|].
  apply Qinv_le_0_compat. change 0%Q with (inject_Z 0).
  rewrite <- Zle_Qle. lia.
Qed.

Lemma sampler_rate_capped (probe : str -> io pyfloat) (domains : list str)
    (count : Z) (w : World) (s : Stats.t) (w' : World) :
  (0 < count)%Z ->
  sampler probe domains count w = (Ok s, w') ->
  (Stats.success_rate s
   <= inject_Z (Z.min count (len domains)) / inject_Z count * 100)%Q.
Proof.
  intros Hc E.
  destruct (SamplerProofs.sampler_inv _ _ _ _ E) as [outs Ho].
  destruct (SamplerProofs.sampler_returns _ _ _ _ Ho) as (s' & Es & Hnil & Hcons).
  assert (s' = s) by congruence. subst s'.
  assert (Hlen : (len (successes outs) <= Z.min count (len domains))%Z).
  { rewrite <- length_slice_to by lia. unfold len.
    rewrite <- (SamplerProofs.length_outcomes _ _ _ Ho).
    pose proof (SamplerProofs.length_successes outs). lia. }
  destruct (successes outs) as [|x xs] eqn:Exs.
  - rewrite (Hnil eq_refl). cbn [Stats.success_rate Stats.sentinel].
    apply Qle_trans with (inject_Z 0 / inject_Z count * 100)%Q.
    + unfold Qdiv. rewrite !Qmult_0_l. apply Qle_refl.
    + apply percentage_mono; [|exact Hc]. unfold len in *. lia.
  - destruct Hcons as (_ & _ & ->); [discriminate|].
    now apply percentage_mono.
Qed.

(** Asking for more queries than the list has domains caps the success
    rate: a run over [count] requested queries reports at most the
    percentage that the domains actually probed, [min(count,
    len(domains))], make of [count].  Both programs. *)
Theorem success_rate_capped :
  (forall self server_name server_ip num_queries w s w',
      (0 < num_queries)%Z ->
      DnsIpv4.test_multiple_queries self server_name server_ip num_queries w
      = (Ok s, w') ->
      (Stats.success_rate s
       <= inject_Z (Z.min num_queries (len (DnsIpv4.test_domains self)))
          / inject_Z num_queries * 100)%Q) /\
  (forall make_query_to_wire self name url count w s w',
      (0 < count)%Z ->
      DohIpv4.test_server_on_domains make_query_to_wire self name url count w
      = (Ok s, w') ->
      (Stats.success_rate s
       <= inject_Z (Z.min count (len (DohIpv4.domains self)))
          / inject_Z count * 100)%Q).
Proof.
  split.
  - intros self server_name server_ip num_queries w s w' Hn E.
    rewrite SamplerProofs.test_multiple_queries_sampler in E.
    now apply (sampler_rate_capped _ _ _ Hn E).
  - intros mk self name url count w s w' Hn E.
    rewrite SamplerProofs.test_server_on_domains_sampler in E.
    now apply (sampler_rate_capped _ _ _ Hn E).
Qed.

(** Two domains, five queries requested, every probe answered: 40 %. *)
Lemma success_rate_capped_witness :
  (0 < 5)%Z /\
  exists s,
    fst (DnsIpv4.test_multiple_queries (tester ["a.b"; "c.d"]%string)
           google google_ip 5 (world0 clock)) = Ok s /\
    (Stats.success_rate s == 40)%Q /\
    (Stats.success_rate s
     <= inject_Z (Z.min 5 (len (DnsIpv4.test_domains
                                  (tester ["a.b"; "c.d"]%string))))
        / inject_Z 5 * 100)%Q.
Proof.
  split; [reflexivity|].
  destruct (DnsIpv4.test_multiple_queries (tester ["a.b"; "c.d"]%string)
              google google_ip 5 (world0 clock)) as [[s|e] w'] eqn:E.
  - exists s. split; [reflexivity|].
    assert (Hn : (0 < 5)%Z) by reflexivity.
    split; [|exact (proj1 success_rate_capped _ _ _ _ _ _ _ Hn E)].
    assert (Er : Ok s = fst (DnsIpv4.test_multiple_queries
                               (tester ["a.b"; "c.d"]%string)
                               google google_ip 5 (world0 clock)))
      by (now rewrite E).
    vm_compute in Er. injection Er as ->. reflexivity.
  - exfalso.
    assert (Er : Raise e = fst (DnsIpv4.test_multiple_queries
                                  (tester ["a.b"; "c.d"]%string)
                                  google google_ip 5 (world0 clock)))
      by (now rewrite E).
    vm_compute in Er. discriminate.
Defined.

End TraceProofs.

(* ===================================================================== *)
(** * More on the result mappings                                         *)
(* ===================================================================== *)

Module MappingProofs.
Import Py OS SamplerSpec FleetSpec Examples.

Lemma dict_get_app {V} (d1 d2 : dict V) (k : str) :
  dict_get (d1 ++ d2) k
  = match dict_get d1 k with
    | Some v => Some v
    | None => dict_get d2 k
    end.
Proof.
  induction d1 as [|[k' v'] d1 IH]; cbn [app dict_get]; [reflexivity|].
  destruct (str_eqb k' k); [reflexivity|exact IH].
Qed.

Lemma dict_set_fresh {V} (d : dict V) (k : str) (v : V) :
  dict_get d k = None -> dict_set d k v = d ++ [(k, v)].
Proof.
  induction d as [|[k' v'] d IH]; cbn [dict_get dict_set app]; [reflexivity|].
  destruct (str_eqb k' k); [discriminate|].
  intros H. now rewrite IH.
Qed.

Lemma dict_get_In {V} (d : dict V) (k : str) (v : V) :
  NoDup (map fst d) -> (dict_get d k = Some v <-> In (k, v) d).
Proof.
  induction d as [|[k' v'] d IH]; cbn [map fst dict_get In]; intros Hnd.
  - split; [discriminate|contradiction].
  - inversion Hnd as [|? ? Hnotin Hnd']; subst.
    destruct (str_eqb k' k) eqn:E.
    + apply FleetProofs.str_eqb_eq in E. subst k'. split.
      * intros H. injection H as ->. now left.
      * intros [H|H]; [congruence|].
        exfalso. apply Hnotin. now apply (in_map fst) in H.
    + rewrite (IH Hnd'). split; [now right|].
      intros [H|H]; [|exact H].
      injection H as -> _.
      assert (str_eqb k k = true) by (now apply FleetProofs.str_eqb_eq).
      congruence.
Qed.

Lemma dict_get_None {V} (d : dict V) (k : str) :
  dict_get d k = None <-> ~ In k (map fst d).
Proof.
  induction d as [|[k' v'] d IH]; cbn [map fst dict_get In].
  - tauto.
  - destruct (str_eqb k' k) eqn:E.
    + apply FleetProofs.str_eqb_eq in E. split; [discriminate|tauto].
    + rewrite IH. split; [|tauto].
      intros H [H'|H']; [|tauto].
      subst k'.
      assert (str_eqb k k = true) by (now apply FleetProofs.str_eqb_eq).
      congruence.
Qed.

Lemma udp_collect_fresh (l : list (result Stats.t * str)) :
  forall d,
    NoDup (map snd l) ->
    (forall f, In f l -> dict_get d (snd f) = None) ->
    fold_left DnsIpv4.collect l d = d ++ map entry l.
Proof.
  induction l as [|f l IH]; intros d Hnd Hfresh; cbn [fold_left map].
  - now rewrite app_nil_r.
  - inversion Hnd as [|? ? Hnotin Hnd']; subst.
    assert (Ec : DnsIpv4.collect d f = d ++ [entry f]).
    { unfold DnsIpv4.collect, entry, or_sentinel.
      destruct (fst f); apply dict_set_fresh, Hfresh; now left. }
    rewrite Ec, IH; [now rewrite <- app_assoc|exact Hnd'|].
    intros g Hg. rewrite dict_get_app, (Hfresh g) by (now right).
    cbn [entry dict_get fst snd].
    destruct (str_eqb (snd f) (snd g)) eqn:E; [|reflexivity].
    apply FleetProofs.str_eqb_eq in E. exfalso. apply Hnotin.
    rewrite E. now apply in_map.
Qed.

Lemma doh_collect_fresh (l : list (result Stats.t * str)) :
  forall d,
    NoDup (map snd l) ->
    (forall f, In f l -> dict_get d (snd f) = None) ->
    fold_left DohIpv4.collect l d = d ++ map entry (filter returned l).
Proof.
  induction l as [|f l IH]; intros d Hnd Hfresh; cbn [fold_left map filter].
  - now rewrite app_nil_r.
  - inversion Hnd as [|? ? Hnotin Hnd']; subst.
    unfold DohIpv4.collect at 2, returned at 1.
    destruct (fst f) as [s|e] eqn:Ef.
    + rewrite dict_set_fresh by (apply Hfresh; now left).
      rewrite IH; [|exact Hnd'|].
      * cbn [map]. unfold entry at 2. rewrite Ef. cbn [or_sentinel].
        now rewrite <- app_assoc.
      * intros g Hg. rewrite dict_get_app, (Hfresh g) by (now right).
        cbn [dict_get].
        destruct (str_eqb (snd f) (snd g)) eqn:E; [|reflexivity].
        apply FleetProofs.str_eqb_eq in E. exfalso. apply Hnotin.
        rewrite E. now apply in_map.
    + apply IH; [exact Hnd'|]. intros g Hg. apply Hfresh. now right.
Qed.

Lemma completed_names (as_completed : list (result Stats.t * str)
                                       -> list (result Stats.t * str))
    (l : list (result Stats.t * str)) :
  yields_each_once as_completed ->
  NoDup (map snd l) -> NoDup (map snd (as_completed l)).
Proof.
  intros Hp Hnd.
  eapply Permutation_NoDup; [|exact Hnd].
  apply Permutation_map, Permutation_sym, Hp.
Qed.

Lemma future_to_server_names (self : DnsIpv4.DNSSpeedTester) (num_queries : Z)
    (p : DnsIpv4.pool) :
  map snd (future_to_server self num_queries p)
  = map fst (DnsIpv4.dns_servers self).
Proof.
  unfold future_to_server, items. rewrite map_map. apply map_ext.
  now intros [name ip].
Qed.

Lemma futures_doh_names (mk : str -> result bytes)
    (self : DohIpv4.DoHSpeedTester) (domain_count : Z) (p : DohIpv4.pool) :
  map snd (futures mk self domain_count p) = map fst (DohIpv4.doh_servers self).
Proof.
  unfold futures, items. rewrite map_map. apply map_ext.
  now intros [name url].
Qed.

Lemma run_speed_test_closed (self : DnsIpv4.DNSSpeedTester)
    (num_queries max_workers : Z) (p : DnsIpv4.pool) :
  (0 < max_workers)%Z ->
  NoDup (map fst (DnsIpv4.dns_servers self)) ->
  yields_each_once (DnsIpv4.as_completed p) ->
  DnsIpv4.run_speed_test self num_queries max_workers p
  = Ok (map entry
          (DnsIpv4.as_completed p (future_to_server self num_queries p))).
Proof.
  intros Hw Hnd Hp. unfold DnsIpv4.run_speed_test.
  replace (Z.leb max_workers 0) with false by (symmetry; apply Z.leb_gt; lia).
  fold (future_to_server self num_queries p). f_equal.
  rewrite udp_collect_fresh; [reflexivity| |reflexivity].
  apply completed_names; [exact Hp|].
  now rewrite future_to_server_names.
Qed.

Lemma run_closed (mk : str -> result bytes) (self : DohIpv4.DoHSpeedTester)
    (domain_count max_workers : Z) (p : DohIpv4.pool) :
  (0 < max_workers)%Z ->
  NoDup (map fst (DohIpv4.doh_servers self)) ->
  yields_each_once (DohIpv4.as_completed p) ->
  DohIpv4.run mk self domain_count max_workers p
  = Ok (map entry
          (filter returned
             (DohIpv4.as_completed p (futures mk self domain_count p)))).
Proof.
  intros Hw Hnd Hp. unfold DohIpv4.run.
  replace (Z.leb max_workers 0) with false by (symmetry; apply Z.leb_gt; lia).
  fold (futures mk self domain_count p). f_equal.
  rewrite doh_collect_fresh; [reflexivity| |reflexivity].
  apply completed_names; [exact Hp|].
  now rewrite futures_doh_names.
Qed.

Lemma filter_names_NoDup (f : result Stats.t * str -> bool)
    (l : list (result Stats.t * str)) :
  NoDup (map snd l) -> NoDup (map snd (filter f l)).
Proof.
  induction l as [|x l IH]; cbn [map filter]; intros Hnd; [constructor|].
  inversion Hnd as [|? ? Hnotin Hnd']; subst.
  destruct (f x); [|now apply IH].
  cbn [map]. constructor; [|now apply IH].
  intros Hin. apply Hnotin.
  apply in_map_iff in Hin. destruct Hin as (y & Ey & Hy).
  apply filter_In in Hy. rewrite <- Ey. now apply in_map.
Qed.

Lemma entry_names (l : list (result Stats.t * str)) :
  map fst (map entry l) = map snd l.
Proof. rewrite map_map. reflexivity. Qed.

(** The mapping [run_speed_test] returns, in full: one entry for each
    resolver, in the order in which the tasks completed, holding the
    statistics of the task or, for a task that raised, the sentinel. *)
Theorem run_speed_test_mapping (self : DnsIpv4.DNSSpeedTester)
    (num_queries max_workers : Z) (p : DnsIpv4.pool) :
  (0 < max_workers)%Z ->
  NoDup (map fst (DnsIpv4.dns_servers self)) ->
  yields_each_once (DnsIpv4.as_completed p) ->
  DnsIpv4.run_speed_test self num_queries max_workers p
  = Ok (map entry
          (DnsIpv4.as_completed p (future_to_server self num_queries p))) /\
  Permutation
    (map fst (map entry
                (DnsIpv4.as_completed p (future_to_server self num_queries p))))
    (map fst (DnsIpv4.dns_servers self)).
Proof.
  intros Hw Hnd Hp. split; [now apply run_speed_test_closed|].
  rewrite map_map. cbn [entry fst].
  rewrite <- future_to_server_names with (num_queries := num_queries) (p := p).
  apply Permutation_map, Hp.
Qed.

(** The mapping [run] of the DoH program returns, in full: one entry for
    each resolver whose task returned, in the order in which the tasks
    completed, holding the statistics of the task; nothing for a task
    that raised. *)
Theorem run_mapping (make_query_to_wire : str -> result bytes)
    (self : DohIpv4.DoHSpeedTester) (domain_count max_workers : Z)
    (p : DohIpv4.pool) :
  (0 < max_workers)%Z ->
  NoDup (map fst (DohIpv4.doh_servers self)) ->
  yields_each_once (DohIpv4.as_completed p) ->
  DohIpv4.run make_query_to_wire self domain_count max_workers p
  = Ok (map entry
          (filter returned
             (DohIpv4.as_completed p
                (futures make_query_to_wire self domain_count p)))) /\
  NoDup (map fst (map entry
                    (filter returned
                       (DohIpv4.as_completed p
                          (futures make_query_to_wire self domain_count p))))) /\
  incl (map fst (map entry
                   (filter returned
                      (DohIpv4.as_completed p
                         (futures make_query_to_wire self domain_count p)))))
       (map fst (DohIpv4.doh_servers self)).
Proof.
  intros Hw Hnd Hp. split; [now apply run_closed|].
  rewrite entry_names.
  assert (Hdone : NoDup (map snd (DohIpv4.as_completed p
                                    (futures make_query_to_wire self
                                       domain_count p)))).
  { apply completed_names; [exact Hp|]. now rewrite futures_doh_names. }
  split; [now apply filter_names_NoDup|].
  intros name Hin. apply in_map_iff in Hin. destruct Hin as (f & <- & Hf).
  apply filter_In in Hf. destruct Hf as [Hf _].
  apply (Permutation_in _ (Hp _)) in Hf.
  rewrite <- futures_doh_names
    with (mk := make_query_to_wire) (domain_count := domain_count) (p := p).
  now apply in_map.
Qed.

Lemma run_speed_test_mapping_witness :
  ((0 < 20)%Z /\ NoDup (map fst (DnsIpv4.dns_servers long_label_tester)) /\
   yields_each_once (DnsIpv4.as_completed (udp_pool (world0 clock)))) /\
  DnsIpv4.run_speed_test long_label_tester 2 20 (udp_pool (world0 clock))
  = Ok (map entry
          (DnsIpv4.as_completed (udp_pool (world0 clock))
             (future_to_server long_label_tester 2 (udp_pool (world0 clock))))).
Proof.
  assert (Hp : yields_each_once (DnsIpv4.as_completed (udp_pool (world0 clock))))
    by (intros l; apply FleetProofs.rev_completes).
  split; [repeat split; [exact FleetProofs.two_servers_NoDup|exact Hp]|].
  apply (@run_speed_test_mapping long_label_tester 2 20 (udp_pool (world0 clock))
           eq_refl FleetProofs.two_servers_NoDup Hp).
Defined.

Lemma run_mapping_witness :
  ((0 < 10)%Z /\ NoDup (map fst (DohIpv4.doh_servers empty_label_tester)) /\
   yields_each_once (DohIpv4.as_completed (doh_pool (world0 clock)))) /\
  DohIpv4.run strict_make_query empty_label_tester 1 10 (doh_pool (world0 clock))
  = Ok (map entry
          (filter returned
             (DohIpv4.as_completed (doh_pool (world0 clock))
                (futures strict_make_query empty_label_tester 1
                   (doh_pool (world0 clock)))))).
Proof.
  assert (Hp : yields_each_once (DohIpv4.as_completed (doh_pool (world0 clock))))
    by (intros l; apply FleetProofs.rev_completes).
  split; [repeat split; [exact FleetProofs.doh_servers_NoDup|exact Hp]|].
  apply (proj1 (@run_mapping strict_make_query empty_label_tester 1 10
                  (doh_pool (world0 clock)) eq_refl
                  FleetProofs.doh_servers_NoDup Hp)).
Defined.

(** ** The order of completion *)

Lemma dict_get_perm {V} (d1 d2 : dict V) (k : str) :
  NoDup (map fst d1) -> Permutation d1 d2 -> dict_get d1 k = dict_get d2 k.
Proof.
  intros Hnd Hp.
  assert (Hnd2 : NoDup (map fst d2)).
  { eapply Permutation_NoDup; [|exact Hnd]. now apply Permutation_map. }
  destruct (dict_get d1 k) as [v|] eqn:E1.
  - symmetry. apply (proj2 (@dict_get_In _ d2 k v Hnd2)).
    apply (Permutation_in _ Hp).
    now apply (proj1 (@dict_get_In _ d1 k v Hnd)).
  - destruct (dict_get d2 k) as [v|] eqn:E2; [|reflexivity].
    apply (proj1 (@dict_get_In _ d2 k v Hnd2)) in E2.
    apply (Permutation_in _ (Permutation_sym Hp)) in E2.
    apply (proj2 (@dict_get_In _ d1 k v Hnd)) in E2. congruence.
Qed.

Lemma filter_perm {A} (f : A -> bool) (l1 l2 : list A) :
  Permutation l1 l2 -> Permutation (filter f l1) (filter f l2).
Proof.
  induction 1 as [|x l1 l2 _ IH|x y l|l1 l2 l3 _ IH1 _ IH2]; cbn [filter].
  - constructor.
  - destruct (f x); [now constructor|exact IH].
  - destruct (f x), (f y); try apply Permutation_refl. apply perm_swap.
  - now apply perm_trans with (filter f l2).
Qed.

(** Two runs whose tasks meet the same worlds and differ only in the
    order in which the tasks complete return the same entries: the
    mappings are permutations of one another and answer every lookup
    alike.  This holds for both programs. *)
Theorem run_order_independent :
  (forall self num_queries max_workers p1 p2,
      (0 < max_workers)%Z ->
      NoDup (map fst (DnsIpv4.dns_servers self)) ->
      yields_each_once (DnsIpv4.as_completed p1) ->
      yields_each_once (DnsIpv4.as_completed p2) ->
      (forall name, DnsIpv4.world_of p1 name = DnsIpv4.world_of p2 name) ->
      exists r1 r2,
        DnsIpv4.run_speed_test self num_queries max_workers p1 = Ok r1 /\
        DnsIpv4.run_speed_test self num_queries max_workers p2 = Ok r2 /\
        Permutation r1 r2 /\
        forall name, dict_get r1 name = dict_get r2 name) /\
  (forall make_query_to_wire self domain_count max_workers p1 p2,
      (0 < max_workers)%Z ->
      NoDup (map fst (DohIpv4.doh_servers self)) ->
      yields_each_once (DohIpv4.as_completed p1) ->
      yields_each_once (DohIpv4.as_completed p2) ->
      (forall name, DohIpv4.world_of p1 name = DohIpv4.world_of p2 name) ->
      exists r1 r2,
        DohIpv4.run make_query_to_wire self domain_count max_workers p1 = Ok r1 /\
        DohIpv4.run make_query_to_wire self domain_count max_workers p2 = Ok r2 /\
        Permutation r1 r2 /\
        forall name, dict_get r1 name = dict_get r2 name).
Proof.
  split.
  - intros self n mw p1 p2 Hw Hnd H1 H2 Hworld.
    assert (Ef : future_to_server self n p1 = future_to_server self n p2).
    { unfold future_to_server. apply map_ext. intros [name ip].
      now rewrite Hworld. }
    assert (Hp : Permutation
                   (map entry (DnsIpv4.as_completed p1 (future_to_server self n p1)))
                   (map entry (DnsIpv4.as_completed p2 (future_to_server self n p2)))).
    { apply Permutation_map. rewrite Ef.
      eapply perm_trans; [apply H1|apply Permutation_sym, H2]. }
    eexists. eexists.
    split; [now apply run_speed_test_closed|].
    split; [now apply run_speed_test_closed|].
    split; [exact Hp|].
    intros name. apply dict_get_perm; [|exact Hp].
    rewrite entry_names. apply completed_names; [exact H1|].
    now rewrite future_to_server_names.
  - intros mk self n mw p1 p2 Hw Hnd H1 H2 Hworld.
    assert (Ef : futures mk self n p1 = futures mk self n p2).
    { unfold futures. apply map_ext. intros [name url].
      now rewrite Hworld. }
    assert (Hp : Permutation
                   (map entry (filter returned
                      (DohIpv4.as_completed p1 (futures mk self n p1))))
                   (map entry (filter returned
                      (DohIpv4.as_completed p2 (futures mk self n p2))))).
    { apply Permutation_map, filter_perm. rewrite Ef.
      eapply perm_trans; [apply H1|apply Permutation_sym, H2]. }
    eexists. eexists.
    split; [now apply run_closed|].
    split; [now apply run_closed|].
    split; [exact Hp|].
    intros name. apply dict_get_perm; [|exact Hp].
    rewrite entry_names. apply filter_names_NoDup.
    apply completed_names; [exact H1|].
    now rewrite futures_doh_names.
Qed.

(** The tasks of two resolvers completing in submission order and in the
    reverse order. *)
Lemma run_order_independent_witness :
  exists r1 r2,
    DnsIpv4.run_speed_test long_label_tester 2 20 (udp_pool (world0 clock))
    = Ok r1 /\
    DnsIpv4.run_speed_test long_label_tester 2 20
      {| DnsIpv4.world_of := fun _ => world0 clock;
         DnsIpv4.as_completed := fun l => l |} = Ok r2 /\
    Permutation r1 r2 /\
    forall name, dict_get r1 name = dict_get r2 name.
Proof.
  apply (proj1 run_order_independent long_label_tester 2%Z 20%Z
           (udp_pool (world0 clock))
           {| DnsIpv4.world_of := fun _ => world0 clock;
              DnsIpv4.as_completed := fun l => l |}).
  - reflexivity.
  - exact FleetProofs.two_servers_NoDup.
  - intros l. apply FleetProofs.rev_completes.
  - intros l. apply Permutation_refl.
  - reflexivity.
Defined.

End MappingProofs.

(* ===================================================================== *)
(** * More on the summaries                                               *)
(* ===================================================================== *)

Module SummaryProofs.
Import Py OS SamplerSpec RankSpec FleetSpec SummarySpec Console Examples.

Lemma usableb_usable (e : str * Stats.t) : usableb e = true <-> usable e.
Proof.
  unfold usableb, usable. rewrite andb_true_iff, negb_true_iff. split.
  - intros [Ha Hr]. split.
    + intros E. rewrite E in Ha. discriminate.
    + now apply RuntimeProofs.Qltb_lt.
  - intros [Ha Hr]. split.
    + destruct (feq (Stats.avg (snd e)) Inf) eqn:E; [|reflexivity].
      now apply RankProofs.feq_Inf in E.
    + unfold Qltb. apply negb_true_iff.
      destruct (Qle_bool (Stats.success_rate (snd e)) 0) eqn:E; [|reflexivity].
      apply Qle_bool_iff in E. exfalso. exact (Qlt_not_le _ _ Hr E).
Qed.

Lemma udp_valid_filter (results : dict Stats.t) :
  filter (fun '(k, v) => negb (feq (Stats.avg v) Inf)
                         && Qltb 0 (Stats.success_rate v))
         (items results)
  = filter usableb results.
Proof. apply filter_ext. now intros [k v]. Qed.

Lemma udp_sorted_usable (results : dict Stats.t) :
  DnsIpv4.sorted_results results
  = sorted DnsIpv4.by_avg flt (filter usableb results).
Proof. now rewrite RankProofs.udp_sorted_results, udp_valid_filter. Qed.

Lemma sorted_not_nil {A K} (key : A -> K) (lt : K -> K -> bool) (l : list A) :
  l <> [] -> sorted key lt l <> [].
Proof.
  intros Hl E.
  pose proof (RuntimeProofs.sorted_perm key lt l) as Hp.
  rewrite E in Hp. apply Permutation_nil in Hp. contradiction.
Qed.

Lemma fle_refl (a : pyfloat) : fle a a.
Proof. destruct a; cbn; [apply Qle_refl|exact I]. Qed.

(** What [print_summary] prints, in terms of the rows. *)
Lemma print_summary_lines (results : dict Stats.t) :
  DnsCli.print_summary results
  = match DnsIpv4.sorted_results results with
    | [] => [Equals; SummaryTitle; Equals; NoServer]
    | (name, s) :: _ =>
        [Equals; SummaryTitle; Equals; TableHeader; Dashes]
        ++ map row (enumerate (DnsIpv4.print_summary results) 1)
        ++ [Fastest name; FastestAvg (Stats.avg s); FastestMin (Stats.min s);
            FastestRate (Stats.success_rate s)]
    end.
Proof.
  unfold DnsCli.print_summary, DnsIpv4.print_summary, DnsIpv4.sorted_results.
  destruct (filter _ (items results)) as [|x l] eqn:E; [reflexivity|].
  assert (Hne : sorted DnsIpv4.by_avg flt (x :: l) <> [])
    by (apply sorted_not_nil; discriminate).
  destruct (sorted DnsIpv4.by_avg flt (x :: l)) as [|[name s] rest];
    [contradiction|].
  cbn [app]. rewrite <- ?app_assoc. reflexivity.
Qed.

Lemma sorted_head_least (l : list (str * Stats.t)) (x : str * Stats.t)
    (rest : list (str * Stats.t)) :
  sorted DnsIpv4.by_avg flt l = x :: rest ->
  In x l /\ Forall (avg_le x) l.
Proof.
  intros E.
  destruct (@RankProofs.sorted_by_avg DnsIpv4.by_avg l (fun e => eq_refl))
    as (Hp & Hs & _).
  rewrite E in Hp, Hs. split.
  - apply (Permutation_in _ Hp). now left.
  - apply Forall_forall. intros e He.
    apply (Permutation_in _ (Permutation_sym Hp)) in He.
    destruct He as [<-|He]; [apply fle_refl|].
    inversion Hs as [|? ? _ Hall]; subst.
    now apply (proj1 (Forall_forall _ _) Hall).
Qed.

(** The end of the summary of [dns_ipv4.py].  When some resolver of the
    mapping has a finite average and a positive success rate, the
    summary is the table followed by the four lines on the fastest
    resolver, and that resolver is an entry of the mapping, has a finite
    average and a positive rate, and an average no larger than that of
    any other such entry.  When there is none, the summary is the line
    saying that no resolver is usable, and nothing else. *)
Theorem print_summary_fastest (results : dict Stats.t) :
  (Exists usable results ->
   exists name s,
     DnsCli.print_summary results
     = [Equals; SummaryTitle; Equals; TableHeader; Dashes]
       ++ map row (enumerate (DnsIpv4.print_summary results) 1)
       ++ [Fastest name; FastestAvg (Stats.avg s); FastestMin (Stats.min s);
           FastestRate (Stats.success_rate s)] /\
     In (name, s) results /\ usable (name, s) /\
     Forall (fun e => usable e -> fle (Stats.avg s) (Stats.avg (snd e))) results) /\
  (~ Exists usable results ->
   DnsCli.print_summary results = [Equals; SummaryTitle; Equals; NoServer]).
Proof.
  rewrite print_summary_lines, udp_sorted_usable. split.
  - intros Hex.
    assert (Hne : filter usableb results <> []).
    { apply Exists_exists in Hex. destruct Hex as (e & He & Hu).
      intros E. assert (Hin : In e (filter usableb results)).
      { apply filter_In. split; [exact He|now apply usableb_usable]. }
      rewrite E in Hin. contradiction. }
    apply (sorted_not_nil DnsIpv4.by_avg flt) in Hne.
    destruct (sorted DnsIpv4.by_avg flt (filter usableb results))
      as [|[name s] rest] eqn:E; [contradiction|].
    destruct (sorted_head_least _ E) as [Hin Hall].
    apply filter_In in Hin. destruct Hin as [Hin Hu].
    exists name, s. split; [reflexivity|]. split; [exact Hin|].
    split; [now apply usableb_usable|].
    apply Forall_forall. intros e He Hue.
    apply (proj1 (Forall_forall _ _) Hall e).
    apply filter_In. split; [exact He|now apply usableb_usable].
  - intros Hno.
    assert (Hnil : filter usableb results = []).
    { destruct (filter usableb results) as [|e l] eqn:E; [reflexivity|].
      exfalso. apply Hno. apply Exists_exists. exists e.
      assert (Hin : In e (filter usableb results)) by (rewrite E; now left).
      apply filter_In in Hin. destruct Hin as [Hin Hu].
      split; [exact Hin|now apply usableb_usable]. }
    now rewrite Hnil.
Qed.

Lemma print_summary_fastest_witness :
  Exists usable three_resolvers /\
  exists name s,
    DnsCli.print_summary three_resolvers
    = [Equals; SummaryTitle; Equals; TableHeader; Dashes]
      ++ map row (enumerate (DnsIpv4.print_summary three_resolvers) 1)
      ++ [Fastest name; FastestAvg (Stats.avg s); FastestMin (Stats.min s);
          FastestRate (Stats.success_rate s)] /\
    In (name, s) three_resolvers /\ usable (name, s) /\
    Forall (fun e => usable e -> fle (Stats.avg s) (Stats.avg (snd e)))
           three_resolvers.
Proof.
  assert (Hex : Exists usable three_resolvers).
  { apply Exists_cons_tl, Exists_cons_hd. split; [discriminate|reflexivity]. }
  split; [exact Hex|].
  exact (proj1 (print_summary_fastest three_resolvers) Hex).
Defined.

(** ** Which resolvers the tables show *)

Lemma StronglySorted_app_le {A} (R : A -> A -> Prop) (l1 l2 : list A) :
  StronglySorted R (l1 ++ l2) ->
  forall x y, In x l1 -> In y l2 -> R x y.
Proof.
  induction l1 as [|a l1 IH]; cbn [app]; intros Hs x y Hx Hy; [contradiction|].
  inversion Hs as [|? ? Hs' Hall]; subst.
  destruct Hx as [<-|Hx].
  - apply (proj1 (Forall_forall _ _) Hall). apply in_or_app. now right.
  - now apply IH.
Qed.

(** The table of [dns_ipv4.py] shows the ten best resolvers: it has as
    many rows as there are resolvers with a finite average and a positive
    success rate, up to ten; and such a resolver is missing from it only
    when the table is full and every row has an average no larger than
    that of the missing resolver. *)
Theorem print_summary_top_ten (results : dict Stats.t) :
  length (DnsIpv4.print_summary results)
  = Nat.min 10 (length (filter usableb results)) /\
  (forall e,
      In e results -> usable e ->
      In e (DnsIpv4.print_summary results)
      \/ (length (DnsIpv4.print_summary results) = 10%nat /\
          Forall (fun r => avg_le r e) (DnsIpv4.print_summary results))).
Proof.
  unfold DnsIpv4.print_summary. rewrite udp_sorted_usable.
  destruct (@RankProofs.sorted_by_avg DnsIpv4.by_avg (filter usableb results)
              (fun e => eq_refl)) as (Hp & Hs & _).
  set (S := sorted DnsIpv4.by_avg flt (filter usableb results)) in *.
  split.
  - rewrite length_firstn. now rewrite (Permutation_length Hp).
  - intros e He Hu.
    assert (Hin : In e S).
    { apply (Permutation_in _ (Permutation_sym Hp)).
      apply filter_In. split; [exact He|now apply usableb_usable]. }
    rewrite <- (firstn_skipn 10 S) in Hin, Hs.
    apply in_app_or in Hin. destruct Hin as [Hin|Hin]; [now left|].
    right. split.
    + rewrite length_firstn.
      assert (Hl : (0 < length (skipn 10 S))%nat)
        by (destruct (skipn 10 S); [contradiction|cbn; lia]).
      rewrite length_skipn in Hl. lia.
    + apply Forall_forall. intros r Hr.
      exact (@StronglySorted_app_le _ _ _ _ Hs _ _ Hr Hin).
Qed.

Lemma print_summary_top_ten_witness :
  In (str_of_string "C", stats_c) three_resolvers /\
  usable (str_of_string "C", stats_c) /\
  length (DnsIpv4.print_summary three_resolvers) = 2%nat /\
  In (str_of_string "C", stats_c) (DnsIpv4.print_summary three_resolvers).
Proof.
  assert (Hin : In (str_of_string "C", stats_c) three_resolvers)
    by (right; right; now left).
  assert (Hu : usable (str_of_string "C", stats_c))
    by (split; [discriminate|reflexivity]).
  split; [exact Hin|]. split; [exact Hu|].
  destruct (print_summary_top_ten three_resolvers) as [Hl Hall].
  split; [exact Hl|].
  destruct (Hall _ Hin Hu) as [H|[H _]]; [exact H|].
  rewrite Hl in H. discriminate.
Defined.

Lemma doh_valid_filter (results : dict Stats.t) :
  filter (fun '(k, v) => negb (feq (Stats.avg v) Inf)) (items results)
  = filter finite_avg results.
Proof. apply filter_ext. now intros [k v]. Qed.

(** The summary of [doh_ipv4.py]: the title lines, one row for each
    resolver of the mapping with a finite average — all of them, each
    once — and, when there is such a resolver, the line on the best one,
    an entry of the mapping whose average is finite and no larger than
    any average of the mapping.  With no such resolver the table is
    empty and no other line follows. *)
Theorem doh_print_summary_table (results : dict Stats.t) :
  Permutation (DohIpv4.print_summary results) (filter finite_avg results) /\
  exists tail,
    DohCli.print_summary results
    = [SummaryTitle; Equals; TableHeader]
      ++ map row (enumerate (DohIpv4.print_summary results) 1) ++ tail /\
    (filter finite_avg results = [] -> tail = []) /\
    (filter finite_avg results <> [] ->
     exists name s,
       tail = [Best name (Stats.avg s)] /\ In (name, s) results /\
       Stats.avg s <> Inf /\
       Forall (fun e => fle (Stats.avg s) (Stats.avg (snd e))) results).
Proof.
  unfold DohIpv4.print_summary, DohIpv4.sorted_results, DohCli.print_summary.
  rewrite doh_valid_filter.
  destruct (@RankProofs.sorted_by_avg DohIpv4.by_avg (filter finite_avg results)
              (fun e => eq_refl)) as (Hp & Hs & _).
  split; [exact Hp|].
  destruct (sorted DohIpv4.by_avg flt (filter finite_avg results))
    as [|[name s] rest] eqn:E.
  - exists []. split; [reflexivity|]. split; [reflexivity|].
    intros Hne. exfalso. apply Hne.
    apply Permutation_nil. exact Hp.
  - exists [Best name (Stats.avg s)]. split.
    + cbn [app fst snd]. rewrite <- ?app_assoc. reflexivity.
    + split.
      * intros Hnil. rewrite Hnil in Hp.
        apply Permutation_sym, Permutation_nil in Hp. discriminate.
      * intros _. exists name, s. split; [reflexivity|].
        assert (Hin : In (name, s) (filter finite_avg results))
          by (apply (Permutation_in _ Hp); now left).
        apply filter_In in Hin. destruct Hin as [Hin Hf].
        split; [exact Hin|]. split.
        -- intros Ea. unfold finite_avg in Hf. cbn [snd] in Hf.
           rewrite Ea in Hf. discriminate.
        -- apply Forall_forall. intros e He.
           destruct (finite_avg e) eqn:Ef.
           ++ assert (Hin' : In e ((name, s) :: rest)).
              { apply (Permutation_in _ (Permutation_sym Hp)).
                apply filter_In. now split. }
              destruct Hin' as [<-|Hin']; [apply fle_refl|].
              inversion Hs as [|? ? _ Hall]; subst.
              exact (proj1 (Forall_forall _ _) Hall e Hin').
           ++ unfold finite_avg in Ef. apply negb_false_iff in Ef.
              apply RankProofs.feq_Inf in Ef. rewrite Ef.
              destruct (Stats.avg s); exact I.
Qed.

Lemma doh_print_summary_table_witness :
  filter finite_avg three_resolvers <> [] /\
  exists name s,
    DohCli.print_summary three_resolvers
    = [SummaryTitle; Equals; TableHeader]
      ++ map row (enumerate (DohIpv4.print_summary three_resolvers) 1)
      ++ [Best name (Stats.avg s)] /\
    In (name, s) three_resolvers /\
    Forall (fun e => fle (Stats.avg s) (Stats.avg (snd e))) three_resolvers.
Proof.
  assert (Hne : filter finite_avg three_resolvers <> []) by discriminate.
  split; [exact Hne|].
  destruct (doh_print_summary_table three_resolvers)
    as (_ & tail & Ht & _ & Hbest).
  destruct (Hbest Hne) as (name & s & -> & Hin & _ & Hall).
  exists name, s. now repeat split.
Defined.

(** ** A negative number of queries *)

Lemma dict_set_In {V} (d : dict V) (k : str) (v : V) (k' : str) (v' : V) :
  In (k', v') (dict_set d k v) -> In (k', v') d \/ v' = v.
Proof.
  induction d as [|[k0 v0] d IH]; cbn [dict_set In].
  - intros [H|[]]. right. congruence.
  - destruct (str_eqb k0 k); cbn [In].
    + intros [H|H]; [right; congruence|left; now right].
    + intros [H|H]; [left; now left|].
      destruct (IH H) as [H'|H']; [left; now right|now right].
Qed.

Lemma udp_collect_values (l : list (result Stats.t * str)) :
  forall d k v,
    In (k, v) (fold_left DnsIpv4.collect l d) ->
    In (k, v) d \/ exists f, In f l /\ v = or_sentinel (fst f).
Proof.
  induction l as [|f l IH]; cbn [fold_left]; intros d k v H; [now left|].
  destruct (IH _ _ _ H) as [H'|(g & Hg & Ev)].
  - assert (Hc : In (k, v) d \/ v = or_sentinel (fst f)).
    { unfold DnsIpv4.collect in H'. destruct (fst f); cbn [or_sentinel];
        now apply dict_set_In in H'. }
    destruct Hc as [Hc|Hc]; [now left|].
    right. exists f. split; [now left|exact Hc].
  - right. exists g. split; [now right|exact Ev].
Qed.

Lemma run_speed_test_negative_rates (self : DnsIpv4.DNSSpeedTester)
    (num_queries max_workers : Z) (p : DnsIpv4.pool) (results : dict Stats.t) :
  (num_queries < 0)%Z ->
  yields_each_once (DnsIpv4.as_completed p) ->
  DnsIpv4.run_speed_test self num_queries max_workers p = Ok results ->
  Forall (fun e => (Stats.success_rate (snd e) <= 0)%Q) results.
Proof.
  intros Hn Hp E. unfold DnsIpv4.run_speed_test in E.
  destruct (Z.leb max_workers 0); [discriminate|]. injection E as <-.
  fold (future_to_server self num_queries p).
  apply Forall_forall. intros [k v] Hin. cbn [snd].
  apply udp_collect_values in Hin. destruct Hin as [[]|(f & Hf & ->)].
  apply (Permutation_in _ (Hp _)) in Hf.
  unfold future_to_server in Hf. apply in_map_iff in Hf.
  destruct Hf as ([name ip] & <- & _). cbn [fst].
  destruct (DnsIpv4.test_multiple_queries self name ip num_queries
              (DnsIpv4.world_of p name)) as [[s|ex] w'] eqn:Et;
    cbn [fst or_sentinel].
  - rewrite SamplerProofs.test_multiple_queries_sampler in Et.
    exact (@TraceProofs.sampler_negative_rate _ _ _ _ _ _ Hn Et).
  - cbn. apply Qle_refl.
Qed.

Lemma no_positive_rate_no_usable (results : dict Stats.t) :
  Forall (fun e => (Stats.success_rate (snd e) <= 0)%Q) results ->
  filter usableb results = [].
Proof.
  intros Hall.
  destruct (filter usableb results) as [|e l] eqn:Ef; [reflexivity|].
  exfalso.
  assert (Hin : In e (filter usableb results)) by (rewrite Ef; now left).
  apply filter_In in Hin. destruct Hin as [Hin Hu].
  apply usableb_usable in Hu. destruct Hu as [_ Hr].
  pose proof (proj1 (Forall_forall _ _) Hall e Hin) as Hle. cbv beta in Hle.
  exact (Qlt_not_le _ _ Hr Hle).
Qed.

(** A negative number of queries per resolver: whatever the resolvers
    answer, no entry of the mapping has a positive success rate, so the
    summary has no table and says that no resolver is usable. *)
Theorem run_speed_test_negative_queries (self : DnsIpv4.DNSSpeedTester)
    (num_queries max_workers : Z) (p : DnsIpv4.pool) (results : dict Stats.t) :
  (num_queries < 0)%Z ->
  yields_each_once (DnsIpv4.as_completed p) ->
  DnsIpv4.run_speed_test self num_queries max_workers p = Ok results ->
  Forall (fun e => (Stats.success_rate (snd e) <= 0)%Q) results /\
  DnsIpv4.print_summary results = [] /\
  DnsCli.print_summary results = [Equals; SummaryTitle; Equals; NoServer].
Proof.
  intros Hn Hp E.
  pose proof (@run_speed_test_negative_rates _ _ _ _ _ Hn Hp E) as Hall.
  pose proof (no_positive_rate_no_usable Hall) as Hnil.
  split; [exact Hall|]. split.
  - unfold DnsIpv4.print_summary. now rewrite udp_sorted_usable, Hnil.
  - now rewrite print_summary_lines, udp_sorted_usable, Hnil.
Qed.

(** One resolver, asked for the domain "qq.com" with the number -1: it
    answers in 15 ms, and the summary says that no resolver is usable. *)
Lemma run_speed_test_negative_queries_witness :
  ((-1 < 0)%Z /\
   yields_each_once (DnsIpv4.as_completed (udp_pool (world0 clock)))) /\
  exists results,
    DnsIpv4.run_speed_test (tester ["qq.com"; "jd.com"]%string) (-1) 20
      (udp_pool (world0 clock)) = Ok results /\
    option_map Stats.avg (dict_get results google) = Some (Fin 15000) /\
    DnsCli.print_summary results = [Equals; SummaryTitle; Equals; NoServer].
Proof.
  assert (Hp : yields_each_once (DnsIpv4.as_completed (udp_pool (world0 clock))))
    by (intros l; apply FleetProofs.rev_completes).
  split; [split; [reflexivity|exact Hp]|].
  destruct (DnsIpv4.run_speed_test (tester ["qq.com"; "jd.com"]%string) (-1) 20
              (udp_pool (world0 clock))) as [results|e] eqn:E.
  - exists results. split; [reflexivity|]. split.
    + assert (Er : Ok results
                   = DnsIpv4.run_speed_test (tester ["qq.com"; "jd.com"]%string)
                       (-1) 20 (udp_pool (world0 clock))) by (now rewrite E).
      vm_compute in Er. injection Er as ->. reflexivity.
    + assert (Hn : (-1 < 0)%Z) by reflexivity.
      exact (proj2 (proj2 (@run_speed_test_negative_queries _ _ _ _ _
                             Hn Hp E))).
  - exfalso. vm_compute in E. discriminate.
Defined.

End SummaryProofs.

(* ===================================================================== *)
(** * The table of resolvers: adding and removing                         *)
(* ===================================================================== *)

Module ConfigProofs.
Import Py OS RankSpec ConfigSpec Examples MappingProofs.

Lemma str_eqb_refl (a : str) : str_eqb a a = true.
Proof. now apply FleetProofs.str_eqb_eq. Qed.

Lemma str_eqb_sym (a b : str) : str_eqb a b = str_eqb b a.
Proof.
  destruct (str_eqb a b) eqn:E1, (str_eqb b a) eqn:E2; try reflexivity.
  - apply FleetProofs.str_eqb_eq in E1. subst. now rewrite str_eqb_refl in E2.
  - apply FleetProofs.str_eqb_eq in E2. subst. now rewrite str_eqb_refl in E1.
Qed.

Lemma dict_get_set {V} (d : dict V) (k k' : str) (v : V) :
  dict_get (dict_set d k v) k'
  = if str_eqb k k' then Some v else dict_get d k'.
Proof.
  destruct (str_eqb k k') eqn:E.
  - apply FleetProofs.str_eqb_eq in E. subst.
    apply FleetProofs.dict_get_set_same.
  - apply FleetProofs.dict_get_set_other. intros ->.
    now rewrite str_eqb_refl in E.
Qed.

Lemma dict_set_keys {V} (d : dict V) (k : str) (v : V) :
  map fst (dict_set d k v)
  = match dict_get d k with
    | Some _ => map fst d
    | None => map fst d ++ [k]
    end.
Proof.
  induction d as [|[k0 v0] d IH]; cbn [dict_set dict_get map fst app];
    [reflexivity|].
  destruct (str_eqb k0 k); [reflexivity|].
  cbn [map fst]. rewrite IH. now destruct (dict_get d k).
Qed.

Lemma dict_set_NoDup {V} (d : dict V) (k : str) (v : V) :
  NoDup (map fst d) -> NoDup (map fst (dict_set d k v)).
Proof.
  intros Hnd. rewrite dict_set_keys.
  destruct (dict_get d k) eqn:E; [exact Hnd|].
  apply dict_get_None in E.
  apply NoDup_app; [exact Hnd|repeat constructor; intros []|].
  intros x Hx [<-|[]]. contradiction.
Qed.

Lemma remove_filter (self : DnsIpv4.DNSSpeedTester) (name : str) :
  DnsIpv4.dns_servers (DnsIpv4.remove_dns self name)
  = filter (keeps name) (DnsIpv4.dns_servers self).
Proof. cbn. apply filter_ext. now intros [k v]. Qed.

Lemma dict_get_filter (d : dict str) (name k : str) :
  dict_get (filter (keeps name) d) k
  = if str_eqb name k then None else dict_get d k.
Proof.
  induction d as [|[k0 v0] d IH]; cbn [filter dict_get].
  - now destruct (str_eqb name k).
  - unfold keeps at 1. cbn [fst].
    destruct (str_eqb k0 name) eqn:E0; cbn [negb dict_get].
    + apply FleetProofs.str_eqb_eq in E0. subst k0.
      rewrite IH. now destruct (str_eqb name k).
    + rewrite IH. destruct (str_eqb k0 k) eqn:E1; [|reflexivity].
      apply FleetProofs.str_eqb_eq in E1. subst k0.
      now rewrite str_eqb_sym, E0.
Qed.

Lemma filter_absent (d : dict str) (name : str) :
  dict_get d name = None -> filter (keeps name) d = d.
Proof.
  induction d as [|[k0 v0] d IH]; cbn [filter dict_get]; [reflexivity|].
  unfold keeps at 1. cbn [fst].
  destruct (str_eqb k0 name); [discriminate|]. cbn [negb].
  intros H. now rewrite IH.
Qed.

Lemma filter_keys_NoDup (f : str * str -> bool) (d : dict str) :
  NoDup (map fst d) -> NoDup (map fst (filter f d)).
Proof.
  induction d as [|x d IH]; cbn [map filter]; intros Hnd; [constructor|].
  inversion Hnd as [|? ? Hnotin Hnd']; subst.
  destruct (f x); [|now apply IH].
  cbn [map]. constructor; [|now apply IH].
  intros Hin. apply Hnotin.
  apply in_map_iff in Hin. destruct Hin as (y & Ey & Hy).
  apply filter_In in Hy. rewrite <- Ey. now apply in_map.
Qed.

(** [add_custom_dns]: afterwards the name resolves to the address given
    and every other name to what it resolved to before; a new name goes
    to the end of the table, a known one keeps its place; the names stay
    distinct; the domain list is untouched. *)
Theorem add_custom_dns_lookup (self : DnsIpv4.DNSSpeedTester) (name ip : str) :
  (forall k,
      dict_get (DnsIpv4.dns_servers (DnsIpv4.add_custom_dns self name ip)) k
      = if str_eqb name k then Some ip
        else dict_get (DnsIpv4.dns_servers self) k) /\
  (dict_get (DnsIpv4.dns_servers self) name = None ->
   DnsIpv4.dns_servers (DnsIpv4.add_custom_dns self name ip)
   = DnsIpv4.dns_servers self ++ [(name, ip)]) /\
  (dict_get (DnsIpv4.dns_servers self) name <> None ->
   map fst (DnsIpv4.dns_servers (DnsIpv4.add_custom_dns self name ip))
   = map fst (DnsIpv4.dns_servers self)) /\
  (NoDup (map fst (DnsIpv4.dns_servers self)) ->
   NoDup (map fst (DnsIpv4.dns_servers (DnsIpv4.add_custom_dns self name ip)))) /\
  DnsIpv4.test_domains (DnsIpv4.add_custom_dns self name ip)
  = DnsIpv4.test_domains self.
Proof.
  cbn [DnsIpv4.add_custom_dns DnsIpv4.dns_servers DnsIpv4.test_domains].
  split; [intros k; apply dict_get_set|].
  split; [apply dict_set_fresh|].
  split.
  - intros H. rewrite dict_set_keys.
    now destruct (dict_get (DnsIpv4.dns_servers self) name).
  - split; [apply dict_set_NoDup|reflexivity].
Qed.

(** [remove_dns]: afterwards the name resolves to nothing and every
    other name to what it resolved to before; the entries that remain
    keep their order; a name that is not in the table leaves the tester
    as it was, without an error; the names stay distinct; the domain
    list is untouched. *)
Theorem remove_dns_lookup (self : DnsIpv4.DNSSpeedTester) (name : str) :
  (forall k,
      dict_get (DnsIpv4.dns_servers (DnsIpv4.remove_dns self name)) k
      = if str_eqb name k then None
        else dict_get (DnsIpv4.dns_servers self) k) /\
  subseq (DnsIpv4.dns_servers (DnsIpv4.remove_dns self name))
         (DnsIpv4.dns_servers self) /\
  (dict_get (DnsIpv4.dns_servers self) name = None ->
   DnsIpv4.remove_dns self name = self) /\
  (NoDup (map fst (DnsIpv4.dns_servers self)) ->
   NoDup (map fst (DnsIpv4.dns_servers (DnsIpv4.remove_dns self name)))) /\
  DnsIpv4.test_domains (DnsIpv4.remove_dns self name)
  = DnsIpv4.test_domains self.
Proof.
  rewrite remove_filter.
  split; [intros k; apply dict_get_filter|].
  split; [apply RankProofs.subseq_filter|].
  split.
  - intros H. destruct self as [servers domains].
    unfold DnsIpv4.remove_dns. cbn [DnsIpv4.dns_servers DnsIpv4.test_domains] in *.
    f_equal. rewrite <- (filter_absent _ _ H) at 2.
    apply filter_ext. now intros [k v].
  - split; [apply filter_keys_NoDup|reflexivity].
Qed.

(** Removing a resolver that was just added, under a name the table did
    not have, gives back the tester as it was. *)
Theorem remove_dns_undoes_add (self : DnsIpv4.DNSSpeedTester) (name ip : str) :
  dict_get (DnsIpv4.dns_servers self) name = None ->
  DnsIpv4.remove_dns (DnsIpv4.add_custom_dns self name ip) name = self.
Proof.
  intros H. destruct self as [servers domains].
  unfold DnsIpv4.remove_dns, DnsIpv4.add_custom_dns.
  cbn [DnsIpv4.dns_servers DnsIpv4.test_domains] in *.
  f_equal. rewrite (dict_set_fresh _ _ _ H), filter_app.
  transitivity (filter (keeps name) servers ++ filter (keeps name) [(name, ip)]).
  { f_equal; apply filter_ext; now intros [k v]. }
  rewrite (filter_absent _ _ H). cbn [filter]. unfold keeps. cbn [fst].
  rewrite str_eqb_refl. cbn [negb]. apply app_nil_r.
Qed.

Lemma remove_dns_undoes_add_witness :
  dict_get (DnsIpv4.dns_servers Tables.DNSSpeedTester_init)
    (str_of_string "Local") = None /\
  DnsIpv4.remove_dns
    (DnsIpv4.add_custom_dns Tables.DNSSpeedTester_init
       (str_of_string "Local") (str_of_string "192.168.1.1"))
    (str_of_string "Local")
  = Tables.DNSSpeedTester_init.
Proof.
  assert (H : dict_get (DnsIpv4.dns_servers Tables.DNSSpeedTester_init)
                (str_of_string "Local") = None) by (vm_compute; reflexivity).
  split; [exact H|].
  exact (remove_dns_undoes_add Tables.DNSSpeedTester_init
           (str_of_string "Local") (str_of_string "192.168.1.1") H).
Defined.

End ConfigProofs.

(* ===================================================================== *)
(** * The console of the two programs                                     *)
(* ===================================================================== *)

Module CliProofs.
Import Py OS SamplerSpec RankSpec FleetSpec SummarySpec ConfigSpec CliSpec.
Import Console Examples MappingProofs.

Lemma udp_report_fold (l : list (result Stats.t * str)) :
  forall out d,
    fold_left DnsCli.report l (out, d)
    = (out ++ map live_line l, fold_left DnsIpv4.collect l d).
Proof.
  induction l as [|f l IH]; intros out d; cbn [fold_left map].
  - now rewrite app_nil_r.
  - unfold DnsCli.report at 2, DnsIpv4.collect at 2, live_line at 1.
    destruct (fst f) as [s|e]; [destruct (feq (Stats.avg s) Inf)|];
      rewrite IH, <- app_assoc; reflexivity.
Qed.

Lemma doh_report_fold (l : list (result Stats.t * str)) :
  forall out d,
    fold_left DohCli.report l (out, d)
    = (out ++ map live_line l, fold_left DohIpv4.collect l d).
Proof.
  induction l as [|f l IH]; intros out d; cbn [fold_left map].
  - now rewrite app_nil_r.
  - unfold DohCli.report at 2, DohIpv4.collect at 2, live_line at 1.
    destruct (fst f) as [s|e]; [destruct (feq (Stats.avg s) Inf)|];
      rewrite IH, <- app_assoc; reflexivity.
Qed.

Lemma run_speed_test_console (self : DnsIpv4.DNSSpeedTester)
    (num_queries max_workers : Z) (p : DnsIpv4.pool) :
  DnsCli.run_speed_test self num_queries max_workers p
  = ([Starting (len (DnsIpv4.dns_servers self)); QueriesPerServer num_queries;
      Dashes]
     ++ (if Z.leb max_workers 0 then []
         else map live_line
                (DnsIpv4.as_completed p (future_to_server self num_queries p))),
     DnsIpv4.run_speed_test self num_queries max_workers p).
Proof.
  unfold DnsCli.run_speed_test, DnsIpv4.run_speed_test.
  destruct (Z.leb max_workers 0); [reflexivity|].
  fold (future_to_server self num_queries p).
  now rewrite udp_report_fold.
Qed.

Lemma run_console (mk : str -> result bytes) (self : DohIpv4.DoHSpeedTester)
    (domain_count max_workers : Z) (p : DohIpv4.pool) :
  DohCli.run mk self domain_count max_workers p
  = ([DomainCount domain_count; Dashes]
     ++ (if Z.leb max_workers 0 then []
         else map live_line
                (DohIpv4.as_completed p (futures mk self domain_count p))),
     DohIpv4.run mk self domain_count max_workers p).
Proof.
  unfold DohCli.run, DohIpv4.run.
  destruct (Z.leb max_workers 0); [reflexivity|].
  fold (futures mk self domain_count p).
  now rewrite doh_report_fold.
Qed.

Lemma resolver_of_live_line (f : result Stats.t * str) :
  resolver_of (live_line f) = Some (snd f).
Proof.
  unfold live_line. destruct (fst f) as [s|e]; [|reflexivity].
  now destruct (feq (Stats.avg s) Inf).
Qed.

Lemma live_line_failed (l : list (result Stats.t * str)) (name : str) (e : exn) :
  In (TestFailed name e) (map live_line l) <-> In (Raise e, name) l.
Proof.
  rewrite in_map_iff. split.
  - intros ([r n] & E & Hin). unfold live_line in E. cbn [fst snd] in E.
    destruct r as [s|e']; [destruct (feq (Stats.avg s) Inf); discriminate|].
    now injection E as -> ->.
  - intros Hin. exists (Raise e, name). split; [reflexivity|exact Hin].
Qed.

Lemma live_line_timed_out (l : list (result Stats.t * str)) (name : str) :
  In (TimedOut name) (map live_line l)
  <-> exists s, In (Ok s, name) l /\ Stats.avg s = Inf.
Proof.
  rewrite in_map_iff. split.
  - intros ([r n] & E & Hin). unfold live_line in E. cbn [fst snd] in E.
    destruct r as [s|e']; [|discriminate].
    destruct (feq (Stats.avg s) Inf) eqn:Ef; [|discriminate].
    injection E as ->. exists s. split; [exact Hin|].
    now apply RankProofs.feq_Inf.
  - intros (s & Hin & Ea). exists (Ok s, name). split; [|exact Hin].
    unfold live_line. cbn [fst snd]. now rewrite Ea.
Qed.

Lemma live_names (as_completed : list (result Stats.t * str)
                                  -> list (result Stats.t * str))
    (l : list (result Stats.t * str)) :
  yields_each_once as_completed ->
  Permutation (map resolver_of (map live_line (as_completed l)))
              (map (fun f => Some (snd f)) l).
Proof.
  intros Hp. rewrite map_map.
  rewrite (map_ext _ (fun f => Some (snd f)) resolver_of_live_line).
  apply Permutation_map, Hp.
Qed.

(** The live lines of [run_speed_test].  After the three opening lines
    comes one line for each completed task, in the order in which
    [as_completed] yields the tasks: the i-th live line is the line of
    the i-th task to complete and names its resolver.  The resolvers
    named are those of the table, each once.  The line of a failed test
    appears exactly for a task that raised, with its exception, and the
    line of a timeout exactly for a task that returned an infinite
    average.  What the function returns is the mapping described
    before. *)
Theorem run_speed_test_live_lines (self : DnsIpv4.DNSSpeedTester)
    (num_queries max_workers : Z) (p : DnsIpv4.pool) :
  (0 < max_workers)%Z ->
  yields_each_once (DnsIpv4.as_completed p) ->
  snd (DnsCli.run_speed_test self num_queries max_workers p)
  = DnsIpv4.run_speed_test self num_queries max_workers p /\
  exists lines,
    fst (DnsCli.run_speed_test self num_queries max_workers p)
    = [Starting (len (DnsIpv4.dns_servers self)); QueriesPerServer num_queries;
       Dashes] ++ lines /\
    lines
    = map live_line
        (DnsIpv4.as_completed p (future_to_server self num_queries p)) /\
    map resolver_of lines
    = map (fun f => Some (snd f))
        (DnsIpv4.as_completed p (future_to_server self num_queries p)) /\
    Permutation (map resolver_of lines)
                (map (fun x => Some (fst x)) (DnsIpv4.dns_servers self)) /\
    (forall name e,
        In (TestFailed name e) lines
        <-> exists ip,
              In (name, ip) (DnsIpv4.dns_servers self) /\
              fst (DnsIpv4.test_multiple_queries self name ip num_queries
                     (DnsIpv4.world_of p name)) = Raise e) /\
    (forall name,
        In (TimedOut name) lines
        <-> exists ip s,
              In (name, ip) (DnsIpv4.dns_servers self) /\
              fst (DnsIpv4.test_multiple_queries self name ip num_queries
                     (DnsIpv4.world_of p name)) = Ok s /\
              Stats.avg s = Inf).
Proof.
  intros Hw Hp. rewrite run_speed_test_console. cbn [fst snd].
  replace (Z.leb max_workers 0) with false by (symmetry; apply Z.leb_gt; lia).
  split; [reflexivity|].
  exists (map live_line
            (DnsIpv4.as_completed p (future_to_server self num_queries p))).
  split; [reflexivity|]. split; [reflexivity|]. split; [|split; [|split]].
  - rewrite map_map. apply map_ext. exact resolver_of_live_line.
  - eapply perm_trans; [apply (live_names _ Hp)|].
    unfold future_to_server, items. rewrite map_map.
    apply Permutation_refl'. apply map_ext. now intros [name ip].
  - intros name e. rewrite live_line_failed. split.
    + intros Hin. apply (Permutation_in _ (Hp _)) in Hin.
      unfold future_to_server in Hin. apply in_map_iff in Hin.
      destruct Hin as ([n ip] & E & Hin). injection E as E ->.
      now exists ip.
    + intros (ip & Hin & E).
      apply (Permutation_in _ (Permutation_sym (Hp _))).
      unfold future_to_server. apply in_map_iff.
      exists (name, ip). split; [now rewrite E|exact Hin].
  - intros name. rewrite live_line_timed_out. split.
    + intros (s & Hin & Ea). apply (Permutation_in _ (Hp _)) in Hin.
      unfold future_to_server in Hin. apply in_map_iff in Hin.
      destruct Hin as ([n ip] & E & Hin). injection E as E ->.
      now exists ip, s.
    + intros (ip & s & Hin & E & Ea). exists s. split; [|exact Ea].
      apply (Permutation_in _ (Permutation_sym (Hp _))).
      unfold future_to_server. apply in_map_iff.
      exists (name, ip). split; [now rewrite E|exact Hin].
Qed.

(** Two resolvers, completing in the reverse of the order of
    submission: the line of Quad9, a failed test, comes first. *)
Lemma run_speed_test_live_lines_witness :
  ((0 < 20)%Z /\
   yields_each_once (DnsIpv4.as_completed (udp_pool (world0 clock)))) /\
  exists lines,
    fst (DnsCli.run_speed_test long_label_tester 2 20 (udp_pool (world0 clock)))
    = [Starting 2; QueriesPerServer 2; Dashes] ++ lines /\
    map resolver_of lines
    = [Some (str_of_string "Quad9"); Some (str_of_string "Google DNS 1")] /\
    In (TestFailed (str_of_string "Quad9") StructError) lines.
Proof.
  assert (Hp : yields_each_once (DnsIpv4.as_completed (udp_pool (world0 clock))))
    by (intros l; apply FleetProofs.rev_completes).
  split; [split; [reflexivity|exact Hp]|].
  destruct (@run_speed_test_live_lines long_label_tester 2 20
              (udp_pool (world0 clock)) eq_refl Hp)
    as (_ & lines & Hl & _ & Ho & _ & Hfail & _).
  exists lines. split; [exact Hl|]. split.
  - rewrite Ho. vm_compute. reflexivity.
  - apply Hfail. exists (str_of_string "9.9.9.9").
    split; [right; now left|vm_compute; reflexivity].
Defined.

(** The live lines of [run] in the DoH program.  After the two opening
    lines comes one line for each resolver of the table, in the order in
    which the tasks complete.  A resolver of the table is missing from
    the mapping that [run] returns exactly when its line is the line of
    an error: a fault is shown on the console and nowhere else. *)
Theorem run_live_lines (make_query_to_wire : str -> result bytes)
    (self : DohIpv4.DoHSpeedTester) (domain_count max_workers : Z)
    (p : DohIpv4.pool) :
  (0 < max_workers)%Z ->
  NoDup (map fst (DohIpv4.doh_servers self)) ->
  yields_each_once (DohIpv4.as_completed p) ->
  exists lines results,
    DohCli.run make_query_to_wire self domain_count max_workers p
    = ([DomainCount domain_count; Dashes] ++ lines, Ok results) /\
    DohIpv4.run make_query_to_wire self domain_count max_workers p = Ok results /\
    Permutation (map resolver_of lines)
                (map (fun x => Some (fst x)) (DohIpv4.doh_servers self)) /\
    (forall name,
        In name (map fst (DohIpv4.doh_servers self)) ->
        (dict_get results name = None
         <-> exists e, In (TestFailed name e) lines)).
Proof.
  intros Hw Hnd Hp. rewrite run_console.
  unfold DohIpv4.run.
  replace (Z.leb max_workers 0) with false by (symmetry; apply Z.leb_gt; lia).
  fold (futures make_query_to_wire self domain_count p).
  set (done := DohIpv4.as_completed p
                 (futures make_query_to_wire self domain_count p)).
  assert (Hdone : NoDup (map snd done)).
  { apply completed_names; [exact Hp|]. now rewrite futures_doh_names. }
  eexists. eexists. split; [reflexivity|]. split; [reflexivity|]. split.
  - eapply perm_trans; [apply (live_names _ Hp)|].
    unfold futures, items. rewrite map_map.
    apply Permutation_refl'. apply map_ext. now intros [name url].
  - intros name Hin. apply in_map_iff in Hin.
    destruct Hin as ([n url] & En & Hin). cbn [fst] in En. subst n.
    set (f := fst (DohIpv4.test_server_on_domains make_query_to_wire self name
                     url domain_count (DohIpv4.world_of p name))).
    assert (Hf : In (f, name) done).
    { apply (Permutation_in _ (Permutation_sym (Hp _))).
      unfold futures. apply in_map_iff. exists (name, url). now split. }
    split.
    + intros Hnone.
      rewrite (@FleetProofs.doh_collect_entry done [] f name Hdone Hf) in Hnone.
      destruct f as [s|e] eqn:Ef; [discriminate|].
      exists e. now apply live_line_failed.
    + intros [e He]. apply live_line_failed in He.
      now rewrite (@FleetProofs.doh_collect_entry done [] (Raise e) name Hdone He).
Qed.

Lemma run_live_lines_witness :
  ((0 < 10)%Z /\ NoDup (map fst (DohIpv4.doh_servers empty_label_tester)) /\
   yields_each_once (DohIpv4.as_completed (doh_pool (world0 clock)))) /\
  exists lines results,
    DohCli.run strict_make_query empty_label_tester 2 10 (doh_pool (world0 clock))
    = ([DomainCount 2; Dashes] ++ lines, Ok results) /\
    In (str_of_string "Google DoH IPv4")
       (map fst (DohIpv4.doh_servers empty_label_tester)) /\
    (dict_get results (str_of_string "Google DoH IPv4") = None
     <-> exists e, In (TestFailed (str_of_string "Google DoH IPv4") e) lines).
Proof.
  assert (Hp : yields_each_once (DohIpv4.as_completed (doh_pool (world0 clock))))
    by (intros l; apply FleetProofs.rev_completes).
  assert (Hin : In (str_of_string "Google DoH IPv4")
                   (map fst (DohIpv4.doh_servers empty_label_tester)))
    by (right; right; now left).
  split; [repeat split; [exact FleetProofs.doh_servers_NoDup|exact Hp]|].
  destruct (@run_live_lines strict_make_query empty_label_tester 2 10
              (doh_pool (world0 clock)) eq_refl FleetProofs.doh_servers_NoDup Hp)
    as (lines & results & Hr & _ & _ & Hmiss).
  exists lines, results. split; [exact Hr|]. split; [exact Hin|].
  exact (Hmiss _ Hin).
Defined.

(** ** The command lines *)

Lemma distinct_NoDup (l : list str) : distinct l = true -> NoDup l.
Proof.
  induction l as [|x l IH]; cbn [distinct]; intros H; [constructor|].
  apply andb_true_iff in H. destruct H as [Hx Hl].
  constructor; [|now apply IH].
  intros Hin. apply negb_true_iff in Hx.
  assert (Hex : existsb (str_eqb x) l = true).
  { apply existsb_exists. exists x. split; [exact Hin|].
    now apply FleetProofs.str_eqb_eq. }
  congruence.
Qed.

Lemma builtin_names_NoDup : NoDup (map fst Tables.dns_servers).
Proof. apply distinct_NoDup. vm_compute. reflexivity. Qed.

Lemma main_stages (args : DnsCli.Args.t) (p : DnsIpv4.pool) :
  DnsCli.main args p
  = setup_lines args ++
    (if DnsCli.Args.list args
     then ListHeader
          :: map (fun '(name, ip) => ListEntry name ip)
               (DnsIpv4.dns_servers (configured args))
     else fst (DnsCli.run_speed_test (configured args) (DnsCli.Args.queries args)
                 (DnsCli.Args.workers args) p)
          ++ match snd (DnsCli.run_speed_test (configured args)
                          (DnsCli.Args.queries args)
                          (DnsCli.Args.workers args) p) with
             | Ok results => DnsCli.print_summary results
             | Raise e => [RunFailed e]
             end).
Proof.
  unfold DnsCli.main, setup_lines, configured, removed.
  destruct (DnsCli.Args.add_dns args) as [[n i]|];
    destruct (DnsCli.Args.remove_dns args) as [[|c r]|];
    (destruct (DnsCli.Args.list args);
     [reflexivity
     |destruct (DnsCli.run_speed_test _ _ _ p) as [o [results|e]]; cbn [fst snd];
      rewrite <- ?app_assoc; reflexivity]).
Qed.

Lemma configured_facts (args : DnsCli.Args.t) :
  Forall setup_line (setup_lines args) /\
  DnsIpv4.test_domains (configured args) = Tables.test_domains /\
  NoDup (map fst (DnsIpv4.dns_servers (configured args))) /\
  forall name,
    dict_get (DnsIpv4.dns_servers (configured args)) name = listed args name.
Proof.
  unfold setup_lines, configured, listed, added_or_builtin.
  pose proof builtin_names_NoDup as Hnd.
  destruct (DnsCli.Args.add_dns args) as [[n i]|];
    destruct (removed args) as [r|].
  all: split; [repeat constructor|].
  all: split; [reflexivity|].
  all: split.
  all: try (intros name; rewrite ConfigProofs.remove_filter,
              ConfigProofs.dict_get_filter).
  all: try (rewrite ConfigProofs.remove_filter;
            apply ConfigProofs.filter_keys_NoDup).
  all: try (cbn [DnsIpv4.add_custom_dns DnsIpv4.dns_servers
                 Tables.DNSSpeedTester_init]).
  all: try apply ConfigProofs.dict_set_NoDup.
  all: try exact Hnd.
  all: try (intros name).
  all: rewrite ?ConfigProofs.dict_get_set; reflexivity.
Qed.

Lemma In_setup_line (out : list line) (l : line) :
  Forall setup_line out -> In l out -> setup_line l.
Proof. intros H. exact (proj1 (Forall_forall _ _) H l). Qed.

(** [--list]: no test is run, whatever the other options are: the output
    does not depend on the network and has no live line.  A name is
    listed with an address exactly when it is not the name given to [-r]
    and the address is the one given to [-a] for that name or, failing
    that, the one of the built-in table. *)
Theorem main_list_servers (args : DnsCli.Args.t) (p : DnsIpv4.pool) :
  DnsCli.Args.list args = true ->
  (forall name ip,
      In (ListEntry name ip) (DnsCli.main args p) <-> listed args name = Some ip) /\
  Forall (fun l => resolver_of l = None) (DnsCli.main args p) /\
  (forall p', DnsCli.main args p' = DnsCli.main args p).
Proof.
  intros Hl.
  destruct (configured_facts args) as (Hout & _ & Hnd & Hget).
  split; [|split].
  - intros name ip. rewrite main_stages, Hl, <- Hget.
    rewrite (@dict_get_In _ _ name ip Hnd). split.
    + intros Hin. apply in_app_or in Hin. destruct Hin as [Hin|[Hin|Hin]].
      * apply (@In_setup_line _ _ Hout) in Hin. contradiction.
      * discriminate.
      * apply in_map_iff in Hin. destruct Hin as ([n i] & E & Hin).
        now injection E as -> ->.
    + intros Hin. apply in_or_app. right. right.
      apply in_map_iff. now exists (name, ip).
  - rewrite main_stages, Hl. apply Forall_app. split.
    + eapply Forall_impl; [|exact Hout]. now intros [].
    + constructor; [reflexivity|].
      apply Forall_forall. intros l Hin. apply in_map_iff in Hin.
      destruct Hin as ([n i] & <- & _). reflexivity.
  - intros p'. now rewrite !main_stages, Hl.
Qed.

(** [-a Local 192.168.1.1 -r Quad9 --list]. *)
Lemma main_list_servers_witness :
  In (ListEntry (str_of_string "Local") (str_of_string "192.168.1.1"))
     (DnsCli.main
        {| DnsCli.Args.queries := 5; DnsCli.Args.workers := 20;
           DnsCli.Args.add_dns :=
             Some (str_of_string "Local", str_of_string "192.168.1.1");
           DnsCli.Args.remove_dns := Some (str_of_string "Quad9");
           DnsCli.Args.list := true |}
        (udp_pool (world0 clock))) /\
  listed
    {| DnsCli.Args.queries := 5; DnsCli.Args.workers := 20;
       DnsCli.Args.add_dns :=
         Some (str_of_string "Local", str_of_string "192.168.1.1");
       DnsCli.Args.remove_dns := Some (str_of_string "Quad9");
       DnsCli.Args.list := true |}
    (str_of_string "Quad9") = None.
Proof.
  split; [|reflexivity].
  apply (proj1 (@main_list_servers
                  {| DnsCli.Args.queries := 5; DnsCli.Args.workers := 20;
                     DnsCli.Args.add_dns :=
                       Some (str_of_string "Local", str_of_string "192.168.1.1");
                     DnsCli.Args.remove_dns := Some (str_of_string "Quad9");
                     DnsCli.Args.list := true |}
                  (udp_pool (world0 clock)) eq_refl)).
  reflexivity.
Defined.

Lemma print_summary_no_fault (results : dict Stats.t) :
  Forall (fun l => fault_line l = false) (DnsCli.print_summary results).
Proof.
  rewrite SummaryProofs.print_summary_lines.
  destruct (DnsIpv4.sorted_results results) as [|[name s] rest].
  - repeat constructor.
  - apply Forall_app. split; [repeat constructor|].
    apply Forall_app. split; [|repeat constructor].
    apply Forall_forall. intros l Hin. apply in_map_iff in Hin.
    destruct Hin as ([i [n st]] & <- & _). reflexivity.
Qed.

(** The addresses of the built-in table are ASCII without a NUL
    character: the socket takes each of them as a host name. *)
Lemma builtin_hosts_accepted (codec : str -> bool) (name ip : str) :
  In (name, ip) Tables.dns_servers -> host_refused codec ip = false.
Proof.
  intros Hin.
  assert (H : forallb (fun e => negb (existsb (N.eqb 0) (snd e))
                                && forallb (fun c => N.ltb c 128) (snd e))
                Tables.dns_servers = true) by (vm_compute; reflexivity).
  pose proof (proj1 (forallb_forall _ _) H _ Hin) as Hq. cbn [snd] in Hq.
  apply andb_true_iff in Hq. destruct Hq as [H0 Ha].
  apply negb_true_iff in H0.
  unfold host_refused. now rewrite H0, Ha.
Qed.

(** A resolver [main] tests is the one given to [-a] or one of the
    built-in table. *)
Lemma configured_entry (args : DnsCli.Args.t) (name ip : str) :
  In (name, ip) (DnsIpv4.dns_servers (configured args)) ->
  DnsCli.Args.add_dns args = Some (name, ip) \/ In (name, ip) Tables.dns_servers.
Proof.
  destruct (configured_facts args) as (_ & _ & Hnd & Hget).
  intros Hin. apply (proj2 (@dict_get_In _ _ name ip Hnd)) in Hin.
  rewrite Hget in Hin.
  assert (Hab : added_or_builtin args name = Some ip).
  { unfold listed in Hin. destruct (removed args) as [r|]; [|exact Hin].
    destruct (str_eqb r name); [discriminate|exact Hin]. }
  unfold added_or_builtin in Hab.
  destruct (DnsCli.Args.add_dns args) as [[n i]|].
  - destruct (str_eqb n name) eqn:E.
    + apply FleetProofs.str_eqb_eq in E. subst n. injection Hab as ->.
      now left.
    + right. exact (proj1 (@dict_get_In _ _ name ip builtin_names_NoDup) Hab).
  - right. exact (proj1 (@dict_get_In _ _ name ip builtin_names_NoDup) Hab).
Qed.

(** Where a line that reports a fault can come from. *)
Lemma main_fault_lines_inv (args : DnsCli.Args.t) (p : DnsIpv4.pool) (l : line) :
  In l (DnsCli.main args p) ->
  fault_line l = true ->
  DnsCli.Args.list args = false /\
  (((DnsCli.Args.workers args <= 0)%Z /\ l = RunFailed ValueError) \/
   ((0 < DnsCli.Args.workers args)%Z /\
    In l (map live_line
            (DnsIpv4.as_completed p
               (future_to_server (configured args) (DnsCli.Args.queries args)
                  p))))).
Proof.
  destruct (configured_facts args) as (Hout & _).
  rewrite main_stages, run_speed_test_console. cbn [fst snd].
  unfold DnsIpv4.run_speed_test.
  fold (future_to_server (configured args) (DnsCli.Args.queries args) p).
  intros Hin Hf. apply in_app_or in Hin. destruct Hin as [Hin|Hin].
  - apply (@In_setup_line _ _ Hout) in Hin.
    destruct l; cbn in Hin, Hf; solve [contradiction | discriminate].
  - destruct (DnsCli.Args.list args).
    + destruct Hin as [<-|Hin]; [discriminate|].
      apply in_map_iff in Hin. destruct Hin as ([n i] & <- & _). discriminate.
    + split; [reflexivity|].
      destruct (Z.leb (DnsCli.Args.workers args) 0) eqn:Ew.
      * left. apply Z.leb_le in Ew. split; [exact Ew|].
        destruct Hin as [<-|[<-|[<-|[<-|[]]]]]; solve [discriminate|reflexivity].
      * right. apply Z.leb_gt in Ew. split; [exact Ew|].
        apply in_app_or in Hin. destruct Hin as [Hin|Hin].
        -- destruct Hin as [<-|[<-|[<-|Hin]]]; try discriminate. exact Hin.
        -- pose proof (proj1 (Forall_forall _ _)
                         (print_summary_no_fault
                            (fold_left DnsIpv4.collect
                               (DnsIpv4.as_completed p
                                  (future_to_server (configured args)
                                     (DnsCli.Args.queries args) p)) []))
                         l Hin) as Hn.
           cbv beta in Hn. congruence.
Qed.

(** The lines of [main] of [dns_ipv4.py] that report a fault, whatever
    the options and the network.  The line of a failed test is printed
    only for the resolver given to [-a], only when the socket refuses its
    address as a host name, and it shows the [TypeError] of that refusal:
    no resolver of the built-in table gets one.  The error line of
    [main] appears only for a number of workers that is not positive,
    with the [ValueError] of the thread pool; in that case it is the last
    line, and no resolver was tested. *)
Theorem main_fault_lines (args : DnsCli.Args.t) (p : DnsIpv4.pool) :
  yields_each_once (DnsIpv4.as_completed p) ->
  (forall name e,
      In (TestFailed name e) (DnsCli.main args p) ->
      e = TypeError /\
      exists ip,
        DnsCli.Args.add_dns args = Some (name, ip) /\
        host_refused (idna (DnsIpv4.world_of p name)) ip = true) /\
  (forall e,
      In (RunFailed e) (DnsCli.main args p) ->
      e = ValueError /\ DnsCli.Args.list args = false /\
      (DnsCli.Args.workers args <= 0)%Z) /\
  (DnsCli.Args.list args = false ->
   (DnsCli.Args.workers args <= 0)%Z ->
   exists out,
     DnsCli.main args p = out ++ [RunFailed ValueError] /\
     Forall (fun l => resolver_of l = None) out).
Proof.
  intros Hp.
  destruct (configured_facts args) as (Hout & Hdom & _ & _).
  split; [|split].
  - intros name e Hin.
    destruct (@main_fault_lines_inv args p _ Hin eq_refl)
      as (_ & [(_ & E)|(_ & Hl)]); [discriminate|].
    apply live_line_failed in Hl.
    apply (Permutation_in _ (Hp _)) in Hl.
    unfold future_to_server in Hl. apply in_map_iff in Hl.
    destruct Hl as ([n ip] & E & Hs). injection E as E ->.
    assert (Hd : Forall (fun d => returns (DnsCodec.create_dns_query d))
                   (DnsIpv4.test_domains (configured args))).
    { rewrite Hdom. exact CodecProofs.test_domains_encodable. }
    destruct (@TraceProofs.encodable_sampler_raises (configured args) name ip
                (DnsCli.Args.queries args) (DnsIpv4.world_of p name) e Hd E)
      as (-> & Hr).
    split; [reflexivity|]. exists ip. split; [|exact Hr].
    destruct (@configured_entry args name ip Hs) as [Ha|Hb]; [exact Ha|].
    rewrite (@builtin_hosts_accepted _ name ip Hb) in Hr. discriminate.
  - intros e Hin.
    destruct (@main_fault_lines_inv args p _ Hin eq_refl)
      as (Hl & [(Hw & E)|(_ & Hlive)]).
    + injection E as ->. now repeat split.
    + apply in_map_iff in Hlive. destruct Hlive as (f & E & _).
      unfold live_line in E.
      destruct (fst f) as [s|e']; [destruct (feq (Stats.avg s) Inf)|];
        discriminate.
  - intros Hl Hw.
    rewrite main_stages, run_speed_test_console. cbn [fst snd].
    unfold DnsIpv4.run_speed_test. rewrite Hl.
    replace (Z.leb (DnsCli.Args.workers args) 0) with true
      by (symmetry; apply Z.leb_le; exact Hw).
    exists (setup_lines args
            ++ [Starting (len (DnsIpv4.dns_servers (configured args)));
                QueriesPerServer (DnsCli.Args.queries args); Dashes]).
    split; [now rewrite <- !app_assoc|].
    apply Forall_app. split; [|repeat constructor].
    eapply Forall_impl; [|exact Hout]. now intros [].
Qed.

(** [-a Local é..b]: the tasks complete in the reverse of the order of
    submission, so the first live line is the failed test of the added
    resolver, whose address the socket refuses. *)
Lemma main_fault_lines_witness :
  yields_each_once (DnsIpv4.as_completed (udp_pool (world0 clock))) /\
  In (TestFailed (str_of_string "Local") TypeError)
     (DnsCli.main
        {| DnsCli.Args.queries := 2; DnsCli.Args.workers := 20;
           DnsCli.Args.add_dns :=
             Some (str_of_string "Local", [233; 46; 46; 98]%N);
           DnsCli.Args.remove_dns := None;
           DnsCli.Args.list := false |}
        (udp_pool (world0 clock))) /\
  exists ip,
    Some (str_of_string "Local", [233; 46; 46; 98]%N)
    = Some (str_of_string "Local", ip) /\
    host_refused (idna (world0 clock)) ip = true.
Proof.
  assert (Hp : yields_each_once (DnsIpv4.as_completed (udp_pool (world0 clock))))
    by (intros l; apply FleetProofs.rev_completes).
  assert (Hin : In (TestFailed (str_of_string "Local") TypeError)
                   (DnsCli.main
                      {| DnsCli.Args.queries := 2; DnsCli.Args.workers := 20;
                         DnsCli.Args.add_dns :=
                           Some (str_of_string "Local", [233; 46; 46; 98]%N);
                         DnsCli.Args.remove_dns := None;
                         DnsCli.Args.list := false |}
                      (udp_pool (world0 clock)))).
  { vm_compute. do 4 right. left. reflexivity. }
  split; [exact Hp|]. split; [exact Hin|].
  exact (proj2 (proj1 (@main_fault_lines _ (udp_pool (world0 clock)) Hp)
                  _ _ Hin)).
Defined.

(** [main] of [doh_ipv4.py] has no handler, and [run] lets no exception
    of a task out: whatever dnspython and the network do, [main] raises
    exactly when the number of workers is not positive, with the
    [ValueError] of the thread pool, and has then printed the two
    opening lines and nothing else.  With a positive number of workers
    it returns, and its output is the two opening lines, then the live
    line of each task in the order of completion, then the summary of
    the mapping that holds the statistics of the tasks that returned, in
    the order of completion. *)
Theorem doh_main_raises_iff (make_query_to_wire : str -> result bytes)
    (args : DohCli.Args.t) (p : DohIpv4.pool) :
  (forall e,
      snd (DohCli.main make_query_to_wire args p) = Raise e
      <-> (DohCli.Args.workers args <= 0)%Z /\ e = ValueError) /\
  ((DohCli.Args.workers args <= 0)%Z ->
   fst (DohCli.main make_query_to_wire args p)
   = [DomainCount (DohCli.Args.num args); Dashes]) /\
  ((0 < DohCli.Args.workers args)%Z ->
   yields_each_once (DohIpv4.as_completed p) ->
   DohCli.main make_query_to_wire args p
   = ([DomainCount (DohCli.Args.num args); Dashes]
      ++ map live_line
           (DohIpv4.as_completed p
              (futures make_query_to_wire Tables.DoHSpeedTester_init
                 (DohCli.Args.num args) p))
      ++ DohCli.print_summary
           (map entry
              (filter returned
                 (DohIpv4.as_completed p
                    (futures make_query_to_wire Tables.DoHSpeedTester_init
                       (DohCli.Args.num args) p)))),
      Ok tt)).
Proof.
  split; [|split].
  - intros e. unfold DohCli.main. rewrite run_console. unfold DohIpv4.run.
    destruct (Z.leb (DohCli.Args.workers args) 0) eqn:Ew; cbn [snd].
    + apply Z.leb_le in Ew. split.
      * intros E. injection E as <-. now split.
      * now intros (_ & ->).
    + apply Z.leb_gt in Ew. split; [discriminate|]. intros (Hw & _). lia.
  - intros Hw. unfold DohCli.main. rewrite run_console. unfold DohIpv4.run.
    replace (Z.leb (DohCli.Args.workers args) 0) with true
      by (symmetry; apply Z.leb_le; exact Hw).
    reflexivity.
  - intros Hw Hp. unfold DohCli.main. rewrite run_console.
    rewrite (@run_closed make_query_to_wire Tables.DoHSpeedTester_init
               (DohCli.Args.num args) (DohCli.Args.workers args) p Hw
               FleetProofs.doh_servers_NoDup Hp).
    replace (Z.leb (DohCli.Args.workers args) 0) with false
      by (symmetry; apply Z.leb_gt; exact Hw).
    rewrite <- app_assoc. reflexivity.
Qed.

End CliProofs.
